(** * A protocol-translating WebSocket relay: the per-client session

    Shallow embedding of the two relay servers of the repository,

    - [python-server/hybrid_server.py] (class [HybridElevenLabsRelay], the
      three-way variant: browser, conversational AI, text-to-speech), and
    - [python-server/server.py] (class [ElevenLabsRelay], the two-way
      variant: browser, conversational AI),

    together with the properties their design document states about them.

    The Python coroutines are rendered in a small state-and-exception
    monad.  The state holds what the handlers can observe or change: which
    sockets report [.closed], the dictionary [self.connections], and the
    sequence of calls that returned normally (sends, closes, connection
    attempts, registry updates, log lines).  What the outside world does
    (which frames arrive, which connection attempts succeed, which socket
    goes away) is an input. *)

From Stdlib Require Import ZArith Ascii String List Lia.
From stdpp Require Import base decidable option list strings gmap.
Import ListNotations.
Local Open Scope string_scope.
Local Open Scope Z_scope.
Local Open Scope list_scope.
Set Warnings "-register-all,-clear-no-such-hyp".

(** ** JSON values, as [json.loads] returns them and [json.dumps] takes them *)

(** A Python [float] is carried as a decimal [mantissa * 10 ^ exponent]; the
    relay never computes with one, it only copies them or tests them for
    truth.  A [dict] is the list of its items in insertion order, each key
    once. *)
Inductive json : Type :=
| JNull
| JBool (b : bool)
| JInt (z : Z)
| JFloat (mantissa exponent : Z)
| JStr (s : string)
| JArr (items : list json)
| JObj (items : list (string * json)).

(** Python's truth value of an object ([if x:]). *)
Definition truthy (v : json) : bool :=
  match v with
  | JNull => false
  | JBool b => b
  | JInt z => negb (z =? 0)
  | JFloat m _ => negb (m =? 0)
  | JStr s => negb (String.eqb s "")
  | JArr l => match l with [] => false | _ => true end
  | JObj l => match l with [] => false | _ => true end
  end.

(** [v == "lit"] for a string literal: only the equal string compares equal. *)
Definition eq_str (v : json) (lit : string) : bool :=
  match v with
  | JStr s => String.eqb s lit
  | _ => false
  end.

(** Item lookup in a dict. *)
Fixpoint assoc (k : string) (items : list (string * json)) : option json :=
  match items with
  | [] => None
  | (k', v) :: rest => if String.eqb k k' then Some v else assoc k rest
  end.

(** ** Exceptions *)

Inductive exn : Type :=
| ConnectionClosed (code : Z) (reason : string)
    (* websockets.exceptions.ConnectionClosed *)
| JSONDecodeError                (* json.JSONDecodeError *)
| AttributeError                 (* [.get] on a value that is not a dict *)
| KeyError                       (* [d[k]] or [del d[k]] on a missing key *)
| TypeError                      (* [d[k]] on a value that cannot be indexed by a string *)
| ConnectError (detail : string) (* whatever [connect] raised; [detail] is its [str] *)
| ProtocolError                  (* websockets.exceptions.ProtocolError: a frame
                                    that cannot be sent, here a control frame
                                    that is too long *).

(** ** Sockets, messages and the record of what the relay did *)

(** A socket object, by identity. *)
Definition handle := nat.

(** What is passed to [ws.send]: [json.dumps(v)] for a value built by the
    relay, or a received frame passed on untouched. *)
Inductive payload : Type :=
| Dumps (v : json)
| Raw (frame : string).

(** The reason string of a close frame: a literal, or [str(e)]. *)
Inductive close_reason : Type :=
| Reason (text : string)
| StrOf (e : exn).

Inductive level : Type := INFO | ERROR.

(** A formatted log line: the pieces of the f-string in order. *)
Inductive piece : Type :=
| Lit (text : string)
| Quote                 (* a double-quote character of the template *)
| Val (v : json)        (* an interpolated Python value *)
| Str (s : string)      (* an interpolated string: a frame, a path, a reason *)
| Exc (e : exn)         (* an interpolated exception *)
| Num (z : Z)           (* an interpolated integer *)
| Peer (h : handle)     (* [h.remote_address] *).

Inductive endpoint : Type :=
| AIEndpoint (uri : string) (api_key_header : string)
| TTSEndpoint (uri : string).

Inductive action : Type :=
| Dial (ep : endpoint)                                (* [await connect(...)] was called *)
| Send (h : handle) (p : payload)                     (* [await h.send(p)] returned *)
| Close (h : handle) (code : Z) (why : close_reason)  (* [await h.close(code, why)] returned, on a
                                                         socket whose [.closed] was [False] *)
| Register (h : handle)                               (* [self.connections[h] = ...] *)
| Unregister (h : handle)                             (* [del self.connections[h]] *)
| Log (lvl : level) (line : list piece).

(** ** The monad *)

Section Monad.
(** The type of the values of [self.connections]. *)
Context {entry : Type}.

Record state : Type := mkState {
  closed : gset handle;             (* sockets whose [.closed] is [True] *)
  connections : gmap handle entry;  (* [self.connections] *)
  trace : list action               (* what has been done so far, oldest first *)
}.

(** A coroutine returns, raises, or stays suspended for ever on an
    [await] (a [recv] on which nothing arrives any more). *)
Inductive outcome (A : Type) : Type :=
| Ret (a : A)
| Raise (e : exn)
| Suspended.

Definition M (A : Type) : Type := state -> outcome A * state.
End Monad.

Arguments state : clear implicits.
Arguments M : clear implicits.
Arguments Ret {A} a.
Arguments Raise {A} e.
Arguments Suspended {A}.

Section Operations.
Context {entry : Type}.
Local Abbreviation M := (M entry).
Local Abbreviation state := (state entry).

Definition ret {A} (a : A) : M A := fun st => (Ret a, st).
Definition raise {A} (e : exn) : M A := fun st => (Raise e, st).
Definition suspend {A} : M A := fun st => (Suspended, st).

Definition bind {A B} (m : M A) (k : A -> M B) : M B :=
  fun st =>
    match m st with
    | (Ret a, st') => k a st'
    | (Raise e, st') => (Raise e, st')
    | (Suspended, st') => (Suspended, st')
    end.

(** [try: body / except <filter> as e: handler e]; an exception the
    filter rejects passes through. *)
Definition try_except {A} (body : M A) (handler : exn -> option (M A)) : M A :=
  fun st =>
    match body st with
    | (Raise e, st') =>
        match handler e with
        | Some h => h st'
        | None => (Raise e, st')
        end
    | r => r
    end.

(** [try: body / finally: fin].  The [finally] block runs when the body
    returned or raised; an exception of the block itself wins. *)
Definition try_finally {A} (body : M A) (fin : M unit) : M A :=
  fun st =>
    match body st with
    | (Suspended, st') => (Suspended, st')
    | (r, st') =>
        match fin st' with
        | (Ret _, st'') => (r, st'')
        | (Raise e, st'') => (Raise e, st'')
        | (Suspended, st'') => (Suspended, st'')
        end
    end.

Definition emit (a : action) : M unit :=
  fun st => (Ret tt, mkState (closed st) (connections st) (trace st ++ [a])).

Definition log (lvl : level) (line : list piece) : M unit := emit (Log lvl line).

(** [h.closed] *)
Definition is_closed (h : handle) : M bool :=
  fun st => (Ret (bool_decide (h ∈ closed st)), st).

(** The connection of [h] goes away (seen from inside the relay: [h.closed]
    turns [True]). *)
Definition mark_closed (h : handle) : M unit :=
  fun st => (Ret tt, mkState ({[h]} ∪ closed st) (connections st) (trace st)).

(** [await h.send(p)]: raises [ConnectionClosed] on a closed socket.  The
    exception carries the code and reason with which the connection ended;
    the state does not keep them, and 1006 with an empty reason stands for
    them. *)
Definition send (h : handle) (p : payload) : M unit :=
  fun st =>
    if bool_decide (h ∈ closed st)
    then (Raise (ConnectionClosed 1006 ""), st)
    else emit (Send h p) st.

(** A close frame is a control frame: its payload, the two bytes of the
    code followed by the reason, is at most 125 bytes long, which leaves 123
    bytes for the reason; a string of the model holds the bytes of the
    Python string in UTF-8, so that [String.length] counts them.  The reason
    is a literal of the servers or the [str] of an exception.  What
    [connect] raised carries its message; the other exceptions of the model
    are raised by the relay's own calls and carry none, and their [str]
    counts as short enough. *)
Definition oversized (why : close_reason) : bool :=
  match why with
  | Reason text | StrOf (ConnectError text) => (123 <? String.length text)%nat
  | StrOf _ => false
  end.

(** [await h.close(code, why)]: does nothing on a closed socket and closes
    an open one; when the reason does not fit the close frame it raises
    [ProtocolError] instead, no frame is sent and [h.closed] stays
    [False]. *)
Definition close (h : handle) (code : Z) (why : close_reason) : M unit :=
  fun st =>
    if bool_decide (h ∈ closed st)
    then (Ret tt, st)
    else if oversized why
    then (Raise ProtocolError, st)
    else (Ret tt, mkState ({[h]} ∪ closed st) (connections st)
                          (trace st ++ [Close h code why])).

(** [h in self.connections] *)
Definition registered (h : handle) : M bool :=
  fun st => (Ret (bool_decide (is_Some (connections st !! h))), st).

(** [self.connections[h] = e] *)
Definition register (h : handle) (e : entry) : M unit :=
  fun st => (Ret tt, mkState (closed st) (<[h := e]> (connections st))
                             (trace st ++ [Register h])).

(** [self.connections[h]] *)
Definition registry_get (h : handle) : M entry :=
  fun st =>
    match connections st !! h with
    | Some e => (Ret e, st)
    | None => (Raise KeyError, st)
    end.

(** [del self.connections[h]] *)
Definition unregister (h : handle) : M unit :=
  fun st =>
    match connections st !! h with
    | Some _ => (Ret tt, mkState (closed st) (delete h (connections st))
                                 (trace st ++ [Unregister h]))
    | None => (Raise KeyError, st)
    end.
End Operations.

Declare Scope relay_scope.
Delimit Scope relay_scope with relay.
Notation "x <- m ;; k" := (bind m (fun x => k))
  (at level 100, m at next level, right associativity) : relay_scope.
Notation "m ;; k" := (bind m (fun _ => k))
  (at level 100, right associativity) : relay_scope.
Notation "'when' b 'then' m" := (if b then m else ret tt)
  (at level 100, b at next level, right associativity) : relay_scope.

(** ** What both servers share *)

(** What an [await ws.recv()] produces: the next frame, or
    [ConnectionClosed] once the connection is gone. *)
Inductive arrival : Type :=
| Message (m : string)
| Gone (code : Z) (reason : string).

(** What an [await connect(...)] produces: a new open socket, or an
    exception. *)
Inductive connect_result : Type :=
| Connected (h : handle)
| Refused (e : exn).

(** What happens while the loops run, in the order in which the event loop
    sees it: the [recv] of one loop completes, or a connection goes away
    without its loop having been resumed yet. *)
Inductive event (loop : Type) : Type :=
| Arrive (who : loop) (a : arrival)
| Hangup (who : loop).
Arguments Arrive {loop} who a.
Arguments Hangup {loop} who.

Section Shared.
Context {entry : Type}.
Local Abbreviation M := (M entry).
Local Open Scope relay_scope.

(** [d.get(k, default)] *)
Definition py_get (d : json) (k : string) (default : json) : M json :=
  match d with
  | JObj items => ret (match assoc k items with Some v => v | None => default end)
  | _ => raise AttributeError
  end.

(** [d[k]] *)
Definition py_item (d : json) (k : string) : M json :=
  match d with
  | JObj items =>
      match assoc k items with
      | Some v => ret v
      | None => raise KeyError
      end
  | _ => raise TypeError
  end.

(** [await ws.recv()] *)
Definition recv (ws : handle) (a : arrival) : M string :=
  match a with
  | Message m => ret m
  | Gone code reason => mark_closed ws ;; raise (ConnectionClosed code reason)
  end.

(** [await connect(uri, ...)]: the socket it returns is open. *)
Definition connect (ep : endpoint) (r : connect_result) : M handle :=
  emit (Dial ep) ;;
  match r with
  | Connected h =>
      fun st => (Ret h, mkState (closed st ∖ {[h]}) (connections st) (trace st))
  | Refused e => raise e
  end.

(** [await asyncio.gather(loop_1(), ..., loop_n())], every loop being a
    [while True] around one [recv].  [iteration who a] is one turn of the
    loop [who] whose [recv] produced [a], including the [except] clause
    around the loop.  The first exception that leaves a loop leaves
    [gather]; with nothing left to arrive, every loop stays in its
    [recv].  [gather] does not cancel the other loops when one raises:
    what they still do while the handler cleans up is not part of [sched]
    and not modelled. *)
Fixpoint gather {loop : Type} (iteration : loop -> arrival -> M unit)
    (sock : loop -> handle) (sched : list (event loop)) : M unit :=
  match sched with
  | [] => suspend
  | Arrive who a :: rest => iteration who a ;; gather iteration sock rest
  | Hangup who :: rest => mark_closed (sock who) ;; gather iteration sock rest
  end.
End Shared.

(** [path.split("?")[0]] *)
Fixpoint split_head (path : string) : string :=
  match path with
  | EmptyString => EmptyString
  | String c rest =>
      if Ascii.eqb c "?" then EmptyString else String c (split_head rest)
  end.

(** ** The three-way relay: [hybrid_server.py] *)

Module Hybrid.

(** The value stored in [self.connections]: [{'ai': ..., 'tts': ...}]. *)
Record upstreams : Type := mkUpstreams { ai : handle; tts : handle }.

Local Abbreviation M := (M upstreams).
Local Open Scope relay_scope.

(** The three coroutines handed to [asyncio.gather]. *)
Inductive loop : Type := Browser | AI | TTS.

(** The dict [session_created] that the connection handler builds. *)
Definition session_created : json :=
  JObj [
    ("type", JStr "session.created");
    ("session", JObj [
      ("id", JStr "elevenlabs_hybrid_session");
      ("object", JStr "realtime.session");
      ("model", JStr "elevenlabs-hybrid");
      ("modalities", JArr [JStr "text"; JStr "audio"]);
      ("instructions", JStr "ElevenLabs Hybrid Agent");
      ("voice", JStr "elevenlabs-tts-voice");
      ("input_audio_format", JStr "pcm16");
      ("output_audio_format", JStr "pcm16");
      ("input_audio_transcription", JNull);
      ("turn_detection", JObj [
        ("type", JStr "server_vad");
        ("threshold", JFloat 5 (-1));
        ("prefix_padding_ms", JInt 300);
        ("silence_duration_ms", JInt 200)]);
      ("tools", JArr []);
      ("tool_choice", JStr "auto");
      ("temperature", JFloat 8 (-1));
      ("max_response_output_tokens", JStr "inf")])].

Section Server.
(** [json.loads]: [None] when it raises. *)
Variable json_loads : string -> option json.
(** The module constants read from the process environment. *)
Variables ELEVENLABS_API_KEY ELEVENLABS_AGENT_ID ELEVENLABS_VOICE_ID : string.

Definition loads (message : string) : M json :=
  match json_loads message with
  | Some v => ret v
  | None => raise JSONDecodeError
  end.

Definition connect_to_elevenlabs_ai (r : connect_result) : M handle :=
  let uri := "wss://api.elevenlabs.io/v1/convai/conversation?agent_id="
               +:+ ELEVENLABS_AGENT_ID in
  try_except
    (ws <- connect (AIEndpoint uri ELEVENLABS_API_KEY) r ;;
     log INFO [Lit "Successfully connected to ElevenLabs Conversational AI"] ;;
     ret ws)
    (fun e => Some (
       log ERROR [Lit "Failed to connect to ElevenLabs AI: "; Exc e] ;;
       raise e)).

Definition init_message : json :=
  JObj [
    ("text", JStr " ");
    ("voice_settings", JObj [
      ("stability", JFloat 5 (-1));
      ("similarity_boost", JFloat 8 (-1));
      ("use_speaker_boost", JBool false)]);
    ("generation_config", JObj [
      ("chunk_length_schedule", JArr [JInt 120; JInt 160; JInt 250; JInt 290])]);
    ("xi_api_key", JStr ELEVENLABS_API_KEY)].

Definition connect_to_elevenlabs_tts (r : connect_result) : M handle :=
  let uri := "wss://api.elevenlabs.io/v1/text-to-speech/"
               +:+ ELEVENLABS_VOICE_ID
               +:+ "/stream-input?model_id=eleven_flash_v2_5" in
  try_except
    (ws <- connect (TTSEndpoint uri) r ;;
     log INFO [Lit "Successfully connected to ElevenLabs TTS"] ;;
     send ws (Dumps init_message) ;;
     log INFO [Lit "Initialized ElevenLabs TTS session"] ;;
     ret ws)
    (fun e => Some (
       log ERROR [Lit "Failed to connect to ElevenLabs TTS: "; Exc e] ;;
       raise e)).

Section Session.
(** The three sockets the nested coroutines close over. *)
Variables websocket elevenlabs_ai_ws elevenlabs_tts_ws : handle.

(** The [except websockets.exceptions.ConnectionClosed as e] clause around
    each loop: one log line, which starts with [prefix] and goes on with
    [e.code] and [e.reason], then [raise]. *)
Definition on_connection_closed (prefix : string) (e : exn) : option (M unit) :=
  match e with
  | ConnectionClosed code reason =>
      Some (log INFO [Lit prefix; Num code; Lit ", reason="; Str reason] ;;
            raise e)
  | _ => None
  end.

(** One turn of the loop of [handle_browser_messages]. *)
Definition handle_browser_messages (a : arrival) : M unit :=
  try_except
    (message <- recv websocket a ;;
     try_except
       (event <- loads message ;;
        event_type <- py_get event "type" JNull ;;
        if eq_str event_type "session.update" then
          log INFO [Lit "Received session.update, acknowledging"] ;;
          session <- py_item session_created "session" ;;
          let ack_event :=
            JObj [("type", JStr "session.updated"); ("session", session)] in
          send websocket (Dumps ack_event)
        else if eq_str event_type "input_audio_buffer.append" then
          log INFO [Lit "Forwarding audio input to ElevenLabs AI"] ;;
          audio <- py_get event "audio" (JStr "") ;;
          let ai_message := JObj [("user_audio_chunk", audio)] in
          send elevenlabs_ai_ws (Dumps ai_message)
        else if eq_str event_type "input_audio_buffer.commit" then
          log INFO [Lit "Committing audio buffer"]
        else if eq_str event_type "response.create" then
          log INFO [Lit "Creating response"]
        else
          log INFO [Lit "Received event "; Quote; Val event_type; Quote;
                    Lit " from browser"])
       (fun e => Some (
          match e with
          | JSONDecodeError =>
              log ERROR [Lit "Invalid JSON from browser: "; Str message]
          | _ =>
              log ERROR [Lit "Error processing browser message: "; Exc e]
          end)))
    (on_connection_closed "Browser connection closed: code=").

(** One turn of the loop of [handle_elevenlabs_ai_messages]. *)
Definition handle_elevenlabs_ai_messages (a : arrival) : M unit :=
  try_except
    (message <- recv elevenlabs_ai_ws a ;;
     try_except
       (event <- loads message ;;
        event_type <- py_get event "type" JNull ;;
        log INFO [Lit "Received AI event: "; Val event_type] ;;
        if eq_str event_type "agent_response" then
          agent_response <- py_get event "agent_response_event" (JObj []) ;;
          text_response <- py_get agent_response "agent_response" (JStr "") ;;
          if truthy text_response then
            log INFO [Lit "Converting to speech: "; Val text_response] ;;
            let tts_message :=
              JObj [("text", text_response); ("flush", JBool true)] in
            send elevenlabs_tts_ws (Dumps tts_message) ;;
            let text_event :=
              JObj [("type", JStr "response.text.delta");
                    ("response_id", JStr "elevenlabs_response");
                    ("item_id", JStr "elevenlabs_text");
                    ("output_index", JInt 0);
                    ("content_index", JInt 0);
                    ("delta", text_response)] in
            send websocket (Dumps text_event) ;;
            log INFO [Lit "Sent text to TTS and forwarded to browser"]
          else ret tt
        else if eq_str event_type "user_transcript" then
          log INFO [Lit "User transcript received"]
        else if eq_str event_type "interruption"
                || eq_str event_type "agent_response_correction" then
          let openai_event := JObj [("type", JStr "conversation.interrupted")] in
          send websocket (Dumps openai_event) ;;
          log INFO [Lit "Relayed interruption from ElevenLabs AI"]
        else if eq_str event_type "ping" then
          ret tt
        else
          log INFO [Lit "Unhandled AI event "; Quote; Val event_type; Quote;
                    Lit ": "; Str message])
       (fun e => Some (
          match e with
          | JSONDecodeError =>
              log ERROR [Lit "Invalid JSON from ElevenLabs AI: "; Str message]
          | _ =>
              log ERROR [Lit "Error processing ElevenLabs AI message: "; Exc e]
          end)))
    (on_connection_closed "ElevenLabs AI connection closed: code=").

(** One turn of the loop of [handle_elevenlabs_tts_messages]. *)
Definition handle_elevenlabs_tts_messages (a : arrival) : M unit :=
  try_except
    (message <- recv elevenlabs_tts_ws a ;;
     try_except
       (data <- loads message ;;
        audio <- py_get data "audio" JNull ;;
        if truthy audio then
          audio_data <- py_item data "audio" ;;
          let openai_event :=
            JObj [("type", JStr "response.audio.delta");
                  ("response_id", JStr "elevenlabs_tts_response");
                  ("item_id", JStr "elevenlabs_tts_audio");
                  ("output_index", JInt 0);
                  ("content_index", JInt 0);
                  ("delta", audio_data)] in
          send websocket (Dumps openai_event) ;;
          log INFO [Lit "Relayed TTS audio to browser"]
        else
          is_final <- py_get data "isFinal" JNull ;;
          if truthy is_final then
            let completion_event := JObj [("type", JStr "response.audio.done")] in
            send websocket (Dumps completion_event) ;;
            log INFO [Lit "TTS audio generation completed"]
          else ret tt)
       (fun e => Some (
          match e with
          | JSONDecodeError =>
              log ERROR [Lit "Invalid JSON from ElevenLabs TTS: "; Str message]
          | _ =>
              log ERROR [Lit "Error processing ElevenLabs TTS message: "; Exc e]
          end)))
    (on_connection_closed "ElevenLabs TTS connection closed: code=").

Definition iteration (who : loop) : arrival -> M unit :=
  match who with
  | Browser => handle_browser_messages
  | AI => handle_elevenlabs_ai_messages
  | TTS => handle_elevenlabs_tts_messages
  end.

Definition sock (who : loop) : handle :=
  match who with
  | Browser => websocket
  | AI => elevenlabs_ai_ws
  | TTS => elevenlabs_tts_ws
  end.

(** [asyncio.gather(handle_browser_messages(),
    handle_elevenlabs_ai_messages(), handle_elevenlabs_tts_messages())] *)
Definition pump (sched : list (event loop)) : M unit :=
  gather iteration sock sched.

End Session.

(** The [finally] block of [handle_browser_connection]. *)
Definition cleanup (websocket : handle) : M unit :=
  known <- registered websocket ;;
  (if known then
     connections <- registry_get websocket ;;
     ai_closed <- is_closed (ai connections) ;;
     (when negb ai_closed
      then close (ai connections) 1000 (Reason "Normal closure")) ;;
     tts_closed <- is_closed (tts connections) ;;
     (when negb tts_closed
      then close (tts connections) 1000 (Reason "Normal closure")) ;;
     unregister websocket
   else ret tt) ;;
  ws_closed <- is_closed websocket ;;
  when negb ws_closed then close websocket 1000 (Reason "Normal closure").

(** The [except Exception as e] clause of [handle_browser_connection]. *)
Definition on_error (websocket : handle) (e : exn) : M unit :=
  log ERROR [Lit "Error handling connection: "; Exc e] ;;
  ws_closed <- is_closed websocket ;;
  when negb ws_closed then close websocket 1011 (StrOf e).

(** The body of the outer [try] of [handle_browser_connection]: both
    connection attempts, the registration, the handshake event and the
    three loops. *)
Definition session (websocket : handle) (ai_conn tts_conn : connect_result)
    (sched : list (event loop)) : M unit :=
  elevenlabs_ai_ws <- connect_to_elevenlabs_ai ai_conn ;;
  elevenlabs_tts_ws <- connect_to_elevenlabs_tts tts_conn ;;
  register websocket (mkUpstreams elevenlabs_ai_ws elevenlabs_tts_ws) ;;
  log INFO [Lit "Connected to both ElevenLabs AI and TTS successfully!"] ;;
  send websocket (Dumps session_created) ;;
  log INFO [Lit "Sent session.created to browser"] ;;
  try_except
    (pump websocket elevenlabs_ai_ws elevenlabs_tts_ws sched)
    (fun e =>
       match e with
       | ConnectionClosed _ _ =>
           Some (log INFO [Lit "Connection closed, cleaning up"])
       | _ => None
       end).

Definition handle_browser_connection (websocket : handle) (path : string)
    (ai_conn tts_conn : connect_result) (sched : list (event loop)) : M unit :=
  let base_path := split_head path in
  if negb (String.eqb base_path "/") then
    log ERROR [Lit "Invalid path: "; Str path] ;;
    close websocket 1008 (Reason "Invalid path")
  else
    log INFO [Lit "Browser connected from "; Peer websocket] ;;
    try_finally
      (try_except (session websocket ai_conn tts_conn sched)
                  (fun e => Some (on_error websocket e)))
      (cleanup websocket).

End Server.
End Hybrid.

(** ** The two-way relay: [server.py] *)

Module TwoWay.

(** [self.connections] maps the browser socket to the upstream socket. *)
Local Abbreviation M := (M handle).
Local Open Scope relay_scope.

(** The two coroutines handed to [asyncio.gather]. *)
Inductive loop : Type := Browser | ElevenLabs.

(** The dict [session_created] that the connection handler builds. *)
Definition session_created : json :=
  JObj [
    ("type", JStr "session.created");
    ("session", JObj [
      ("id", JStr "elevenlabs_session");
      ("object", JStr "realtime.session");
      ("model", JStr "elevenlabs-conversational-ai");
      ("modalities", JArr [JStr "text"; JStr "audio"]);
      ("instructions", JStr "ElevenLabs Conversational AI Agent");
      ("voice", JStr "elevenlabs-agent-voice");
      ("input_audio_format", JStr "pcm16");
      ("output_audio_format", JStr "pcm16");
      ("input_audio_transcription", JNull);
      ("turn_detection", JObj [
        ("type", JStr "server_vad");
        ("threshold", JFloat 5 (-1));
        ("prefix_padding_ms", JInt 300);
        ("silence_duration_ms", JInt 200)]);
      ("tools", JArr []);
      ("tool_choice", JStr "auto");
      ("temperature", JFloat 8 (-1));
      ("max_response_output_tokens", JStr "inf")])].

Section Server.
(** [json.loads]: [None] when it raises. *)
Variable json_loads : string -> option json.
(** The module constants read from the process environment. *)
Variables ELEVENLABS_API_KEY ELEVENLABS_AGENT_ID : string.

Definition loads (message : string) : M json :=
  match json_loads message with
  | Some v => ret v
  | None => raise JSONDecodeError
  end.

Definition connect_to_elevenlabs (r : connect_result) : M handle :=
  let uri := "wss://api.elevenlabs.io/v1/convai/conversation?agent_id="
               +:+ ELEVENLABS_AGENT_ID in
  try_except
    (ws <- connect (AIEndpoint uri ELEVENLABS_API_KEY) r ;;
     log INFO [Lit "Successfully connected to ElevenLabs Conversational AI"] ;;
     ret ws)
    (fun e => Some (
       log ERROR [Lit "Failed to connect to ElevenLabs: "; Exc e] ;;
       raise e)).

Section Session.
(** The two sockets the nested coroutines close over. *)
Variables websocket elevenlabs_ws : handle.

(** The [except websockets.exceptions.ConnectionClosed as e] clause around
    each loop: one log line, which starts with [prefix] and goes on with
    [e.code] and [e.reason], then [raise]. *)
Definition on_connection_closed (prefix : string) (e : exn) : option (M unit) :=
  match e with
  | ConnectionClosed code reason =>
      Some (log INFO [Lit prefix; Num code; Lit ", reason="; Str reason] ;;
            raise e)
  | _ => None
  end.

(** One turn of the loop of [handle_browser_messages]. *)
Definition handle_browser_messages (a : arrival) : M unit :=
  try_except
    (message <- recv websocket a ;;
     try_except
       (event <- loads message ;;
        event_type <- py_get event "type" JNull ;;
        if eq_str event_type "session.update" then
          log INFO [Lit "Received session.update, acknowledging"] ;;
          session <- py_item session_created "session" ;;
          let ack_event :=
            JObj [("type", JStr "session.updated"); ("session", session)] in
          send websocket (Dumps ack_event)
        else if eq_str event_type "input_audio_buffer.append" then
          log INFO [Lit "Forwarding audio input to ElevenLabs"] ;;
          audio <- py_get event "audio" (JStr "") ;;
          let elevenlabs_message := JObj [("user_audio_chunk", audio)] in
          send elevenlabs_ws (Dumps elevenlabs_message)
        else if eq_str event_type "input_audio_buffer.commit" then
          log INFO [Lit "Committing audio buffer"]
        else if eq_str event_type "response.create" then
          log INFO [Lit "Creating response"]
        else
          log INFO [Lit "Received event "; Quote; Val event_type; Quote;
                    Lit " from browser"])
       (fun e => Some (
          match e with
          | JSONDecodeError =>
              log ERROR [Lit "Invalid JSON from browser: "; Str message]
          | _ =>
              log ERROR [Lit "Error processing browser message: "; Exc e]
          end)))
    (on_connection_closed "Browser connection closed: code=").

(** One turn of the loop of [handle_elevenlabs_messages].  The last
    statement of the inner [try], [await websocket.send(message)], stands
    after the [if]/[elif]/[else] chain and so runs for every decoded
    frame. *)
Definition handle_elevenlabs_messages (a : arrival) : M unit :=
  try_except
    (message <- recv elevenlabs_ws a ;;
     try_except
       (event <- loads message ;;
        event_type <- py_get event "type" JNull ;;
        (if eq_str event_type "audio" then
           audio_event <- py_get event "audio_event" (JObj []) ;;
           audio_base_64 <- py_get audio_event "audio_base_64" (JStr "") ;;
           let openai_event :=
             JObj [("type", JStr "response.audio.delta");
                   ("response_id", JStr "elevenlabs_response");
                   ("item_id", JStr "elevenlabs_audio");
                   ("output_index", JInt 0);
                   ("content_index", JInt 0);
                   ("delta", audio_base_64)] in
           send websocket (Dumps openai_event) ;;
           log INFO [Lit "Relayed audio from ElevenLabs"]
         else if eq_str event_type "message" then
           message_content <- py_get event "message" (JObj []) ;;
           role <- py_get message_content "role" JNull ;;
           if eq_str role "assistant" then
             content <- py_get message_content "content" (JStr "") ;;
             let openai_event :=
               JObj [("type", JStr "response.text.delta");
                     ("response_id", JStr "elevenlabs_response");
                     ("item_id", JStr "elevenlabs_text");
                     ("output_index", JInt 0);
                     ("content_index", JInt 0);
                     ("delta", content)] in
             send websocket (Dumps openai_event) ;;
             log INFO [Lit "Relayed text from ElevenLabs"]
           else ret tt
         else if eq_str event_type "interruption" then
           let openai_event := JObj [("type", JStr "conversation.interrupted")] in
           send websocket (Dumps openai_event) ;;
           log INFO [Lit "Relayed interruption from ElevenLabs"]
         else
           log INFO [Lit "Received event "; Quote; Val event_type; Quote;
                     Lit " from ElevenLabs: "; Str message]) ;;
        send websocket (Raw message))
       (fun e => Some (
          match e with
          | JSONDecodeError =>
              log ERROR [Lit "Invalid JSON from ElevenLabs: "; Str message]
          | _ =>
              log ERROR [Lit "Error processing ElevenLabs message: "; Exc e]
          end)))
    (on_connection_closed "ElevenLabs connection closed: code=").

Definition iteration (who : loop) : arrival -> M unit :=
  match who with
  | Browser => handle_browser_messages
  | ElevenLabs => handle_elevenlabs_messages
  end.

Definition sock (who : loop) : handle :=
  match who with
  | Browser => websocket
  | ElevenLabs => elevenlabs_ws
  end.

(** [asyncio.gather(handle_browser_messages(), handle_elevenlabs_messages())] *)
Definition pump (sched : list (event loop)) : M unit :=
  gather iteration sock sched.

End Session.

(** The [finally] block of [handle_browser_connection]; [elevenlabs_ws] is
    the local variable of that name, [None] until [connect_to_elevenlabs]
    has returned. *)
Definition cleanup (websocket : handle) (elevenlabs_ws : option handle) : M unit :=
  known <- registered websocket ;;
  (if known then
     match elevenlabs_ws with
     | Some ws =>
         up_closed <- is_closed ws ;;
         when negb up_closed then close ws 1000 (Reason "Normal closure")
     | None => ret tt
     end ;;
     unregister websocket
   else ret tt) ;;
  ws_closed <- is_closed websocket ;;
  when negb ws_closed then close websocket 1000 (Reason "Normal closure").

(** The [except Exception as e] clause of [handle_browser_connection]. *)
Definition on_error (websocket : handle) (e : exn) : M unit :=
  log ERROR [Lit "Error handling connection: "; Exc e] ;;
  ws_closed <- is_closed websocket ;;
  when negb ws_closed then close websocket 1011 (StrOf e).

(** The outer [try] of [handle_browser_connection] from the statement
    after the connection attempt on. *)
Definition session (websocket elevenlabs_ws : handle)
    (sched : list (event loop)) : M unit :=
  register websocket elevenlabs_ws ;;
  log INFO [Lit "Connected to ElevenLabs successfully!"] ;;
  send websocket (Dumps session_created) ;;
  log INFO [Lit "Sent session.created to browser"] ;;
  try_except
    (pump websocket elevenlabs_ws sched)
    (fun e =>
       match e with
       | ConnectionClosed _ _ =>
           Some (log INFO [Lit "Connection closed, cleaning up"])
       | _ => None
       end).

(** The connection attempt is the first statement of the outer [try]; its
    result decides what the local variable [elevenlabs_ws] holds when the
    [finally] block runs, so it is run first and its exception, if any, is
    raised again inside the [try]. *)
Definition handle_browser_connection (websocket : handle) (path : string)
    (conn : connect_result) (sched : list (event loop)) : M unit :=
  let base_path := split_head path in
  if negb (String.eqb base_path "/") then
    log ERROR [Lit "Invalid path: "; Str path] ;;
    close websocket 1008 (Reason "Invalid path")
  else
    log INFO [Lit "Browser connected from "; Peer websocket] ;;
    fun st =>
      match connect_to_elevenlabs conn st with
      | (Ret elevenlabs_ws, st') =>
          try_finally
            (try_except (session websocket elevenlabs_ws sched)
                        (fun e => Some (on_error websocket e)))
            (cleanup websocket (Some elevenlabs_ws)) st'
      | (Raise e, st') =>
          try_finally
            (try_except (raise e) (fun e => Some (on_error websocket e)))
            (cleanup websocket None) st'
      | (Suspended, st') => (Suspended, st')
      end.

End Server.
End TwoWay.

(** ** A decoder to run the relay on concrete frames

    The relays are stated over any [json_loads].  To run them on frames, this
    is a decoder for the JSON texts the scenarios use: objects, arrays,
    strings without escape sequences, integers, [true], [false], [null].
    Everything else it rejects, as [json.loads] rejects a malformed text. *)

Module Json.

Definition dquote : ascii := "034"%char.

Definition is_space (c : ascii) : bool :=
  (Ascii.eqb c " " || Ascii.eqb c "009" || Ascii.eqb c "010" || Ascii.eqb c "013")%char.

Definition digit (c : ascii) : option Z :=
  let n := Z.of_nat (nat_of_ascii c) in
  if (48 <=? n) && (n <=? 57) then Some (n - 48) else None.

Fixpoint skip_space (s : string) : string :=
  match s with
  | String c rest => if is_space c then skip_space rest else s
  | EmptyString => s
  end.

(** The characters up to the closing quote, and what follows it. *)
Fixpoint scan_string (s : string) : option (string * string) :=
  match s with
  | EmptyString => None
  | String c rest =>
      if Ascii.eqb c dquote then Some (EmptyString, rest)
      else if Ascii.eqb c "\" then None
      else if (Z.of_nat (nat_of_ascii c) <? 32) then None
      else match scan_string rest with
           | Some (body, rest') => Some (String c body, rest')
           | None => None
           end
  end.

(** The digits at the head of [s], read after the prefix of value [acc]. *)
Fixpoint scan_digits (acc : Z) (s : string) : Z * string :=
  match s with
  | String c rest =>
      match digit c with
      | Some d => scan_digits (10 * acc + d) rest
      | None => (acc, s)
      end
  | EmptyString => (acc, s)
  end.

(** A number without fraction or exponent and without a leading zero. *)
Definition scan_natural (s : string) : option (Z * string) :=
  match s with
  | String c rest =>
      match digit c with
      | Some 0 =>
          match rest with
          | String c' _ =>
              match digit c' with Some _ => None | None => Some (0, rest) end
          | EmptyString => Some (0, rest)
          end
      | Some d => Some (scan_digits d rest)
      | None => None
      end
  | EmptyString => None
  end.

Definition expect (word : string) (v : json) (s : string) : option (json * string) :=
  if String.prefix word s
  then Some (v, String.substring (String.length word)
                                 (String.length s - String.length word) s)
  else None.

(** [d[k] = v] on the items of a dict: a key already present keeps its
    place and takes the new value. *)
Fixpoint dict_set (k : string) (v : json) (items : list (string * json))
    : list (string * json) :=
  match items with
  | [] => [(k, v)]
  | (k', v') :: rest =>
      if String.eqb k k' then (k, v) :: rest else (k', v') :: dict_set k v rest
  end.

Fixpoint value (fuel : nat) (s : string) : option (json * string) :=
  match fuel with
  | O => None
  | S fuel =>
      match skip_space s with
      | String "n" _ as t => expect "null" JNull t
      | String "t" _ as t => expect "true" (JBool true) t
      | String "f" _ as t => expect "false" (JBool false) t
      | String "-" rest =>
          match scan_natural rest with
          | Some (n, rest') => Some (JInt (- n), rest')
          | None => None
          end
      | String "[" rest =>
          match skip_space rest with
          | String "]" rest' => Some (JArr [], rest')
          | t =>
              match elements fuel [] t with
              | Some (items, rest') => Some (JArr items, rest')
              | None => None
              end
          end
      | String "{" rest =>
          match skip_space rest with
          | String "}" rest' => Some (JObj [], rest')
          | t =>
              match members fuel [] t with
              | Some (items, rest') => Some (JObj items, rest')
              | None => None
              end
          end
      | String c rest as t =>
          if Ascii.eqb c dquote then
            match scan_string rest with
            | Some (body, rest') => Some (JStr body, rest')
            | None => None
            end
          else
            match scan_natural t with
            | Some (n, rest') => Some (JInt n, rest')
            | None => None
            end
      | EmptyString => None
      end
  end
with elements (fuel : nat) (acc : list json) (s : string)
    : option (list json * string) :=
  match fuel with
  | O => None
  | S fuel =>
      match value fuel s with
      | Some (v, rest) =>
          match skip_space rest with
          | String "," rest' => elements fuel (acc ++ [v]) rest'
          | String "]" rest' => Some (acc ++ [v], rest')
          | _ => None
          end
      | None => None
      end
  end
with members (fuel : nat) (acc : list (string * json)) (s : string)
    : option (list (string * json) * string) :=
  match fuel with
  | O => None
  | S fuel =>
      match skip_space s with
      | String c rest =>
          if Ascii.eqb c dquote then
            match scan_string rest with
            | Some (k, rest1) =>
                match skip_space rest1 with
                | String ":" rest2 =>
                    match value fuel rest2 with
                    | Some (v, rest3) =>
                        match skip_space rest3 with
                        | String "," rest4 => members fuel (dict_set k v acc) rest4
                        | String "}" rest4 => Some (dict_set k v acc, rest4)
                        | _ => None
                        end
                    | None => None
                    end
                | _ => None
                end
            | None => None
            end
          else None
      | EmptyString => None
      end
  end.

(** A whole text: one value, then nothing but white space. *)
Definition loads (s : string) : option json :=
  match value (S (String.length s)) s with
  | Some (v, rest) =>
      match skip_space rest with
      | EmptyString => Some v
      | _ => None
      end
  | None => None
  end.

(** Frames are written with [']  for the double quote. *)
Fixpoint text (s : string) : string :=
  match s with
  | EmptyString => EmptyString
  | String c rest => String (if Ascii.eqb c "'" then dquote else c) (text rest)
  end.

End Json.

(** ** Vocabulary of the statements *)

(** The state [st] after the actions [acts]: same sockets, same registry. *)
Definition did {entry : Type} (st : state entry) (acts : list action) : state entry :=
  mkState (closed st) (connections st) (trace st ++ acts).

(** A state in which nothing has happened yet. *)
Definition idle {entry : Type} : state entry := mkState ∅ ∅ [].

(** Three sockets to run the servers on. *)
Definition the_browser : handle := 0%nat.
Definition the_ai : handle := 1%nat.
Definition the_tts : handle := 2%nat.

(** Sends and log lines: what a loop does with a frame. *)
Definition talk (a : action) : bool :=
  match a with
  | Send _ _ | Log _ _ => true
  | _ => false
  end.

(** Nothing but log lines: nothing was sent, closed, dialled or registered. *)
Definition logs_only (acts : list action) : bool :=
  forallb (fun a => match a with Log _ _ => true | _ => false end) acts.

(** [d.get(k)] on the items of a dict: [None] for a missing key. *)
Definition member (k : string) (items : list (string * json)) : json :=
  match assoc k items with
  | Some v => v
  | None => JNull
  end.

(** The [type] members of the events that [acts] sent to the socket [h]
    through [json.dumps], in order. *)
Definition sent_types (h : handle) (acts : list action) : list json :=
  flat_map (fun a =>
              match a with
              | Send h' (Dumps (JObj items)) =>
                  if Nat.eqb h h' then [member "type" items] else []
              | _ => []
              end) acts.

(** The connection attempts of the servers, as they appear in the record. *)
Definition dial_ai (key agent : string) : action :=
  Dial (AIEndpoint ("wss://api.elevenlabs.io/v1/convai/conversation?agent_id="
                      +:+ agent) key).
Definition dial_tts (voice : string) : action :=
  Dial (TTSEndpoint ("wss://api.elevenlabs.io/v1/text-to-speech/" +:+ voice
                       +:+ "/stream-input?model_id=eleven_flash_v2_5")).

(** What the three-way handler does, on a valid path with both endpoints
    accepting, up to the handshake event; and the state in which its loops
    start. *)
Definition hybrid_opening (key agent voice : string) (websocket ai tts : handle)
    : list action :=
  [Log INFO [Lit "Browser connected from "; Peer websocket];
   dial_ai key agent;
   Log INFO [Lit "Successfully connected to ElevenLabs Conversational AI"];
   dial_tts voice;
   Log INFO [Lit "Successfully connected to ElevenLabs TTS"];
   Send tts (Dumps (Hybrid.init_message key));
   Log INFO [Lit "Initialized ElevenLabs TTS session"];
   Register websocket;
   Log INFO [Lit "Connected to both ElevenLabs AI and TTS successfully!"];
   Send websocket (Dumps Hybrid.session_created);
   Log INFO [Lit "Sent session.created to browser"]].

Definition hybrid_started (key agent voice : string) (websocket ai tts : handle)
    (st : state Hybrid.upstreams) : state Hybrid.upstreams :=
  mkState (closed st ∖ {[ai]} ∖ {[tts]})
          (<[websocket := Hybrid.mkUpstreams ai tts]> (connections st))
          (trace st ++ hybrid_opening key agent voice websocket ai tts).

(** The same for the two-way handler. *)
Definition two_way_opening (key agent : string) (websocket up : handle)
    : list action :=
  [Log INFO [Lit "Browser connected from "; Peer websocket];
   dial_ai key agent;
   Log INFO [Lit "Successfully connected to ElevenLabs Conversational AI"];
   Register websocket;
   Log INFO [Lit "Connected to ElevenLabs successfully!"];
   Send websocket (Dumps TwoWay.session_created);
   Log INFO [Lit "Sent session.created to browser"]].

Definition two_way_started (key agent : string) (websocket up : handle)
    (st : state handle) : state handle :=
  mkState (closed st ∖ {[up]})
          (<[websocket := up]> (connections st))
          (trace st ++ two_way_opening key agent websocket up).

(** Closing a socket or deleting a registry entry: what ends a session. *)
Definition tears_down (a : action) : bool :=
  match a with
  | Close _ _ _ | Unregister _ => true
  | _ => false
  end.

(** [m] ends in every state, returning or raising, and all it does is
    talk. *)
Definition talks {entry A : Type} (m : M entry A) : Prop :=
  forall st, exists r acts,
    m st = (r, did st acts) /\ r <> Suspended /\ forallb talk acts = true.

(** [m] returns in every state, and all it does is talk. *)
Definition returns {entry A : Type} (m : M entry A) : Prop :=
  forall st, exists a acts,
    m st = (Ret a, did st acts) /\ forallb talk acts = true.

(** The [type] of a decoded event: [event.get("type")]. *)
Definition event_type_of (items : list (string * json)) : json :=
  match assoc "type" items with
  | Some v => v
  | None => JNull
  end.

(** The strings the [if]/[elif] chain of a loop compares the event type
    with: [handle_browser_messages] of both servers,
    [handle_elevenlabs_ai_messages] of the three-way server,
    [handle_elevenlabs_messages] of the two-way server. *)
Definition browser_types : list string :=
  ["session.update"; "input_audio_buffer.append"; "input_audio_buffer.commit";
   "response.create"].
Definition hybrid_ai_types : list string :=
  ["agent_response"; "user_transcript"; "interruption";
   "agent_response_correction"; "ping"].
Definition two_way_ai_types : list string :=
  ["audio"; "message"; "interruption"].

(** The event type is none of the strings of the table. *)
Definition unhandled (table : list string) (event_type : json) : bool :=
  forallb (fun t => negb (eq_str event_type t)) table.

(** What the [finally] block does to one socket: a close with code 1000 if
    it is still open, nothing otherwise. *)
Definition normal_closure {entry : Type} (st : state entry) (h : handle) : list action :=
  if bool_decide (h ∈ closed st) then []
  else [Close h 1000 (Reason "Normal closure")].

(** An event other than a [recv] that raises. *)
Definition uneventful {loop : Type} (e : event loop) : bool :=
  match e with
  | Arrive _ (Gone _ _) => false
  | _ => true
  end.

(** The state [st] once the connection of [h] has gone away. *)
Definition gone {entry : Type} (st : state entry) (h : handle) : state entry :=
  mkState ({[h]} ∪ closed st) (connections st) (trace st).

(** The state [st] had [pre] happened before everything else. *)
Definition earlier {entry : Type} (pre : list action) (st : state entry) : state entry :=
  mkState (closed st) (connections st) (pre ++ trace st).

(** [m] does not look at what has been done so far: run after [pre], it
    ends the same way and adds the same actions. *)
Definition oblivious {entry A : Type} (m : M entry A) : Prop :=
  forall pre st, m (earlier pre st) = (fst (m st), earlier pre (snd (m st))).

(** The [session] member of the value handed to [json.dumps]. *)
Definition session_block (p : payload) : option json :=
  match p with
  | Dumps (JObj items) => assoc "session" items
  | _ => None
  end.

(** ** Start-up: the statements at module level *)

Module Startup.

(** How the module-level statements can fail. *)
Inductive failure : Type :=
| InvalidLiteral (text : string)   (* [int(...)] raised [ValueError] on [text] *)
| ValueError (message : string)    (* [raise ValueError(message)] *).

(** What they bind: [PORT], [ELEVENLABS_API_KEY], [ELEVENLABS_AGENT_ID] and,
    in the three-way server, [ELEVENLABS_VOICE_ID]. *)
Record settings : Type := mkSettings {
  PORT : Z;
  ELEVENLABS_API_KEY : string;
  ELEVENLABS_AGENT_ID : string;
  ELEVENLABS_VOICE_ID : option string
}.

Section Environment.
(** [os.environ] once [load_dotenv()] has run. *)
Variable environ : gmap string string.
(** [int] on a string: [None] when it raises [ValueError]. *)
Variable int : string -> option Z.

(** [os.getenv(name)] *)
Definition getenv (name : string) : option string := environ !! name.

(** [not x] for [x] a string or [None]. *)
Definition unset (x : option string) : bool :=
  match x with
  | Some text => String.eqb text ""
  | None => true
  end.

(** [int(os.getenv("PORT", 3001))] *)
Definition port : failure + Z :=
  match getenv "PORT" with
  | Some text =>
      match int text with
      | Some n => inr n
      | None => inl (InvalidLiteral text)
      end
  | None => inr 3001
  end.

(** The statements of [server.py] from [load_dotenv()] to the second
    [raise]. *)
Definition two_way : failure + settings :=
  match port with
  | inl f => inl f
  | inr PORT =>
      let ELEVENLABS_API_KEY := getenv "ELEVENLABS_API_KEY" in
      let ELEVENLABS_AGENT_ID := getenv "ELEVENLABS_AGENT_ID" in
      if unset ELEVENLABS_API_KEY then
        inl (ValueError "ELEVENLABS_API_KEY must be set in .env file")
      else if unset ELEVENLABS_AGENT_ID then
        inl (ValueError "ELEVENLABS_AGENT_ID must be set in .env file")
      else
        inr (mkSettings PORT (default "" ELEVENLABS_API_KEY)
                        (default "" ELEVENLABS_AGENT_ID) None)
  end.

(** The same statements of [hybrid_server.py], which also reads the voice. *)
Definition hybrid : failure + settings :=
  match port with
  | inl f => inl f
  | inr PORT =>
      let ELEVENLABS_API_KEY := getenv "ELEVENLABS_API_KEY" in
      let ELEVENLABS_AGENT_ID := getenv "ELEVENLABS_AGENT_ID" in
      let ELEVENLABS_VOICE_ID :=
        default "Xb7hH8MSUJpSbSDYk0k2" (getenv "ELEVENLABS_VOICE_ID") in
      if unset ELEVENLABS_API_KEY then
        inl (ValueError "ELEVENLABS_API_KEY must be set in .env file")
      else if unset ELEVENLABS_AGENT_ID then
        inl (ValueError "ELEVENLABS_AGENT_ID must be set in .env file")
      else
        inr (mkSettings PORT (default "" ELEVENLABS_API_KEY)
                        (default "" ELEVENLABS_AGENT_ID)
                        (Some ELEVENLABS_VOICE_ID))
  end.

End Environment.
End Startup.

(** ** More vocabulary *)

(** A decoded value that is a [dict]. *)
Definition is_dict (v : json) : bool :=
  match v with
  | JObj _ => true
  | _ => false
  end.

(** A log line, or a send to one of the sockets [allowed]. *)
Definition writes_within (allowed : list handle) (a : action) : bool :=
  match a with
  | Send h _ => existsb (Nat.eqb h) allowed
  | Log _ _ => true
  | _ => false
  end.

(** [m] ends in every state, returning or raising, and every action of it
    passes [ok]. *)
Definition keeps {entry A : Type} (ok : action -> bool) (m : M entry A) : Prop :=
  forall st, exists r acts,
    m st = (r, did st acts) /\ r <> Suspended /\ forallb ok acts = true.

(** The sockets each loop of the three-way server writes to, and each loop
    of the two-way server. *)
Definition hybrid_targets (websocket ai tts : handle) (who : Hybrid.loop)
    : list handle :=
  match who with
  | Hybrid.Browser => [websocket; ai]
  | Hybrid.AI => [tts; websocket]
  | Hybrid.TTS => [websocket]
  end.

Definition two_way_targets (websocket up : handle) (who : TwoWay.loop)
    : list handle :=
  match who with
  | TwoWay.Browser => [websocket; up]
  | TwoWay.ElevenLabs => [websocket]
  end.

(** The code and reason of the first [recv] of the schedule that raises. *)
Fixpoint first_failure {loop : Type} (sched : list (event loop))
    : option (Z * string) :=
  match sched with
  | [] => None
  | Arrive _ (Gone code reason) :: _ => Some (code, reason)
  | _ :: rest => first_failure rest
  end.

(** The state after [await h.close(code, why)], which is also the state
    after [if not h.closed: await h.close(code, why)]: [h] is closed, and
    the close is on the record if [h] was open. *)
Definition after_close {entry : Type} (h : handle) (code : Z) (why : close_reason)
    (st : state entry) : state entry :=
  mkState ({[h]} ∪ closed st) (connections st)
          (trace st ++ (if bool_decide (h ∈ closed st) then []
                        else [Close h code why])).

(** What an endpoint answered is something the handler can report to the
    client: the connection, or a refusal whose message fits the close
    frame. *)
Definition reportable (r : connect_result) : bool :=
  match r with
  | Connected _ => true
  | Refused (ConnectError detail) => (String.length detail <=? 123)%nat
  | Refused _ => false
  end.

(** The sockets whose connection went away in the course of [sched]: a
    [recv] on them raised, or they were lost while their loop was not
    looking. *)
Fixpoint lost {loop : Type} (sock : loop -> handle) (sched : list (event loop))
    : gset handle :=
  match sched with
  | [] => ∅
  | Arrive _ (Message _) :: rest => lost sock rest
  | Arrive who (Gone _ _) :: rest => {[sock who]} ∪ lost sock rest
  | Hangup who :: rest => {[sock who]} ∪ lost sock rest
  end.

(** What the [finally] block owes a socket of the session: a close with
    code 1000 unless its connection is among those that went [away]. *)
Definition closed_normally (away : gset handle) (h : handle) : list action :=
  if bool_decide (h ∈ away) then []
  else [Close h 1000 (Reason "Normal closure")].

(** ** Running the monad *)

Section Running.
Context {entry : Type}.
Local Abbreviation M := (M entry).
Local Abbreviation state := (state entry).
Implicit Types (st : state) (acts : list action) (h : handle).

Lemma did_nil st : did st [] = st.
Proof. destruct st; unfold did; simpl. by rewrite app_nil_r. Qed.

Lemma did_did st acts acts' : did (did st acts) acts' = did st (acts ++ acts').
Proof. unfold did; simpl. by rewrite app_assoc. Qed.

Lemma emit_did a st : emit a st = (Ret tt, did st [a]).
Proof. reflexivity. Qed.

Lemma log_did lvl line st : log lvl line st = (Ret tt, did st [Log lvl line]).
Proof. reflexivity. Qed.

Lemma send_open h p st :
  h ∉ closed st -> send h p st = (Ret tt, did st [Send h p]).
Proof. intros Hopen. unfold send. by rewrite bool_decide_eq_false_2. Qed.

Lemma send_closed h p st :
  h ∈ closed st -> send h p st = (Raise (ConnectionClosed 1006 ""), st).
Proof. intros Hshut. unfold send. by rewrite bool_decide_eq_true_2. Qed.

Lemma closed_did st acts : closed (did st acts) = closed st.
Proof. reflexivity. Qed.

Lemma connections_did st acts : connections (did st acts) = connections st.
Proof. reflexivity. Qed.

Lemma trace_did st acts : trace (did st acts) = trace st ++ acts.
Proof. reflexivity. Qed.

End Running.

(** ** Computations that only talk *)

Section Talking.
Context {entry : Type}.
Local Abbreviation M := (M entry).
Local Abbreviation state := (state entry).

Lemma talks_ret {A} (a : A) : talks (ret a : M A).
Proof. intros st. exists (Ret a), []. by rewrite did_nil. Qed.

Lemma talks_raise {A} (e : exn) : talks (raise e : M A).
Proof. intros st. exists (Raise e), []. by rewrite did_nil. Qed.

Lemma talks_log lvl line : talks (log lvl line : M unit).
Proof. intros st. by exists (Ret tt), [Log lvl line]. Qed.

Lemma talks_send h p : talks (send h p : M unit).
Proof.
  intros st. destruct (decide (h ∈ closed st)) as [Hshut|Hopen].
  - exists (Raise (ConnectionClosed 1006 "")), [].
    by rewrite send_closed, did_nil.
  - exists (Ret tt), [Send h p]. by rewrite send_open.
Qed.

Lemma talks_py_get d k default : talks (py_get d k default : M json).
Proof. destruct d; simpl; auto using @talks_ret, @talks_raise. Qed.

Lemma talks_py_item d k : talks (py_item d k : M json).
Proof.
  destruct d; simpl; auto using @talks_raise.
  destruct (assoc k items); auto using @talks_ret, @talks_raise.
Qed.

Lemma talks_bind {A B} (m : M A) (k : A -> M B) :
  talks m -> (forall a, talks (k a)) -> talks (bind m k).
Proof.
  intros Hm Hk st. destruct (Hm st) as (r & acts & Hrun & Hends & Hacts).
  unfold bind. rewrite Hrun. destruct r as [a|e|]; [|by eauto|done].
  destruct (Hk a (did st acts)) as (r' & acts' & Hrun' & Hends' & Hacts').
  exists r', (acts ++ acts'). rewrite Hrun', did_did, forallb_app, Hacts, Hacts'.
  done.
Qed.

Lemma talks_try_except {A} (body : M A) (handler : exn -> option (M A)) :
  talks body ->
  (forall e h, handler e = Some h -> talks h) ->
  talks (try_except body handler).
Proof.
  intros Hbody Hhandler st.
  destruct (Hbody st) as (r & acts & Hrun & Hends & Hacts).
  unfold try_except. rewrite Hrun. destruct r as [a|e|]; [by eauto| |done].
  destruct (handler e) as [h|] eqn:Hh; [|by eauto].
  destruct (Hhandler e h Hh (did st acts)) as (r' & acts' & Hrun' & Hends' & Hacts').
  exists r', (acts ++ acts'). rewrite Hrun', did_did, forallb_app, Hacts, Hacts'.
  done.
Qed.

Lemma returns_talks {A} (m : M A) : returns m -> talks m.
Proof.
  intros Hm st. destruct (Hm st) as (a & acts & Hrun & Hacts).
  by exists (Ret a), acts.
Qed.

Lemma returns_ret {A} (a : A) : returns (ret a : M A).
Proof. intros st. exists a, []. by rewrite did_nil. Qed.

Lemma returns_log lvl line : returns (log lvl line : M unit).
Proof. intros st. by exists tt, [Log lvl line]. Qed.

Lemma returns_bind {A B} (m : M A) (k : A -> M B) :
  returns m -> (forall a, returns (k a)) -> returns (bind m k).
Proof.
  intros Hm Hk st. destruct (Hm st) as (a & acts & Hrun & Hacts).
  unfold bind. rewrite Hrun.
  destruct (Hk a (did st acts)) as (b & acts' & Hrun' & Hacts').
  exists b, (acts ++ acts'). by rewrite Hrun', did_did, forallb_app, Hacts, Hacts'.
Qed.

(** An [except] clause that takes every exception and itself returns makes
    the whole statement return. *)
Lemma returns_try_except {A} (body : M A) (handler : exn -> option (M A)) :
  talks body ->
  (forall e, exists h, handler e = Some h /\ returns h) ->
  returns (try_except body handler).
Proof.
  intros Hbody Hhandler st.
  destruct (Hbody st) as (r & acts & Hrun & Hends & Hacts).
  unfold try_except. rewrite Hrun. destruct r as [a|e|]; [by eauto| |done].
  destruct (Hhandler e) as (h & -> & Hh).
  destruct (Hh (did st acts)) as (a & acts' & Hrun' & Hacts').
  exists a, (acts ++ acts'). by rewrite Hrun', did_did, forallb_app, Hacts, Hacts'.
Qed.

(** A statement that returns does so inside any [try]. *)
Lemma returns_inside_try {A} (body : M A) (handler : exn -> option (M A)) :
  returns body -> returns (try_except body handler).
Proof.
  intros Hbody st. destruct (Hbody st) as (a & acts & Hrun & Hacts).
  unfold try_except. rewrite Hrun. eauto.
Qed.

End Talking.

Create HintDb talk discriminated.
#[export] Hint Resolve talks_ret talks_raise talks_log talks_send talks_py_get
  talks_py_item returns_ret returns_log : talk.

(** Decomposes a goal [talks m] along the statements of [m], splitting on
    the tests of its conditionals. *)
Ltac talking :=
  repeat first
    [ progress intros
    | solve [auto with talk]
    | match goal with
      | |- talks (bind _ _) => apply talks_bind
      | |- talks (if ?b then _ else _) => destruct b
      | |- talks (match ?o with Some _ => _ | None => _ end) => destruct o
      end ].

(** ** One turn of a loop *)

Lemma hybrid_loads_talks json_loads message :
  talks (Hybrid.loads json_loads message).
Proof. unfold Hybrid.loads. destruct (json_loads message); auto with talk. Qed.

Lemma two_way_loads_talks json_loads message :
  talks (TwoWay.loads json_loads message).
Proof. unfold TwoWay.loads. destruct (json_loads message); auto with talk. Qed.

#[export] Hint Resolve hybrid_loads_talks two_way_loads_talks : talk.

(** The inner [except] clauses take every exception and log one line. *)
Ltac logging_handler :=
  let e := fresh "e" in
  intros e; destruct e; eexists; (split; [reflexivity | apply returns_log]).

(** A frame never makes a loop of the three-way relay raise: whatever the
    frame and whatever the state of the sockets, the turn returns, and all
    it did was send and log. *)
Lemma hybrid_message_returns json_loads websocket ai tts who message :
  returns (Hybrid.iteration json_loads websocket ai tts who (Message message)).
Proof.
  destruct who; simpl;
    [unfold Hybrid.handle_browser_messages
    |unfold Hybrid.handle_elevenlabs_ai_messages
    |unfold Hybrid.handle_elevenlabs_tts_messages];
    apply returns_inside_try, returns_bind;
    solve [apply returns_ret
          |intros m; apply returns_try_except; [talking | logging_handler]].
Qed.

(** The same for the two loops of the two-way relay. *)
Lemma two_way_message_returns json_loads websocket up who message :
  returns (TwoWay.iteration json_loads websocket up who (Message message)).
Proof.
  destruct who; simpl;
    [unfold TwoWay.handle_browser_messages
    |unfold TwoWay.handle_elevenlabs_messages];
    apply returns_inside_try, returns_bind;
    solve [apply returns_ret
          |intros m; apply returns_try_except; [talking | logging_handler]].
Qed.

(** A [recv] that raises: the loop logs one line and raises on, and the
    socket counts as closed. *)
Lemma hybrid_gone_raises json_loads websocket ai tts who code reason st :
  exists line,
    Hybrid.iteration json_loads websocket ai tts who (Gone code reason) st
    = (Raise (ConnectionClosed code reason),
       did (gone st (Hybrid.sock websocket ai tts who)) [Log INFO line]).
Proof. destruct who; eexists; reflexivity. Qed.

Lemma two_way_gone_raises json_loads websocket up who code reason st :
  exists line,
    TwoWay.iteration json_loads websocket up who (Gone code reason) st
    = (Raise (ConnectionClosed code reason),
       did (gone st (TwoWay.sock websocket up who)) [Log INFO line]).
Proof. destruct who; eexists; reflexivity. Qed.

(** ** The loops together *)

Section Gather.
Context {entry loop : Type}.
Variable iteration : loop -> arrival -> M entry unit.
Variable sock : loop -> handle.

(** A turn that returns hands over to the rest of the schedule. *)
Lemma gather_next who a rest st st' :
  iteration who a st = (Ret tt, st') ->
  gather iteration sock (Arrive who a :: rest) st = gather iteration sock rest st'.
Proof. intros Hrun. simpl. unfold bind. by rewrite Hrun. Qed.

Hypothesis message_returns : forall who m, returns (iteration who (Message m)).
Hypothesis gone_raises : forall who code reason st, exists line,
  iteration who (Gone code reason) st
  = (Raise (ConnectionClosed code reason), did (gone st (sock who)) [Log INFO line]).

(** Whatever arrives, the record of what was done only grows. *)
Lemma gather_extends sched st :
  exists later, trace (snd (gather iteration sock sched st)) = trace st ++ later.
Proof.
  revert st. induction sched as [|[who [m|code reason]|who] rest IH]; intros st; simpl.
  - exists []. by rewrite app_nil_r.
  - destruct (message_returns who m st) as ([] & acts & Hrun & _).
    unfold bind. rewrite Hrun. destruct (IH (did st acts)) as [later ->].
    exists (acts ++ later). by rewrite trace_did, app_assoc.
  - destruct (gone_raises who code reason st) as [line Hrun].
    unfold bind. rewrite Hrun. by exists [Log INFO line].
  - unfold bind. simpl. apply (IH (gone st (sock who))).
Qed.

(** As long as no [recv] raises, the loops keep running: they talk, sockets
    may go away, and nothing else changes. *)
Lemma gather_uneventful pre rest st :
  forallb uneventful pre = true ->
  exists st',
    gather iteration sock (pre ++ rest) st = gather iteration sock rest st'
    /\ connections st' = connections st
    /\ closed st ⊆ closed st'
    /\ exists acts, trace st' = trace st ++ acts /\ forallb talk acts = true.
Proof.
  revert st. induction pre as [|[who [m|code reason]|who] pre IH]; intros st Hpre.
  - exists st. repeat split; [done|]. exists []. by rewrite app_nil_r.
  - destruct (message_returns who m st) as ([] & acts & Hrun & Hacts).
    destruct (IH (did st acts) Hpre) as (st' & Hg & Hconn & Hclosed & acts' & Htr & Hacts').
    exists st'. simpl. unfold bind. rewrite Hrun. repeat split; [done..|].
    exists (acts ++ acts').
    by rewrite Htr, trace_did, app_assoc, forallb_app, Hacts, Hacts'.
  - done.
  - destruct (IH (gone st (sock who)) Hpre) as (st' & Hg & Hconn & Hclosed & Hrest).
    exists st'. repeat split; [done..| |done].
    simpl in Hclosed. clear -Hclosed. set_solver.
Qed.

(** The first [recv] that raises ends [gather] with that exception.  The
    sockets that count as closed by then are those that did before and those
    whose connection went away on the way. *)
Lemma gather_fails pre who code reason post st :
  forallb uneventful pre = true ->
  exists st1 line,
    gather iteration sock (pre ++ Arrive who (Gone code reason) :: post) st
    = (Raise (ConnectionClosed code reason), did st1 [Log INFO line])
    /\ connections st1 = connections st
    /\ closed st1
       = lost sock (pre ++ [Arrive who (Gone code reason)]) ∪ closed st
    /\ exists acts, trace st1 = trace st ++ acts /\ forallb talk acts = true.
Proof.
  revert st. induction pre as [|[who' [m|code' reason']|who'] pre IH];
    intros st Hpre.
  - destruct (gone_raises who code reason st) as [line Hrun].
    exists (gone st (sock who)), line. simpl. unfold bind. rewrite Hrun.
    repeat split; [simpl; set_solver|]. exists []. by rewrite app_nil_r.
  - destruct (message_returns who' m st) as ([] & acts & Hrun & Hacts).
    destruct (IH (did st acts) Hpre)
      as (st1 & line & Hg & Hconn & Hclosed & acts' & Htr & Hacts').
    exists st1, line. simpl. unfold bind. rewrite Hrun.
    repeat split; [done..|]. exists (acts ++ acts').
    by rewrite Htr, trace_did, app_assoc, forallb_app, Hacts, Hacts'.
  - done.
  - destruct (IH (gone st (sock who')) Hpre)
      as (st1 & line & Hg & Hconn & Hclosed & Hrest).
    exists st1, line. repeat split; [done..| |done].
    rewrite Hclosed. simpl. set_solver.
Qed.

End Gather.

(** ** Downstream events *)

(** Unfolds one turn of a loop down to its sends and log lines. *)
Ltac turn :=
  unfold Hybrid.handle_browser_messages, Hybrid.handle_elevenlabs_ai_messages,
    Hybrid.handle_elevenlabs_tts_messages, TwoWay.handle_browser_messages,
    TwoWay.handle_elevenlabs_messages, Hybrid.loads, TwoWay.loads,
    try_except, bind, recv, ret, raise, py_get, py_item.

(** Closes a goal on the state reached after a run of sends and log lines. *)
Ltac settle :=
  rewrite ?send_open by assumption;
  unfold log, emit, did; simpl; rewrite <- ?app_assoc; reflexivity.

Lemma hybrid_append_forwarded json_loads websocket ai message items P st :
  json_loads message = Some (JObj items) ->
  assoc "type" items = Some (JStr "input_audio_buffer.append") ->
  assoc "audio" items = Some P ->
  ai ∉ closed st ->
  Hybrid.handle_browser_messages json_loads websocket ai (Message message) st
  = (Ret tt, did st [Log INFO [Lit "Forwarding audio input to ElevenLabs AI"];
                     Send ai (Dumps (JObj [("user_audio_chunk", P)]))]).
Proof.
  intros Hloads Htype Haudio Hopen. turn.
  rewrite Hloads; simpl. rewrite Htype; simpl. rewrite Haudio.
  rewrite send_open by done. settle.
Qed.

Lemma two_way_append_forwarded json_loads websocket up message items P st :
  json_loads message = Some (JObj items) ->
  assoc "type" items = Some (JStr "input_audio_buffer.append") ->
  assoc "audio" items = Some P ->
  up ∉ closed st ->
  TwoWay.handle_browser_messages json_loads websocket up (Message message) st
  = (Ret tt, did st [Log INFO [Lit "Forwarding audio input to ElevenLabs"];
                     Send up (Dumps (JObj [("user_audio_chunk", P)]))]).
Proof.
  intros Hloads Htype Haudio Hopen. turn.
  rewrite Hloads; simpl. rewrite Htype; simpl. rewrite Haudio.
  rewrite send_open by done. settle.
Qed.

(** C1.  An [input_audio_buffer.append] event with audio payload [P], on
    an open upstream socket: the turn of the downstream loop sends that
    socket the one message [{"user_audio_chunk": P}], with [P] as it was
    decoded, and nothing to any other socket; whatever the loops do with
    what arrives next comes after that send.  In both servers. *)
Theorem audio_chunk_forwarded_before_next_event :
  forall json_loads (websocket ai tts : handle) message items P,
    json_loads message = Some (JObj items) ->
    assoc "type" items = Some (JStr "input_audio_buffer.append") ->
    assoc "audio" items = Some P ->
    (forall (st : state Hybrid.upstreams) rest,
        ai ∉ closed st ->
        exists line,
          let sent := [Log INFO line;
                       Send ai (Dumps (JObj [("user_audio_chunk", P)]))] in
          Hybrid.pump json_loads websocket ai tts
            (Arrive Hybrid.Browser (Message message) :: rest) st
          = Hybrid.pump json_loads websocket ai tts rest (did st sent)
          /\ exists later,
              trace (snd (Hybrid.pump json_loads websocket ai tts
                            (Arrive Hybrid.Browser (Message message) :: rest) st))
              = trace st ++ sent ++ later)
    /\ (forall (st : state handle) rest,
        ai ∉ closed st ->
        exists line,
          let sent := [Log INFO line;
                       Send ai (Dumps (JObj [("user_audio_chunk", P)]))] in
          TwoWay.pump json_loads websocket ai
            (Arrive TwoWay.Browser (Message message) :: rest) st
          = TwoWay.pump json_loads websocket ai rest (did st sent)
          /\ exists later,
              trace (snd (TwoWay.pump json_loads websocket ai
                            (Arrive TwoWay.Browser (Message message) :: rest) st))
              = trace st ++ sent ++ later).
Proof.
  intros json_loads websocket ai tts message items P Hloads Htype Haudio.
  split; intros st rest Hopen; eexists; cbv zeta.
  - pose proof (hybrid_append_forwarded _ websocket _ _ _ _ st
                  Hloads Htype Haudio Hopen) as Hturn.
    assert (Hnext := gather_next (Hybrid.iteration json_loads websocket ai tts)
                       (Hybrid.sock websocket ai tts) Hybrid.Browser
                       _ rest _ _ Hturn).
    unfold Hybrid.pump. split; [exact Hnext|]. rewrite Hnext.
    destruct (gather_extends _ (Hybrid.sock websocket ai tts)
                (hybrid_message_returns json_loads websocket ai tts)
                (hybrid_gone_raises json_loads websocket ai tts)
                rest (did st [Log INFO [Lit "Forwarding audio input to ElevenLabs AI"];
                              Send ai (Dumps (JObj [("user_audio_chunk", P)]))]))
      as [later Hlater].
    exists later. rewrite Hlater, trace_did. by rewrite <- app_assoc.
  - pose proof (two_way_append_forwarded _ websocket _ _ _ _ st
                  Hloads Htype Haudio Hopen) as Hturn.
    assert (Hnext := gather_next (TwoWay.iteration json_loads websocket ai)
                       (TwoWay.sock websocket ai) TwoWay.Browser
                       _ rest _ _ Hturn).
    unfold TwoWay.pump. split; [exact Hnext|]. rewrite Hnext.
    destruct (gather_extends _ (TwoWay.sock websocket ai)
                (two_way_message_returns json_loads websocket ai)
                (two_way_gone_raises json_loads websocket ai)
                rest (did st [Log INFO [Lit "Forwarding audio input to ElevenLabs"];
                              Send ai (Dumps (JObj [("user_audio_chunk", P)]))]))
      as [later Hlater].
    exists later. rewrite Hlater, trace_did. by rewrite <- app_assoc.
Qed.

Lemma hybrid_update_acknowledged json_loads websocket ai message items st :
  json_loads message = Some (JObj items) ->
  assoc "type" items = Some (JStr "session.update") ->
  websocket ∉ closed st ->
  exists block,
    session_block (Dumps Hybrid.session_created) = Some block
    /\ Hybrid.handle_browser_messages json_loads websocket ai (Message message) st
       = (Ret tt, did st [Log INFO [Lit "Received session.update, acknowledging"];
                          Send websocket
                            (Dumps (JObj [("type", JStr "session.updated");
                                          ("session", block)]))]).
Proof.
  intros Hloads Htype Hopen. eexists. split; [reflexivity|]. turn.
  rewrite Hloads; simpl. rewrite Htype; simpl.
  rewrite send_open by done. settle.
Qed.

Lemma two_way_update_acknowledged json_loads websocket up message items st :
  json_loads message = Some (JObj items) ->
  assoc "type" items = Some (JStr "session.update") ->
  websocket ∉ closed st ->
  exists block,
    session_block (Dumps TwoWay.session_created) = Some block
    /\ TwoWay.handle_browser_messages json_loads websocket up (Message message) st
       = (Ret tt, did st [Log INFO [Lit "Received session.update, acknowledging"];
                          Send websocket
                            (Dumps (JObj [("type", JStr "session.updated");
                                          ("session", block)]))]).
Proof.
  intros Hloads Htype Hopen. eexists. split; [reflexivity|]. turn.
  rewrite Hloads; simpl. rewrite Htype; simpl.
  rewrite send_open by done. settle.
Qed.

(** C2.  A [session.update] event, whatever else it carries and whatever
    happened before: the turn of the downstream loop sends the client the
    one event [session.updated] whose [session] member is the [session]
    member of the [session_created] value of the handshake, and sends
    nothing upstream.  That value is a constant of the server; no event
    changes it.  In both servers. *)
Theorem session_update_acknowledged_unchanged :
  forall json_loads (websocket ai tts : handle) message items,
    json_loads message = Some (JObj items) ->
    assoc "type" items = Some (JStr "session.update") ->
    (exists block,
        session_block (Dumps Hybrid.session_created) = Some block
        /\ forall (st : state Hybrid.upstreams) rest,
            websocket ∉ closed st ->
            exists line,
              Hybrid.pump json_loads websocket ai tts
                (Arrive Hybrid.Browser (Message message) :: rest) st
              = Hybrid.pump json_loads websocket ai tts rest
                  (did st [Log INFO line;
                           Send websocket
                             (Dumps (JObj [("type", JStr "session.updated");
                                           ("session", block)]))]))
    /\ (exists block,
        session_block (Dumps TwoWay.session_created) = Some block
        /\ forall (st : state handle) rest,
            websocket ∉ closed st ->
            exists line,
              TwoWay.pump json_loads websocket ai
                (Arrive TwoWay.Browser (Message message) :: rest) st
              = TwoWay.pump json_loads websocket ai rest
                  (did st [Log INFO line;
                           Send websocket
                             (Dumps (JObj [("type", JStr "session.updated");
                                           ("session", block)]))])).
Proof.
  intros json_loads websocket ai tts message items Hloads Htype.
  split; eexists; (split; [reflexivity|]); intros st rest Hopen; eexists.
  - destruct (hybrid_update_acknowledged _ websocket ai _ _ st Hloads Htype Hopen)
      as (block & Hblock & Hturn).
    injection Hblock as <-.
    exact (gather_next _ (Hybrid.sock websocket ai tts) Hybrid.Browser
             _ rest _ _ Hturn).
  - destruct (two_way_update_acknowledged _ websocket ai _ _ st Hloads Htype Hopen)
      as (block & Hblock & Hturn).
    injection Hblock as <-.
    exact (gather_next _ (TwoWay.sock websocket ai) TwoWay.Browser
             _ rest _ _ Hturn).
Qed.

(** ** What was done before does not matter *)

Section Oblivious.
Context {entry : Type}.
Local Abbreviation M := (M entry).
Local Abbreviation state := (state entry).

Lemma earlier_did pre (st : state) acts :
  earlier pre (did st acts) = did (earlier pre st) acts.
Proof. unfold earlier, did; simpl. by rewrite app_assoc. Qed.

Lemma oblivious_ret {A} (a : A) : oblivious (ret a : M A).
Proof. done. Qed.

Lemma oblivious_raise {A} (e : exn) : oblivious (raise e : M A).
Proof. done. Qed.

Lemma oblivious_suspend {A} : oblivious (suspend : M A).
Proof. done. Qed.

Lemma oblivious_emit a : oblivious (emit a : M unit).
Proof. intros pre st. unfold emit, earlier; simpl. by rewrite app_assoc. Qed.

Lemma oblivious_log lvl line : oblivious (log lvl line : M unit).
Proof. apply oblivious_emit. Qed.

Lemma oblivious_mark_closed h : oblivious (mark_closed h : M unit).
Proof. done. Qed.

Lemma oblivious_send h p : oblivious (send h p : M unit).
Proof.
  intros pre st. unfold send; simpl.
  destruct (bool_decide (h ∈ closed st)); [done|apply oblivious_emit].
Qed.

Lemma oblivious_py_get d k default : oblivious (py_get d k default : M json).
Proof. by destruct d. Qed.

Lemma oblivious_py_item d k : oblivious (py_item d k : M json).
Proof. destruct d; try done. simpl. by destruct (assoc k items). Qed.

Lemma oblivious_recv ws a : oblivious (recv ws a : M string).
Proof. by destruct a. Qed.

Lemma oblivious_bind {A B} (m : M A) (k : A -> M B) :
  oblivious m -> (forall a, oblivious (k a)) -> oblivious (bind m k).
Proof.
  intros Hm Hk pre st. unfold bind. rewrite Hm.
  destruct (m st) as [[a|e|] st']; simpl; [apply Hk|done..].
Qed.

Lemma oblivious_try_except {A} (body : M A) (handler : exn -> option (M A)) :
  oblivious body ->
  (forall e h, handler e = Some h -> oblivious h) ->
  oblivious (try_except body handler).
Proof.
  intros Hbody Hhandler pre st. unfold try_except. rewrite Hbody.
  destruct (body st) as [[a|e|] st']; simpl; [done| |done].
  destruct (handler e) as [h|] eqn:Hh; [by apply (Hhandler e)|done].
Qed.

Lemma oblivious_gather {loop} (iteration : loop -> arrival -> M unit) sock sched :
  (forall who a, oblivious (iteration who a)) ->
  oblivious (gather iteration sock sched).
Proof.
  intros Hturn. induction sched as [|[who a|who] rest IH]; simpl.
  - apply oblivious_suspend.
  - apply oblivious_bind; auto.
  - apply oblivious_bind; auto using oblivious_mark_closed.
Qed.

(** A computation that does not look back, started after more history,
    differs by that history only. *)
Lemma oblivious_did {A} (m : M A) st acts :
  oblivious m ->
  exists r shut registry new,
    m st = (r, mkState shut registry (trace st ++ new))
    /\ m (did st acts) = (r, mkState shut registry (trace st ++ acts ++ new)).
Proof.
  intros Hm.
  pose (bare := mkState (closed st) (connections st) [] : state).
  assert (Hst : st = earlier (trace st) bare)
    by (destruct st; unfold earlier, bare; simpl; by rewrite app_nil_r).
  assert (Hdid : did st acts = earlier (trace st ++ acts) bare)
    by (unfold did, earlier, bare; simpl; by rewrite app_nil_r).
  exists (fst (m bare)), (closed (snd (m bare))), (connections (snd (m bare))),
    (trace (snd (m bare))).
  split.
  - rewrite Hst at 1. by rewrite Hm.
  - rewrite Hdid, Hm. unfold earlier. by rewrite app_assoc.
Qed.

End Oblivious.

Create HintDb oblivious discriminated.
#[export] Hint Resolve oblivious_ret oblivious_raise oblivious_log
  oblivious_send oblivious_py_get oblivious_py_item oblivious_recv : oblivious.

(** Decomposes a goal [oblivious m] along the statements of [m]. *)
Ltac forgetting :=
  repeat first
    [ progress intros
    | solve [auto with oblivious]
    | match goal with
      | |- oblivious (bind _ _) => apply oblivious_bind
      | |- oblivious (try_except _ _) => apply oblivious_try_except
      | H : Some _ = Some _ |- _ => injection H as <-
      | H : Hybrid.on_connection_closed _ ?e = Some _ |- _ =>
          destruct e; simpl in H; try discriminate H
      | H : TwoWay.on_connection_closed _ ?e = Some _ |- _ =>
          destruct e; simpl in H; try discriminate H
      | |- oblivious (if ?b then _ else _) => destruct b
      | |- oblivious (match ?o with Some _ => _ | None => _ end) => destruct o
      | |- oblivious (match ?e with ConnectionClosed _ _ => _ | _ => _ end) => destruct e
      end ].

Lemma hybrid_iteration_oblivious json_loads websocket ai tts who a :
  oblivious (Hybrid.iteration json_loads websocket ai tts who a).
Proof.
  destruct who; simpl;
    [unfold Hybrid.handle_browser_messages
    |unfold Hybrid.handle_elevenlabs_ai_messages
    |unfold Hybrid.handle_elevenlabs_tts_messages];
    unfold Hybrid.loads; forgetting.
Qed.

Lemma two_way_iteration_oblivious json_loads websocket up who a :
  oblivious (TwoWay.iteration json_loads websocket up who a).
Proof.
  destruct who; simpl;
    [unfold TwoWay.handle_browser_messages
    |unfold TwoWay.handle_elevenlabs_messages];
    unfold TwoWay.loads; forgetting.
Qed.

(** ** Frames that do not decode *)

Lemma hybrid_malformed_logged json_loads websocket ai tts who message st :
  json_loads message = None ->
  exists line,
    Hybrid.iteration json_loads websocket ai tts who (Message message) st
    = (Ret tt, did st [Log ERROR line]).
Proof.
  intros Hloads. destruct who; eexists; simpl; turn; rewrite Hloads; reflexivity.
Qed.

Lemma two_way_malformed_logged json_loads websocket up who message st :
  json_loads message = None ->
  exists line,
    TwoWay.iteration json_loads websocket up who (Message message) st
    = (Ret tt, did st [Log ERROR line]).
Proof.
  intros Hloads. destruct who; eexists; simpl; turn; rewrite Hloads; reflexivity.
Qed.

(** C5.  A frame that [json.loads] rejects, on any socket of either
    server: the turn of the loop that received it returns, and all it did
    is write one error line; nothing was sent, no socket was closed, the
    registry is as it was.  Every frame and event that follows is handled
    exactly as it would have been handled had the malformed frame never
    arrived: same outcome, same sockets, same registry, same actions after
    the error line. *)
Theorem malformed_frame_logged_and_skipped :
  forall json_loads (websocket ai tts : handle) message,
    json_loads message = None ->
    (forall who (st : state Hybrid.upstreams) rest,
        exists line r shut registry new,
          Hybrid.iteration json_loads websocket ai tts who (Message message) st
          = (Ret tt, did st [Log ERROR line])
          /\ Hybrid.pump json_loads websocket ai tts rest st
             = (r, mkState shut registry (trace st ++ new))
          /\ Hybrid.pump json_loads websocket ai tts
               (Arrive who (Message message) :: rest) st
             = (r, mkState shut registry (trace st ++ [Log ERROR line] ++ new)))
    /\ (forall who (st : state handle) rest,
        exists line r shut registry new,
          TwoWay.iteration json_loads websocket ai who (Message message) st
          = (Ret tt, did st [Log ERROR line])
          /\ TwoWay.pump json_loads websocket ai rest st
             = (r, mkState shut registry (trace st ++ new))
          /\ TwoWay.pump json_loads websocket ai
               (Arrive who (Message message) :: rest) st
             = (r, mkState shut registry (trace st ++ [Log ERROR line] ++ new))).
Proof.
  intros json_loads websocket ai tts message Hloads. split; intros who st rest.
  - destruct (hybrid_malformed_logged _ websocket ai tts who _ st Hloads)
      as [line Hturn].
    destruct (oblivious_did
                (Hybrid.pump json_loads websocket ai tts rest) st [Log ERROR line])
      as (r & shut & registry & new & Hrest & Hafter).
    { apply oblivious_gather, hybrid_iteration_oblivious. }
    exists line, r, shut, registry, new. repeat split; [done..|].
    unfold Hybrid.pump. rewrite (gather_next _ _ _ _ _ _ _ Hturn). exact Hafter.
  - destruct (two_way_malformed_logged _ websocket ai who _ st Hloads)
      as [line Hturn].
    destruct (oblivious_did
                (TwoWay.pump json_loads websocket ai rest) st [Log ERROR line])
      as (r & shut & registry & new & Hrest & Hafter).
    { apply oblivious_gather, two_way_iteration_oblivious. }
    exists line, r, shut, registry, new. repeat split; [done..|].
    unfold TwoWay.pump. rewrite (gather_next _ _ _ _ _ _ _ Hturn). exact Hafter.
Qed.

(** ** Event types outside the table of a loop *)

(** Splits a hypothesis [unhandled table v = true] into one failed test
    per string of the table. *)
Ltac untabled H :=
  unfold unhandled in H; simpl in H;
  repeat rewrite andb_true_iff in H; repeat rewrite negb_true_iff in H.

Lemma hybrid_browser_unhandled json_loads websocket ai message items st :
  json_loads message = Some (JObj items) ->
  unhandled browser_types (event_type_of items) = true ->
  Hybrid.handle_browser_messages json_loads websocket ai (Message message) st
  = (Ret tt, did st [Log INFO [Lit "Received event "; Quote;
                               Val (event_type_of items); Quote;
                               Lit " from browser"]]).
Proof.
  intros Hloads Htype. untabled Htype.
  destruct Htype as (H1 & H2 & H3 & H4 & _). turn.
  rewrite Hloads; simpl. fold (event_type_of items).
  by rewrite H1, H2, H3, H4.
Qed.

Lemma two_way_browser_unhandled json_loads websocket up message items st :
  json_loads message = Some (JObj items) ->
  unhandled browser_types (event_type_of items) = true ->
  TwoWay.handle_browser_messages json_loads websocket up (Message message) st
  = (Ret tt, did st [Log INFO [Lit "Received event "; Quote;
                               Val (event_type_of items); Quote;
                               Lit " from browser"]]).
Proof.
  intros Hloads Htype. untabled Htype.
  destruct Htype as (H1 & H2 & H3 & H4 & _). turn.
  rewrite Hloads; simpl. fold (event_type_of items).
  by rewrite H1, H2, H3, H4.
Qed.

Lemma hybrid_ai_unhandled json_loads websocket ai tts message items st :
  json_loads message = Some (JObj items) ->
  unhandled hybrid_ai_types (event_type_of items) = true ->
  Hybrid.handle_elevenlabs_ai_messages json_loads websocket ai tts
    (Message message) st
  = (Ret tt, did st [Log INFO [Lit "Received AI event: ";
                               Val (event_type_of items)];
                     Log INFO [Lit "Unhandled AI event "; Quote;
                               Val (event_type_of items); Quote;
                               Lit ": "; Str message]]).
Proof.
  intros Hloads Htype. untabled Htype.
  destruct Htype as (H1 & H2 & H3 & H4 & H5 & _). turn.
  rewrite Hloads; simpl. fold (event_type_of items).
  rewrite H1, H2, H3, H4, H5. settle.
Qed.

(** The two-way relay passes the frame on as it came. *)
Lemma two_way_ai_unhandled json_loads websocket up message items st :
  json_loads message = Some (JObj items) ->
  unhandled two_way_ai_types (event_type_of items) = true ->
  websocket ∉ closed st ->
  TwoWay.handle_elevenlabs_messages json_loads websocket up (Message message) st
  = (Ret tt, did st [Log INFO [Lit "Received event "; Quote;
                               Val (event_type_of items); Quote;
                               Lit " from ElevenLabs: "; Str message];
                     Send websocket (Raw message)]).
Proof.
  intros Hloads Htype Hopen. untabled Htype.
  destruct Htype as (H1 & H2 & H3 & _). turn.
  rewrite Hloads; simpl. fold (event_type_of items).
  rewrite H1, H2, H3. simpl. rewrite send_open by done. settle.
Qed.

(** C3, as amended.  A decoded event whose type is none of those its loop
    tests for never raises and never ends the loop.  The downstream loop of
    either server and the AI loop of the three-way server log it and send
    nothing.  The AI loop of the two-way server logs it and passes the
    frame on to the client as it came. *)
Theorem unhandled_event_logged :
  forall json_loads (websocket ai tts : handle) message items,
    json_loads message = Some (JObj items) ->
    (unhandled browser_types (event_type_of items) = true ->
     (forall st : state Hybrid.upstreams, exists line,
         Hybrid.handle_browser_messages json_loads websocket ai
           (Message message) st
         = (Ret tt, did st [Log INFO line]))
     /\ (forall st : state handle, exists line,
         TwoWay.handle_browser_messages json_loads websocket ai
           (Message message) st
         = (Ret tt, did st [Log INFO line])))
    /\ (unhandled hybrid_ai_types (event_type_of items) = true ->
        forall st : state Hybrid.upstreams, exists line line',
          Hybrid.handle_elevenlabs_ai_messages json_loads websocket ai tts
            (Message message) st
          = (Ret tt, did st [Log INFO line; Log INFO line']))
    /\ (unhandled two_way_ai_types (event_type_of items) = true ->
        forall st : state handle,
          websocket ∉ closed st ->
          exists line,
            TwoWay.handle_elevenlabs_messages json_loads websocket ai
              (Message message) st
            = (Ret tt, did st [Log INFO line; Send websocket (Raw message)])).
Proof.
  intros json_loads websocket ai tts message items Hloads.
  split; [|split].
  - intros Htype. split; intros st; eexists.
    + by apply hybrid_browser_unhandled with (items := items).
    + by apply two_way_browser_unhandled with (items := items).
  - intros Htype st. eexists _, _.
    by apply hybrid_ai_unhandled with (items := items).
  - intros Htype st Hopen. eexists.
    by apply two_way_ai_unhandled with (items := items).
Qed.

(** C3 as stated fails in the two-way server: an event of a type its AI
    loop does not test for is sent on to the client. *)
Lemma two_way_forwards_unhandled_event :
  let frame := Json.text "{'type':'conversation_initiation_metadata'}" in
  let items := [("type", JStr "conversation_initiation_metadata")] in
  let line := [Lit "Received event "; Quote;
               Val (JStr "conversation_initiation_metadata"); Quote;
               Lit " from ElevenLabs: "; Str frame] in
  Json.loads frame = Some (JObj items)
  /\ unhandled two_way_ai_types (event_type_of items) = true
  /\ TwoWay.handle_elevenlabs_messages Json.loads the_browser the_ai
       (Message frame) idle
     = (Ret tt, did idle [Log INFO line; Send the_browser (Raw frame)])
  /\ logs_only [Log INFO line; Send the_browser (Raw frame)] = false.
Proof. repeat split; vm_compute; reflexivity. Qed.

Lemma unhandled_event_logged_witness :
  let frame := Json.text "{'type':'conversation_initiation_metadata'}" in
  exists line,
    TwoWay.handle_elevenlabs_messages Json.loads the_browser the_ai
      (Message frame) idle
    = (Ret tt, did idle [Log INFO line; Send the_browser (Raw frame)]).
Proof.
  intros frame.
  destruct (unhandled_event_logged Json.loads the_browser the_ai the_tts frame
              [("type", JStr "conversation_initiation_metadata")])
    as (_ & _ & Hforward).
  - vm_compute; reflexivity.
  - apply (Hforward eq_refl idle). vm_compute. set_solver.
Defined.

(** ** The downstream statements on concrete frames *)

Lemma audio_chunk_forwarded_witness :
  let frame := Json.text "{'type':'input_audio_buffer.append','audio':'QUJD'}" in
  exists line later,
    trace (snd (Hybrid.pump Json.loads the_browser the_ai the_tts
                  [Arrive Hybrid.Browser (Message frame);
                   Arrive Hybrid.Browser (Message frame)] idle))
    = [Log INFO line;
       Send the_ai (Dumps (JObj [("user_audio_chunk", JStr "QUJD")]))] ++ later.
Proof.
  intros frame.
  destruct (audio_chunk_forwarded_before_next_event Json.loads
              the_browser the_ai the_tts frame
              [("type", JStr "input_audio_buffer.append"); ("audio", JStr "QUJD")]
              (JStr "QUJD"))
    as [Hhybrid _]; [vm_compute; reflexivity | reflexivity | reflexivity |].
  destruct (Hhybrid idle [Arrive Hybrid.Browser (Message frame)])
    as (line & _ & later & Htrace); [vm_compute; set_solver|].
  by exists line, later.
Defined.

Lemma session_update_acknowledged_witness :
  let frame := Json.text "{'type':'session.update','session':{'voice':'alloy'}}" in
  exists block line,
    session_block (Dumps TwoWay.session_created) = Some block
    /\ TwoWay.pump Json.loads the_browser the_ai
         [Arrive TwoWay.Browser (Message frame)] idle
       = TwoWay.pump Json.loads the_browser the_ai []
           (did idle [Log INFO line;
                      Send the_browser
                        (Dumps (JObj [("type", JStr "session.updated");
                                      ("session", block)]))]).
Proof.
  intros frame.
  destruct (session_update_acknowledged_unchanged Json.loads
              the_browser the_ai the_tts frame
              [("type", JStr "session.update");
               ("session", JObj [("voice", JStr "alloy")])])
    as [_ (block & Hblock & Hack)]; [vm_compute; reflexivity | reflexivity |].
  destruct (Hack idle []) as [line Hpump]; [vm_compute; set_solver|].
  by exists block, line.
Defined.

Lemma malformed_frame_witness :
  let frame := Json.text "{'type': 'input_audio_buffer.append', 'audio': " in
  exists line,
    Hybrid.iteration Json.loads the_browser the_ai the_tts Hybrid.TTS
      (Message frame) idle
    = (Ret tt, did idle [Log ERROR line]).
Proof.
  intros frame.
  destruct (malformed_frame_logged_and_skipped Json.loads
              the_browser the_ai the_tts frame)
    as [Hhybrid _]; [vm_compute; reflexivity|].
  destruct (Hhybrid Hybrid.TTS idle []) as (line & _ & _ & _ & _ & Hturn & _).
  by exists line.
Defined.

(** ** The AI loop of the three-way relay *)


(** An empty text is skipped: [if text_response:]. *)
Lemma hybrid_agent_response_empty
    json_loads websocket ai tts message items inner T st :
  json_loads message = Some (JObj items) ->
  assoc "type" items = Some (JStr "agent_response") ->
  assoc "agent_response_event" items = Some (JObj inner) ->
  assoc "agent_response" inner = Some T ->
  truthy T = false ->
  Hybrid.handle_elevenlabs_ai_messages json_loads websocket ai tts
    (Message message) st
  = (Ret tt,
     did st [Log INFO [Lit "Received AI event: "; Val (JStr "agent_response")]]).
Proof.
  intros Hloads Htype Hevent Htext Hfalse. turn.
  rewrite Hloads; simpl. rewrite Htype; simpl. rewrite Hevent; cbn -[truthy].
  rewrite Htext, Hfalse. settle.
Qed.




(** ** The TTS loop of the three-way relay *)

(** A payload that counts as true goes to the client, whatever [isFinal]
    says: the [elif] is not reached. *)
Lemma hybrid_tts_audio json_loads websocket tts message items P st :
  json_loads message = Some (JObj items) ->
  assoc "audio" items = Some P ->
  truthy P = true ->
  websocket ∉ closed st ->
  Hybrid.handle_elevenlabs_tts_messages json_loads websocket tts
    (Message message) st
  = (Ret tt,
     did st [Send websocket
               (Dumps (JObj [("type", JStr "response.audio.delta");
                             ("response_id", JStr "elevenlabs_tts_response");
                             ("item_id", JStr "elevenlabs_tts_audio");
                             ("output_index", JInt 0);
                             ("content_index", JInt 0);
                             ("delta", P)]));
             Log INFO [Lit "Relayed TTS audio to browser"]]).
Proof.
  intros Hloads Haudio Htrue Hopen. turn.
  rewrite Hloads; cbn -[truthy]. rewrite Haudio, Htrue; simpl.
  rewrite send_open by done. settle.
Qed.

(** No payload, or one that counts as false, and a final flag that counts
    as true. *)
Lemma hybrid_tts_final json_loads websocket tts message items st :
  json_loads message = Some (JObj items) ->
  truthy (member "audio" items) = false ->
  truthy (member "isFinal" items) = true ->
  websocket ∉ closed st ->
  Hybrid.handle_elevenlabs_tts_messages json_loads websocket tts
    (Message message) st
  = (Ret tt,
     did st [Send websocket (Dumps (JObj [("type", JStr "response.audio.done")]));
             Log INFO [Lit "TTS audio generation completed"]]).
Proof.
  intros Hloads Haudio Hfinal Hopen. turn.
  rewrite Hloads; cbn -[truthy]. fold (member "audio" items).
  rewrite Haudio. fold (member "isFinal" items). rewrite Hfinal; simpl.
  rewrite send_open by done. settle.
Qed.

(** Neither: the turn does nothing at all. *)
Lemma hybrid_tts_silent json_loads websocket tts message items st :
  json_loads message = Some (JObj items) ->
  truthy (member "audio" items) = false ->
  truthy (member "isFinal" items) = false ->
  Hybrid.handle_elevenlabs_tts_messages json_loads websocket tts
    (Message message) st
  = (Ret tt, st).
Proof.
  intros Hloads Haudio Hfinal. turn.
  rewrite Hloads; cbn -[truthy]. fold (member "audio" items).
  rewrite Haudio. fold (member "isFinal" items). by rewrite Hfinal.
Qed.

(** C7, as amended.  In the three-way server, with the client socket
    open: a TTS message carrying a non-empty audio payload [P] makes the
    client receive a [response.audio.delta] event whose [delta] is [P]; a
    TTS message carrying the final flag and no non-empty audio payload makes
    the client receive a [response.audio.done] event. *)
Theorem tts_audio_and_completion_relayed :
  forall json_loads (websocket tts : handle) message items
         (st : state Hybrid.upstreams),
    json_loads message = Some (JObj items) ->
    websocket ∉ closed st ->
    (forall P,
        assoc "audio" items = Some P ->
        truthy P = true ->
        exists delta_event line,
          Hybrid.handle_elevenlabs_tts_messages json_loads websocket tts
            (Message message) st
          = (Ret tt, did st [Send websocket (Dumps (JObj delta_event));
                             Log INFO line])
          /\ assoc "type" delta_event = Some (JStr "response.audio.delta")
          /\ assoc "delta" delta_event = Some P)
    /\ (truthy (member "audio" items) = false ->
        truthy (member "isFinal" items) = true ->
        exists line,
          Hybrid.handle_elevenlabs_tts_messages json_loads websocket tts
            (Message message) st
          = (Ret tt,
             did st [Send websocket
                       (Dumps (JObj [("type", JStr "response.audio.done")]));
                     Log INFO line])).
Proof.
  intros json_loads websocket tts message items st Hloads Hopen. split.
  - intros P Haudio Htrue. eexists _, _. split; [|split].
    + by apply hybrid_tts_audio with (items := items).
    + reflexivity.
    + reflexivity.
  - intros Haudio Hfinal. eexists.
    by apply hybrid_tts_final with (items := items).
Qed.

(** C7 as stated fails for a message that carries the final flag together
    with audio: the client gets the delta and no [response.audio.done]. *)
Lemma final_flag_with_audio_not_announced :
  let frame := Json.text "{'audio':'Zm9v','isFinal':true}" in
  let delta_event :=
    JObj [("type", JStr "response.audio.delta");
          ("response_id", JStr "elevenlabs_tts_response");
          ("item_id", JStr "elevenlabs_tts_audio");
          ("output_index", JInt 0);
          ("content_index", JInt 0);
          ("delta", JStr "Zm9v")] in
  Json.loads frame
  = Some (JObj [("audio", JStr "Zm9v"); ("isFinal", JBool true)])
  /\ Hybrid.handle_elevenlabs_tts_messages Json.loads the_browser the_tts
       (Message frame) idle
     = (Ret tt, did idle [Send the_browser (Dumps delta_event);
                          Log INFO [Lit "Relayed TTS audio to browser"]])
  /\ sent_types the_browser
       [Send the_browser (Dumps delta_event);
        Log INFO [Lit "Relayed TTS audio to browser"]]
     = [JStr "response.audio.delta"].
Proof. repeat split; vm_compute; reflexivity. Qed.

Lemma tts_audio_witness :
  let frame := Json.text "{'audio':'Zm9v'}" in
  exists delta_event line,
    Hybrid.handle_elevenlabs_tts_messages Json.loads the_browser the_tts
      (Message frame) idle
    = (Ret tt, did idle [Send the_browser (Dumps (JObj delta_event));
                         Log INFO line])
    /\ assoc "type" delta_event = Some (JStr "response.audio.delta")
    /\ assoc "delta" delta_event = Some (JStr "Zm9v").
Proof.
  intros frame.
  destruct (tts_audio_and_completion_relayed Json.loads the_browser the_tts
              frame [("audio", JStr "Zm9v")] idle) as [Haudio _].
  - vm_compute; reflexivity.
  - vm_compute; set_solver.
  - by apply (Haudio (JStr "Zm9v")).
Defined.

(** C10, as amended.  In the TTS loop of the three-way server, with the
    client socket open: a message with a non-empty [audio] and [isFinal]
    true yields the [response.audio.delta] event and nothing else; a message
    whose [audio] is the empty string yields no [response.audio.delta], and
    no event at all unless its [isFinal] counts as true, in which case it
    yields [response.audio.done]. *)
Theorem tts_audio_takes_precedence :
  forall json_loads (websocket tts : handle) message items
         (st : state Hybrid.upstreams),
    json_loads message = Some (JObj items) ->
    websocket ∉ closed st ->
    (forall P,
        assoc "audio" items = Some P ->
        truthy P = true ->
        assoc "isFinal" items = Some (JBool true) ->
        exists delta_event line,
          Hybrid.handle_elevenlabs_tts_messages json_loads websocket tts
            (Message message) st
          = (Ret tt, did st [Send websocket (Dumps (JObj delta_event));
                             Log INFO line])
          /\ assoc "type" delta_event = Some (JStr "response.audio.delta")
          /\ assoc "delta" delta_event = Some P)
    /\ (assoc "audio" items = Some (JStr "") ->
        (truthy (member "isFinal" items) = false ->
         Hybrid.handle_elevenlabs_tts_messages json_loads websocket tts
           (Message message) st
         = (Ret tt, st))
        /\ (truthy (member "isFinal" items) = true ->
            exists line,
              Hybrid.handle_elevenlabs_tts_messages json_loads websocket tts
                (Message message) st
              = (Ret tt,
                 did st [Send websocket
                           (Dumps (JObj [("type", JStr "response.audio.done")]));
                         Log INFO line]))).
Proof.
  intros json_loads websocket tts message items st Hloads Hopen. split.
  - intros P Haudio Htrue _. eexists _, _. split; [|split].
    + by apply hybrid_tts_audio with (items := items).
    + reflexivity.
    + reflexivity.
  - intros Haudio.
    assert (Hempty : truthy (member "audio" items) = false)
      by (unfold member; by rewrite Haudio).
    split; intros Hfinal.
    + by apply hybrid_tts_silent with (items := items).
    + eexists. by apply hybrid_tts_final with (items := items).
Qed.

(** C10 as stated fails for a message whose [audio] is the empty string
    and whose [isFinal] is true: the client gets [response.audio.done]. *)
Lemma empty_audio_final_announced :
  let frame := Json.text "{'audio':'','isFinal':true}" in
  let sent := [Send the_browser
                 (Dumps (JObj [("type", JStr "response.audio.done")]));
               Log INFO [Lit "TTS audio generation completed"]] in
  Json.loads frame = Some (JObj [("audio", JStr ""); ("isFinal", JBool true)])
  /\ Hybrid.handle_elevenlabs_tts_messages Json.loads the_browser the_tts
       (Message frame) idle
     = (Ret tt, did idle sent)
  /\ sent_types the_browser sent = [JStr "response.audio.done"].
Proof. repeat split; vm_compute; reflexivity. Qed.

Lemma tts_precedence_witness :
  let frame := Json.text "{'audio':'Zm9v','isFinal':true}" in
  exists delta_event line,
    Hybrid.handle_elevenlabs_tts_messages Json.loads the_browser the_tts
      (Message frame) idle
    = (Ret tt, did idle [Send the_browser (Dumps (JObj delta_event));
                         Log INFO line])
    /\ assoc "type" delta_event = Some (JStr "response.audio.delta")
    /\ assoc "delta" delta_event = Some (JStr "Zm9v").
Proof.
  intros frame.
  destruct (tts_audio_takes_precedence Json.loads the_browser the_tts frame
              [("audio", JStr "Zm9v"); ("isFinal", JBool true)] idle)
    as [Haudio _].
  - vm_compute; reflexivity.
  - vm_compute; set_solver.
  - by apply (Haudio (JStr "Zm9v")).
Defined.

(** ** Accepting a connection *)

Lemma split_head_root_query query : split_head ("/?" +:+ query) = "/".
Proof. reflexivity. Qed.

Lemma hybrid_invalid_path
    json_loads key agent voice websocket path ai_conn tts_conn sched st :
  split_head path <> "/" ->
  websocket ∉ closed st ->
  Hybrid.handle_browser_connection json_loads key agent voice websocket path
    ai_conn tts_conn sched st
  = (Ret tt,
     mkState ({[websocket]} ∪ closed st) (connections st)
       (trace st ++ [Log ERROR [Lit "Invalid path: "; Str path];
                     Close websocket 1008 (Reason "Invalid path")])).
Proof.
  intros Hpath Hopen. unfold Hybrid.handle_browser_connection.
  destruct (String.eqb_spec (split_head path) "/") as [|_]; [done|]. simpl.
  unfold bind, log, emit, close. simpl.
  rewrite bool_decide_eq_false_2 by done. simpl. by rewrite <- app_assoc.
Qed.

Lemma two_way_invalid_path
    json_loads key agent websocket path conn sched st :
  split_head path <> "/" ->
  websocket ∉ closed st ->
  TwoWay.handle_browser_connection json_loads key agent websocket path
    conn sched st
  = (Ret tt,
     mkState ({[websocket]} ∪ closed st) (connections st)
       (trace st ++ [Log ERROR [Lit "Invalid path: "; Str path];
                     Close websocket 1008 (Reason "Invalid path")])).
Proof.
  intros Hpath Hopen. unfold TwoWay.handle_browser_connection.
  destruct (String.eqb_spec (split_head path) "/") as [|_]; [done|]. simpl.
  unfold bind, log, emit, close. simpl.
  rewrite bool_decide_eq_false_2 by done. simpl. by rewrite <- app_assoc.
Qed.

(** C9.  A connection whose path, cut at the first [?], is not [/]: the
    handler returns after one error line and the close of the downstream
    socket with code 1008.  It makes no connection attempt, whatever the
    upstream endpoints would have answered, and leaves the registry as it
    was.  In both servers. *)
Theorem invalid_path_closed_without_upstream_connect :
  forall json_loads key agent voice (websocket : handle) path
         ai_conn tts_conn,
    split_head path <> "/" ->
    (forall sched (st : state Hybrid.upstreams),
        websocket ∉ closed st ->
        Hybrid.handle_browser_connection json_loads key agent voice
          websocket path ai_conn tts_conn sched st
        = (Ret tt,
           mkState ({[websocket]} ∪ closed st) (connections st)
             (trace st ++ [Log ERROR [Lit "Invalid path: "; Str path];
                           Close websocket 1008 (Reason "Invalid path")])))
    /\ (forall sched (st : state handle),
        websocket ∉ closed st ->
        TwoWay.handle_browser_connection json_loads key agent
          websocket path ai_conn sched st
        = (Ret tt,
           mkState ({[websocket]} ∪ closed st) (connections st)
             (trace st ++ [Log ERROR [Lit "Invalid path: "; Str path];
                           Close websocket 1008 (Reason "Invalid path")]))).
Proof.
  intros json_loads key agent voice websocket path ai_conn tts_conn Hpath.
  split; intros sched st Hopen.
  - by apply hybrid_invalid_path.
  - by apply two_way_invalid_path.
Qed.

Lemma invalid_path_witness :
  Hybrid.handle_browser_connection Json.loads "key" "agent" "voice"
    the_browser "/v1/realtime?model=gpt" (Connected the_ai) (Connected the_tts)
    [] idle
  = (Ret tt,
     mkState ({[the_browser]} ∪ ∅) ∅
       [Log ERROR [Lit "Invalid path: "; Str "/v1/realtime?model=gpt"];
        Close the_browser 1008 (Reason "Invalid path")]).
Proof.
  destruct (invalid_path_closed_without_upstream_connect Json.loads
              "key" "agent" "voice" the_browser "/v1/realtime?model=gpt"
              (Connected the_ai) (Connected the_tts)) as [Hhybrid _].
  - vm_compute. discriminate.
  - apply (Hhybrid [] idle). vm_compute. set_solver.
Defined.

(** ** Connecting upstream *)

Lemma hybrid_ai_connected key agent ai (st : state Hybrid.upstreams) :
  Hybrid.connect_to_elevenlabs_ai key agent (Connected ai) st
  = (Ret ai,
     mkState (closed st ∖ {[ai]}) (connections st)
       (trace st ++ [dial_ai key agent;
                     Log INFO [Lit "Successfully connected to ElevenLabs Conversational AI"]])).
Proof.
  unfold Hybrid.connect_to_elevenlabs_ai, try_except, bind, connect, log, emit.
  simpl. by rewrite <- app_assoc.
Qed.

Lemma hybrid_ai_refused key agent e (st : state Hybrid.upstreams) :
  Hybrid.connect_to_elevenlabs_ai key agent (Refused e) st
  = (Raise e,
     did st [dial_ai key agent;
             Log ERROR [Lit "Failed to connect to ElevenLabs AI: "; Exc e]]).
Proof.
  unfold Hybrid.connect_to_elevenlabs_ai, try_except, bind, connect, log, emit, did.
  simpl. by rewrite <- app_assoc.
Qed.

Lemma hybrid_tts_connected key voice tts (st : state Hybrid.upstreams) :
  Hybrid.connect_to_elevenlabs_tts key voice (Connected tts) st
  = (Ret tts,
     mkState (closed st ∖ {[tts]}) (connections st)
       (trace st ++ [dial_tts voice;
                     Log INFO [Lit "Successfully connected to ElevenLabs TTS"];
                     Send tts (Dumps (Hybrid.init_message key));
                     Log INFO [Lit "Initialized ElevenLabs TTS session"]])).
Proof.
  unfold Hybrid.connect_to_elevenlabs_tts, try_except, bind, connect, log, emit.
  simpl. rewrite send_open
    by (simpl; apply not_elem_of_difference; right; by apply elem_of_singleton).
  unfold did. simpl. by rewrite <- !app_assoc.
Qed.

Lemma hybrid_tts_refused key voice e (st : state Hybrid.upstreams) :
  Hybrid.connect_to_elevenlabs_tts key voice (Refused e) st
  = (Raise e,
     did st [dial_tts voice;
             Log ERROR [Lit "Failed to connect to ElevenLabs TTS: "; Exc e]]).
Proof.
  unfold Hybrid.connect_to_elevenlabs_tts, try_except, bind, connect, log, emit, did.
  simpl. by rewrite <- app_assoc.
Qed.

Lemma two_way_connected key agent up (st : state handle) :
  TwoWay.connect_to_elevenlabs key agent (Connected up) st
  = (Ret up,
     mkState (closed st ∖ {[up]}) (connections st)
       (trace st ++ [dial_ai key agent;
                     Log INFO [Lit "Successfully connected to ElevenLabs Conversational AI"]])).
Proof.
  unfold TwoWay.connect_to_elevenlabs, try_except, bind, connect, log, emit.
  simpl. by rewrite <- app_assoc.
Qed.

Lemma two_way_refused key agent e (st : state handle) :
  TwoWay.connect_to_elevenlabs key agent (Refused e) st
  = (Raise e,
     did st [dial_ai key agent;
             Log ERROR [Lit "Failed to connect to ElevenLabs: "; Exc e]]).
Proof.
  unfold TwoWay.connect_to_elevenlabs, try_except, bind, connect, log, emit, did.
  simpl. by rewrite <- app_assoc.
Qed.

(** ** A connection attempt that fails *)

(** Rewrites the tests [h.closed] whose answer follows from the
    hypotheses, one after the other. *)
Ltac decided :=
  repeat (first
    [ rewrite bool_decide_eq_false_2 by (simpl; set_solver)
    | rewrite bool_decide_eq_true_2 by (simpl; set_solver) ]; simpl).

(** Unfolds the statements of the connection handlers. *)
Ltac handler :=
  unfold Hybrid.on_error, Hybrid.cleanup, TwoWay.on_error, TwoWay.cleanup,
    try_finally, try_except, bind, log, emit, is_closed, close, registered,
    registry_get, unregister, register, send, ret, raise, did; simpl.

Lemma hybrid_ai_refused_closes
    json_loads key agent voice websocket path e tts_conn sched st :
  split_head path = "/" ->
  oversized (StrOf e) = false ->
  websocket ∉ closed st ->
  connections st !! websocket = None ->
  Hybrid.handle_browser_connection json_loads key agent voice websocket path
    (Refused e) tts_conn sched st
  = (Ret tt,
     mkState ({[websocket]} ∪ closed st) (connections st)
       (trace st ++ [Log INFO [Lit "Browser connected from "; Peer websocket];
                     dial_ai key agent;
                     Log ERROR [Lit "Failed to connect to ElevenLabs AI: "; Exc e];
                     Log ERROR [Lit "Error handling connection: "; Exc e];
                     Close websocket 1011 (StrOf e)])).
Proof.
  intros Hpath Hfits Hopen Hnew. simpl in Hfits. unfold Hybrid.handle_browser_connection.
  rewrite Hpath. simpl.
  unfold try_finally, try_except, Hybrid.session, bind at 1 2. rewrite log_did.
  rewrite hybrid_ai_refused. handler.
  rewrite (bool_decide_eq_false_2 _ Hopen). simpl.
  rewrite (bool_decide_eq_false_2 _ Hopen). simpl.
  rewrite Hfits. simpl.
  rewrite Hnew. simpl. decided. by rewrite <- !app_assoc.
Qed.

(** The three-way server registers the session only after both connection
    attempts.  When the second one fails, the [finally] block finds no
    entry for the browser socket and closes nothing upstream: the AI socket
    that the first attempt opened stays open. *)
Lemma hybrid_tts_refused_closes
    json_loads key agent voice websocket path ai e sched st :
  split_head path = "/" ->
  oversized (StrOf e) = false ->
  websocket ∉ closed st ->
  connections st !! websocket = None ->
  Hybrid.handle_browser_connection json_loads key agent voice websocket path
    (Connected ai) (Refused e) sched st
  = (Ret tt,
     mkState ({[websocket]} ∪ closed st ∖ {[ai]}) (connections st)
       (trace st ++ [Log INFO [Lit "Browser connected from "; Peer websocket];
                     dial_ai key agent;
                     Log INFO [Lit "Successfully connected to ElevenLabs Conversational AI"];
                     dial_tts voice;
                     Log ERROR [Lit "Failed to connect to ElevenLabs TTS: "; Exc e];
                     Log ERROR [Lit "Error handling connection: "; Exc e];
                     Close websocket 1011 (StrOf e)])).
Proof.
  intros Hpath Hfits Hopen Hnew. simpl in Hfits. unfold Hybrid.handle_browser_connection.
  rewrite Hpath. simpl.
  unfold try_finally, try_except, Hybrid.session, bind at 1 2 3. rewrite log_did.
  rewrite hybrid_ai_connected, hybrid_tts_refused. handler.
  decided. rewrite Hfits. simpl.
  rewrite Hnew. simpl. decided. by rewrite <- !app_assoc.
Qed.

Lemma two_way_refused_closes
    json_loads key agent websocket path e sched st :
  split_head path = "/" ->
  oversized (StrOf e) = false ->
  websocket ∉ closed st ->
  connections st !! websocket = None ->
  TwoWay.handle_browser_connection json_loads key agent websocket path
    (Refused e) sched st
  = (Ret tt,
     mkState ({[websocket]} ∪ closed st) (connections st)
       (trace st ++ [Log INFO [Lit "Browser connected from "; Peer websocket];
                     dial_ai key agent;
                     Log ERROR [Lit "Failed to connect to ElevenLabs: "; Exc e];
                     Log ERROR [Lit "Error handling connection: "; Exc e];
                     Close websocket 1011 (StrOf e)])).
Proof.
  intros Hpath Hfits Hopen Hnew. simpl in Hfits. unfold TwoWay.handle_browser_connection.
  rewrite Hpath. simpl. unfold bind at 1. rewrite log_did. cbv beta iota.
  handler. decided. rewrite Hfits. simpl.
  rewrite Hnew. simpl. decided.
  unfold dial_ai. by rewrite <- !app_assoc.
Qed.

(** Whichever connection attempt fails, the client is closed with code
    1011 and was sent nothing: no [session.created]. *)
Lemma connect_failure_closes_client_before_handshake
    json_loads key agent voice websocket path ai e :
  split_head path = "/" ->
  oversized (StrOf e) = false ->
  (forall st tts_conn sched,
      websocket ∉ closed st ->
      connections st !! websocket = None ->
      exists before,
        trace (snd (Hybrid.handle_browser_connection json_loads key agent voice
                      websocket path (Refused e) tts_conn sched st))
        = trace st ++ before ++ [Close websocket 1011 (StrOf e)]
        /\ sent_types websocket before = [])
  /\ (forall st sched,
      websocket ∉ closed st ->
      connections st !! websocket = None ->
      exists before,
        trace (snd (Hybrid.handle_browser_connection json_loads key agent voice
                      websocket path (Connected ai) (Refused e) sched st))
        = trace st ++ before ++ [Close websocket 1011 (StrOf e)]
        /\ sent_types websocket before = [])
  /\ (forall st sched,
      websocket ∉ closed st ->
      connections st !! websocket = None ->
      exists before,
        trace (snd (TwoWay.handle_browser_connection json_loads key agent
                      websocket path (Refused e) sched st))
        = trace st ++ before ++ [Close websocket 1011 (StrOf e)]
        /\ sent_types websocket before = []).
Proof.
  intros Hpath Hfits. split; [|split].
  - intros st tts_conn sched Hopen Hnew.
    rewrite hybrid_ai_refused_closes by done. simpl.
    by exists [Log INFO [Lit "Browser connected from "; Peer websocket];
               dial_ai key agent;
               Log ERROR [Lit "Failed to connect to ElevenLabs AI: "; Exc e];
               Log ERROR [Lit "Error handling connection: "; Exc e]].
  - intros st sched Hopen Hnew.
    rewrite hybrid_tts_refused_closes by done. simpl.
    by exists [Log INFO [Lit "Browser connected from "; Peer websocket];
               dial_ai key agent;
               Log INFO [Lit "Successfully connected to ElevenLabs Conversational AI"];
               dial_tts voice;
               Log ERROR [Lit "Failed to connect to ElevenLabs TTS: "; Exc e];
               Log ERROR [Lit "Error handling connection: "; Exc e]].
  - intros st sched Hopen Hnew.
    rewrite two_way_refused_closes by done. simpl.
    by exists [Log INFO [Lit "Browser connected from "; Peer websocket];
               dial_ai key agent;
               Log ERROR [Lit "Failed to connect to ElevenLabs: "; Exc e];
               Log ERROR [Lit "Error handling connection: "; Exc e]].
Qed.

(** C4, where the code departs from it.  The AI endpoint accepts, the TTS
    endpoint refuses.  The handler closes the client with code 1011 and has
    sent it nothing; it returns with the AI socket still open, and nothing
    in the record closes it. *)
Theorem tts_refusal_leaves_ai_socket_open :
  let e := ConnectError "server rejected WebSocket connection: HTTP 401" in
  let run :=
    Hybrid.handle_browser_connection Json.loads "key" "agent" "voice"
      the_browser "/" (Connected the_ai) (Refused e) [] idle in
  fst run = Ret tt
  /\ trace (snd run)
     = [Log INFO [Lit "Browser connected from "; Peer the_browser];
        dial_ai "key" "agent";
        Log INFO [Lit "Successfully connected to ElevenLabs Conversational AI"];
        dial_tts "voice";
        Log ERROR [Lit "Failed to connect to ElevenLabs TTS: "; Exc e];
        Log ERROR [Lit "Error handling connection: "; Exc e];
        Close the_browser 1011 (StrOf e)]
  /\ the_browser ∈ closed (snd run)
  /\ the_ai ∉ closed (snd run).
Proof.
  intros e run.
  assert (Hrun : run
          = (Ret tt,
             mkState ({[the_browser]} ∪ ∅ ∖ {[the_ai]}) ∅
               ([] ++ [Log INFO [Lit "Browser connected from "; Peer the_browser];
                       dial_ai "key" "agent";
                       Log INFO [Lit "Successfully connected to ElevenLabs Conversational AI"];
                       dial_tts "voice";
                       Log ERROR [Lit "Failed to connect to ElevenLabs TTS: "; Exc e];
                       Log ERROR [Lit "Error handling connection: "; Exc e];
                       Close the_browser 1011 (StrOf e)]))).
  { apply (hybrid_tts_refused_closes Json.loads "key" "agent" "voice"
             the_browser "/" the_ai e [] idle); [done|done|set_solver|done]. }
  rewrite Hrun. simpl. split; [done|split; [done|split]].
  - set_solver.
  - unfold the_ai, the_browser. set_solver.
Qed.

(** ** Tearing a session down *)



Section Stepping.
Context {entry : Type}.
Implicit Types (st : state entry) (h : handle).

Lemma is_closed_in h st : h ∈ closed st -> is_closed h st = (Ret true, st).
Proof. intros Hin. unfold is_closed. by rewrite bool_decide_eq_true_2. Qed.

Lemma is_closed_out h st : h ∉ closed st -> is_closed h st = (Ret false, st).
Proof. intros Hout. unfold is_closed. by rewrite bool_decide_eq_false_2. Qed.

Lemma close_open h code why st :
  h ∉ closed st ->
  oversized why = false ->
  close h code why st
  = (Ret tt, mkState ({[h]} ∪ closed st) (connections st)
                     (trace st ++ [Close h code why])).
Proof.
  intros Hout Hfits. unfold close.
  by rewrite bool_decide_eq_false_2, Hfits.
Qed.

Lemma registered_in h e st :
  connections st !! h = Some e -> registered h st = (Ret true, st).
Proof. intros Hin. unfold registered. by rewrite Hin. Qed.

Lemma registered_out h st :
  connections st !! h = None -> registered h st = (Ret false, st).
Proof. intros Hout. unfold registered. by rewrite Hout. Qed.

Lemma registry_get_in h e st :
  connections st !! h = Some e -> registry_get h st = (Ret e, st).
Proof. intros Hin. unfold registry_get. by rewrite Hin. Qed.

Lemma unregister_in h e st :
  connections st !! h = Some e ->
  unregister h st
  = (Ret tt, mkState (closed st) (delete h (connections st))
                     (trace st ++ [Unregister h])).
Proof. intros Hin. unfold unregister. by rewrite Hin. Qed.

End Stepping.

(** Reduces the plumbing of the monad and leaves its operations folded. *)
Ltac advance :=
  cbv beta iota zeta delta [bind try_except try_finally ret raise negb fst snd];
  cbn [closed connections trace Hybrid.ai Hybrid.tts].

(** Membership of a socket in a set of closed sockets, from the
    hypotheses. *)
Ltac sets := simpl; set_unfold; intuition congruence.

(** Runs the next operations whose outcome follows from the hypotheses. *)
Ltac run :=
  repeat (first
    [ rewrite is_closed_in by sets
    | rewrite is_closed_out by sets
    | rewrite close_open by first [reflexivity | sets]
    | erewrite registered_in by (simpl; eassumption)
    | erewrite registry_get_in by (simpl; eassumption)
    | erewrite unregister_in by (simpl; eassumption)
    | rewrite send_open by sets
    | rewrite log_did ]; advance).

(** Closes a goal on the state a handler ends in. *)
Ltac landed :=
  repeat first [ rewrite bool_decide_eq_true_2 by assumption
               | rewrite bool_decide_eq_false_2 by assumption ];
  unfold did; cbn [closed connections trace];
  f_equal; f_equal;
  first [ by rewrite <- ?app_assoc | by rewrite ?delete_insert_eq | set_solver ].



(** The [finally] block of the three-way handler on a registered session:
    each upstream socket that is still open is closed with code 1000, the
    entry is deleted, then the browser socket is closed with code 1000 if it
    is still open. *)
Lemma hybrid_cleanup websocket ai tts (st : state Hybrid.upstreams) :
  connections st !! websocket = Some (Hybrid.mkUpstreams ai tts) ->
  websocket <> ai -> websocket <> tts -> ai <> tts ->
  Hybrid.cleanup websocket st
  = (Ret tt,
     mkState (closed st ∪ {[websocket; ai; tts]})
             (delete websocket (connections st))
             (trace st ++ normal_closure st ai ++ normal_closure st tts
                ++ [Unregister websocket] ++ normal_closure st websocket)).
Proof.
  intros Hentry Hai Htts Hup. unfold normal_closure, Hybrid.cleanup.
  destruct (decide (ai ∈ closed st)), (decide (tts ∈ closed st)),
    (decide (websocket ∈ closed st));
    advance; run; landed.
Qed.

Lemma two_way_cleanup websocket up (st : state handle) :
  connections st !! websocket = Some up ->
  websocket <> up ->
  TwoWay.cleanup websocket (Some up) st
  = (Ret tt,
     mkState (closed st ∪ {[websocket; up]})
             (delete websocket (connections st))
             (trace st ++ normal_closure st up
                ++ [Unregister websocket] ++ normal_closure st websocket)).
Proof.
  intros Hentry Hup. unfold normal_closure, TwoWay.cleanup.
  destruct (decide (up ∈ closed st)), (decide (websocket ∈ closed st));
    advance; run; landed.
Qed.

(** On a valid path with both endpoints accepting, the three-way handler
    gets to its loops, in the state [hybrid_started]. *)
Lemma hybrid_runs json_loads key agent voice websocket path ai tts sched st :
  split_head path = "/" ->
  websocket ∉ closed st -> websocket <> ai -> websocket <> tts ->
  Hybrid.handle_browser_connection json_loads key agent voice websocket path
    (Connected ai) (Connected tts) sched st
  = try_finally
      (try_except
         (try_except (Hybrid.pump json_loads websocket ai tts sched)
            (fun e =>
               match e with
               | ConnectionClosed _ _ =>
                   Some (log INFO [Lit "Connection closed, cleaning up"])
               | _ => None
               end))
         (fun e => Some (Hybrid.on_error websocket e)))
      (Hybrid.cleanup websocket)
      (hybrid_started key agent voice websocket ai tts st).
Proof.
  intros Hpath Hopen Hai Htts. unfold Hybrid.handle_browser_connection.
  rewrite Hpath. simpl.
  unfold bind at 1. rewrite log_did. cbv beta iota.
  unfold try_finally at 1 2, try_except at 1 3. unfold Hybrid.session.
  unfold bind at 1. rewrite hybrid_ai_connected.
  unfold bind at 1. rewrite hybrid_tts_connected.
  unfold bind at 1, register at 1. cbn [closed connections trace].
  unfold bind at 1. rewrite log_did.
  unfold bind at 1. rewrite send_open by sets.
  unfold bind at 1. rewrite log_did.
  unfold hybrid_started, hybrid_opening, did. cbn [closed connections trace].
  rewrite <- !app_assoc. reflexivity.
Qed.

Lemma two_way_runs json_loads key agent websocket path up sched st :
  split_head path = "/" ->
  websocket ∉ closed st -> websocket <> up ->
  TwoWay.handle_browser_connection json_loads key agent websocket path
    (Connected up) sched st
  = try_finally
      (try_except
         (try_except (TwoWay.pump json_loads websocket up sched)
            (fun e =>
               match e with
               | ConnectionClosed _ _ =>
                   Some (log INFO [Lit "Connection closed, cleaning up"])
               | _ => None
               end))
         (fun e => Some (TwoWay.on_error websocket e)))
      (TwoWay.cleanup websocket (Some up))
      (two_way_started key agent websocket up st).
Proof.
  intros Hpath Hopen Hup. unfold TwoWay.handle_browser_connection.
  rewrite Hpath. change (String.eqb "/" "/") with true.
  cbv beta iota zeta delta [negb].
  unfold bind at 1. rewrite log_did. cbv beta iota.
  rewrite two_way_connected.
  unfold try_finally at 1 2, try_except at 1 3. unfold TwoWay.session.
  unfold bind at 1, register at 1. cbn [closed connections trace].
  unfold bind at 1. rewrite log_did.
  unfold bind at 1. rewrite send_open by sets.
  unfold bind at 1. rewrite log_did.
  unfold two_way_started, two_way_opening, did. cbn [closed connections trace].
  rewrite <- !app_assoc. reflexivity.
Qed.

(** Of what the loops do, nothing closes a socket or deletes an entry. *)
Lemma talk_tears_nothing_down acts :
  forallb talk acts = true -> List.filter tears_down acts = [].
Proof.
  induction acts as [|a acts IH]; [done|]. simpl.
  intros [Ha Hacts]%andb_true_iff. rewrite (IH Hacts). by destruct a.
Qed.

Lemma closed_normally_tears_down away h :
  List.filter tears_down (closed_normally away h) = closed_normally away h.
Proof. unfold closed_normally. by destruct (bool_decide (h ∈ away)). Qed.

(** Only sockets of the session go away in the course of a schedule. *)
Lemma hybrid_lost_sockets websocket ai tts sched :
  lost (Hybrid.sock websocket ai tts) sched ⊆ {[websocket; ai; tts]}.
Proof.
  induction sched as [|[who [m|code reason]|who] rest IH]; simpl;
    [set_solver|done|destruct who; set_solver..].
Qed.

Lemma two_way_lost_sockets websocket up sched :
  lost (TwoWay.sock websocket up) sched ⊆ {[websocket; up]}.
Proof.
  induction sched as [|[who [m|code reason]|who] rest IH]; simpl;
    [set_solver|done|destruct who; set_solver..].
Qed.

(** A socket of a session that has just started is closed when the [recv]
    of a loop raises exactly if its connection went away since. *)
Lemma closure_due {entry : Type} (st1 : state entry) away shut h :
  closed st1 = away ∪ shut -> h ∉ shut ->
  normal_closure st1 h = closed_normally away h.
Proof.
  intros Hclosed Hopen. unfold normal_closure, closed_normally.
  apply (f_equal (fun b : bool => if b then [] else _)).
  apply bool_decide_ext. rewrite Hclosed. set_solver.
Qed.

(** The three-way session ends when the [recv] of one of its loops
    raises.  Up to there the relay closed nothing and deleted nothing.
    From there the handler closes each of the three sockets whose connection
    is still there, with code 1000, deletes the registry entry once, and
    returns. *)
Lemma hybrid_teardown
    json_loads key agent voice websocket ai tts path pre who code reason post st :
  split_head path = "/" ->
  websocket ∉ closed st ->
  websocket <> ai -> websocket <> tts -> ai <> tts ->
  forallb uneventful pre = true ->
  let away := lost (Hybrid.sock websocket ai tts)
                (pre ++ [Arrive who (Gone code reason)]) in
  exists st' : state Hybrid.upstreams,
    Hybrid.handle_browser_connection json_loads key agent voice websocket
      path (Connected ai) (Connected tts)
      (pre ++ Arrive who (Gone code reason) :: post) st
    = (Ret tt, st')
    /\ closed st' = closed st ∪ {[websocket; ai; tts]}
    /\ connections st' = delete websocket (connections st)
    /\ List.filter tears_down (trace st')
       = List.filter tears_down (trace st)
           ++ closed_normally away ai ++ closed_normally away tts
           ++ [Unregister websocket] ++ closed_normally away websocket.
Proof.
  intros Hpath Hopen Hai Htts Hup Hpre away.
  destruct (gather_fails (Hybrid.iteration json_loads websocket ai tts)
              (Hybrid.sock websocket ai tts)
              (hybrid_message_returns json_loads websocket ai tts)
              (hybrid_gone_raises json_loads websocket ai tts)
              pre who code reason post
              (hybrid_started key agent voice websocket ai tts st) Hpre)
    as (st0 & line & Hpump & Hconn & Hclosed & acts & Htrace & Hacts).
  fold away in Hclosed. cbn [hybrid_started closed] in Hclosed.
  pose (st1 := did st0 [Log INFO line;
                        Log INFO [Lit "Connection closed, cleaning up"]]).
  pose proof (hybrid_lost_sockets websocket ai tts
                (pre ++ [Arrive who (Gone code reason)])) as Haway.
  fold away in Haway.
  eexists. split; [|split; [|split]].
  - rewrite hybrid_runs by done.
    unfold try_finally, try_except at 1 2. unfold Hybrid.pump. rewrite Hpump.
    rewrite log_did, did_did.
    change ([Log INFO line] ++ [Log INFO [Lit "Connection closed, cleaning up"]])
      with [Log INFO line; Log INFO [Lit "Connection closed, cleaning up"]].
    fold st1.
    rewrite (hybrid_cleanup websocket ai tts st1); [reflexivity| |done..].
    unfold st1. rewrite connections_did, Hconn. apply lookup_insert_eq.
  - cbn [closed]. unfold st1. rewrite closed_did, Hclosed.
    apply set_eq. intros h.
    destruct (decide (h = ai)) as [->|]; [set_solver|].
    destruct (decide (h = tts)) as [->|]; set_solver.
  - cbn [connections]. unfold st1. rewrite connections_did, Hconn.
    cbn [hybrid_started connections]. apply delete_insert_eq.
  - cbn [trace].
    rewrite !(closure_due st1 away (closed st ∖ {[ai]} ∖ {[tts]}))
      by (first [exact Hclosed | set_solver]).
    unfold st1. rewrite trace_did, Htrace. cbn [hybrid_started trace].
    rewrite !List.filter_app, !closed_normally_tears_down,
      (talk_tears_nothing_down _ Hacts).
    rewrite <- !app_assoc. reflexivity.
Qed.

(** The same for the two-way session and its two sockets. *)
Lemma two_way_teardown
    json_loads key agent websocket up path pre who code reason post st :
  split_head path = "/" ->
  websocket ∉ closed st ->
  websocket <> up ->
  forallb uneventful pre = true ->
  let away := lost (TwoWay.sock websocket up)
                (pre ++ [Arrive who (Gone code reason)]) in
  exists st' : state handle,
    TwoWay.handle_browser_connection json_loads key agent websocket
      path (Connected up)
      (pre ++ Arrive who (Gone code reason) :: post) st
    = (Ret tt, st')
    /\ closed st' = closed st ∪ {[websocket; up]}
    /\ connections st' = delete websocket (connections st)
    /\ List.filter tears_down (trace st')
       = List.filter tears_down (trace st)
           ++ closed_normally away up
           ++ [Unregister websocket] ++ closed_normally away websocket.
Proof.
  intros Hpath Hopen Hup Hpre away.
  destruct (gather_fails (TwoWay.iteration json_loads websocket up)
              (TwoWay.sock websocket up)
              (two_way_message_returns json_loads websocket up)
              (two_way_gone_raises json_loads websocket up)
              pre who code reason post
              (two_way_started key agent websocket up st) Hpre)
    as (st0 & line & Hpump & Hconn & Hclosed & acts & Htrace & Hacts).
  fold away in Hclosed. cbn [two_way_started closed] in Hclosed.
  pose (st1 := did st0 [Log INFO line;
                        Log INFO [Lit "Connection closed, cleaning up"]]).
  pose proof (two_way_lost_sockets websocket up
                (pre ++ [Arrive who (Gone code reason)])) as Haway.
  fold away in Haway.
  eexists. split; [|split; [|split]].
  - rewrite two_way_runs by done.
    unfold try_finally, try_except at 1 2. unfold TwoWay.pump. rewrite Hpump.
    rewrite log_did, did_did.
    change ([Log INFO line] ++ [Log INFO [Lit "Connection closed, cleaning up"]])
      with [Log INFO line; Log INFO [Lit "Connection closed, cleaning up"]].
    fold st1.
    rewrite (two_way_cleanup websocket up st1); [reflexivity| |done].
    unfold st1. rewrite connections_did, Hconn. apply lookup_insert_eq.
  - cbn [closed]. unfold st1. rewrite closed_did, Hclosed.
    apply set_eq. intros h.
    destruct (decide (h = up)) as [->|]; set_solver.
  - cbn [connections]. unfold st1. rewrite connections_did, Hconn.
    cbn [two_way_started connections]. apply delete_insert_eq.
  - cbn [trace].
    rewrite !(closure_due st1 away (closed st ∖ {[up]}))
      by (first [exact Hclosed | set_solver]).
    unfold st1. rewrite trace_did, Htrace. cbn [two_way_started trace].
    rewrite !List.filter_app, !closed_normally_tears_down,
      (talk_tears_nothing_down _ Hacts).
    rewrite <- !app_assoc. reflexivity.
Qed.

(** C8.  A session that got to its loops ends when the [recv] of any one
    of them raises [ConnectionClosed], be it on the browser socket, the AI
    socket or the TTS socket.  [away] are the sockets whose connection has
    gone by then: the one whose [recv] raised, and those that were lost
    before without their loop having noticed.  The handler returns, and of
    all it did from the moment the client connected, what closes a socket
    or deletes a registry entry is exactly this, in this order: a close with
    code 1000 and reason "Normal closure" for each upstream socket that is
    not [away], the deletion of the entry of the session, and the same close
    for the browser socket if it is not [away].  Every socket of the session
    then counts as closed, and no other entry of the registry was touched.
    In both servers. *)
Theorem session_torn_down_on_first_closed_socket :
  forall json_loads key agent voice (websocket ai tts : handle) path
         code reason,
    split_head path = "/" ->
    websocket <> ai -> websocket <> tts -> ai <> tts ->
    (forall pre who post (st : state Hybrid.upstreams),
        websocket ∉ closed st ->
        forallb uneventful pre = true ->
        let away := lost (Hybrid.sock websocket ai tts)
                      (pre ++ [Arrive who (Gone code reason)]) in
        exists st' : state Hybrid.upstreams,
          Hybrid.handle_browser_connection json_loads key agent voice
            websocket path (Connected ai) (Connected tts)
            (pre ++ Arrive who (Gone code reason) :: post) st
          = (Ret tt, st')
          /\ closed st' = closed st ∪ {[websocket; ai; tts]}
          /\ connections st' = delete websocket (connections st)
          /\ List.filter tears_down (trace st')
             = List.filter tears_down (trace st)
                 ++ closed_normally away ai ++ closed_normally away tts
                 ++ [Unregister websocket]
                 ++ closed_normally away websocket)
    /\ (forall pre who post (st : state handle),
        websocket ∉ closed st ->
        forallb uneventful pre = true ->
        let away := lost (TwoWay.sock websocket ai)
                      (pre ++ [Arrive who (Gone code reason)]) in
        exists st' : state handle,
          TwoWay.handle_browser_connection json_loads key agent
            websocket path (Connected ai)
            (pre ++ Arrive who (Gone code reason) :: post) st
          = (Ret tt, st')
          /\ closed st' = closed st ∪ {[websocket; ai]}
          /\ connections st' = delete websocket (connections st)
          /\ List.filter tears_down (trace st')
             = List.filter tears_down (trace st)
                 ++ closed_normally away ai
                 ++ [Unregister websocket]
                 ++ closed_normally away websocket).
Proof.
  intros json_loads key agent voice websocket ai tts path code reason
    Hpath Hai Htts Hup.
  split; intros pre who post st Hopen Hpre.
  - by apply hybrid_teardown.
  - by apply two_way_teardown.
Qed.

Lemma session_torn_down_witness :
  let chunk := Json.text "{'type':'input_audio_buffer.append','audio':'QUJD'}" in
  exists st' : state Hybrid.upstreams,
    Hybrid.handle_browser_connection Json.loads "key" "agent" "voice"
      the_browser "/" (Connected the_ai) (Connected the_tts)
      ([Arrive Hybrid.Browser (Message chunk)]
         ++ Arrive Hybrid.TTS (Gone 1006 "") :: []) idle
    = (Ret tt, st')
    /\ closed st' = closed (idle : state Hybrid.upstreams)
                      ∪ {[the_browser; the_ai; the_tts]}
    /\ connections st'
       = delete the_browser (connections (idle : state Hybrid.upstreams))
    /\ List.filter tears_down (trace st')
       = [Close the_ai 1000 (Reason "Normal closure");
          Unregister the_browser;
          Close the_browser 1000 (Reason "Normal closure")].
Proof.
  intros chunk.
  destruct (session_torn_down_on_first_closed_socket Json.loads
              "key" "agent" "voice" the_browser the_ai the_tts "/" 1006 "")
    as [Hhybrid _]; [reflexivity | discriminate..|].
  apply (Hhybrid [Arrive Hybrid.Browser (Message chunk)] Hybrid.TTS [] idle).
  - vm_compute. set_solver.
  - reflexivity.
Defined.

(** ** Further behaviour of the loops *)

(** X1.  [input_audio_buffer.commit] and [response.create] are accepted
    and ignored by the downstream loop of either server: one log line,
    nothing sent to any socket, whatever the sockets' state. *)
Theorem commit_and_create_are_noops :
  forall json_loads (websocket up : handle) message items,
    json_loads message = Some (JObj items) ->
    (assoc "type" items = Some (JStr "input_audio_buffer.commit")
     \/ assoc "type" items = Some (JStr "response.create")) ->
    (forall st : state Hybrid.upstreams, exists line,
        Hybrid.handle_browser_messages json_loads websocket up
          (Message message) st
        = (Ret tt, did st [Log INFO line]))
    /\ (forall st : state handle, exists line,
        TwoWay.handle_browser_messages json_loads websocket up
          (Message message) st
        = (Ret tt, did st [Log INFO line])).
Proof.
  intros json_loads websocket up message items Hloads [Htype|Htype];
    split; intros st; eexists; turn;
    rewrite Hloads; simpl; rewrite Htype; reflexivity.
Qed.

Lemma commit_and_create_witness :
  let frame := Json.text "{'type':'response.create'}" in
  exists line,
    Hybrid.handle_browser_messages Json.loads the_browser the_ai
      (Message frame) idle
    = (Ret tt, did idle [Log INFO line]).
Proof.
  intros frame.
  destruct (commit_and_create_are_noops Json.loads the_browser the_ai frame
              [("type", JStr "response.create")]) as [Hhybrid _].
  - vm_compute; reflexivity.
  - by right.
  - apply Hhybrid.
Defined.

(** X2.  An [input_audio_buffer.append] event without an [audio] member
    is still forwarded: the upstream socket gets [{"user_audio_chunk": ""}].
    In both servers. *)
Theorem append_without_audio_forwards_empty_chunk :
  forall json_loads (websocket up : handle) message items,
    json_loads message = Some (JObj items) ->
    assoc "type" items = Some (JStr "input_audio_buffer.append") ->
    assoc "audio" items = None ->
    (forall st : state Hybrid.upstreams,
        up ∉ closed st ->
        exists line,
          Hybrid.handle_browser_messages json_loads websocket up
            (Message message) st
          = (Ret tt,
             did st [Log INFO line;
                     Send up (Dumps (JObj [("user_audio_chunk", JStr "")]))]))
    /\ (forall st : state handle,
        up ∉ closed st ->
        exists line,
          TwoWay.handle_browser_messages json_loads websocket up
            (Message message) st
          = (Ret tt,
             did st [Log INFO line;
                     Send up (Dumps (JObj [("user_audio_chunk", JStr "")]))])).
Proof.
  intros json_loads websocket up message items Hloads Htype Haudio.
  split; intros st Hopen; eexists; turn;
    rewrite Hloads; simpl; rewrite Htype; simpl; rewrite Haudio;
    rewrite send_open by done; settle.
Qed.

Lemma append_without_audio_witness :
  let frame := Json.text "{'type':'input_audio_buffer.append'}" in
  exists line,
    TwoWay.handle_browser_messages Json.loads the_browser the_ai
      (Message frame) idle
    = (Ret tt,
       did idle [Log INFO line;
                 Send the_ai (Dumps (JObj [("user_audio_chunk", JStr "")]))]).
Proof.
  intros frame.
  destruct (append_without_audio_forwards_empty_chunk Json.loads
              the_browser the_ai frame
              [("type", JStr "input_audio_buffer.append")]) as [_ Htwo].
  - vm_compute; reflexivity.
  - reflexivity.
  - reflexivity.
  - apply Htwo. vm_compute. set_solver.
Defined.

(** X3.  A frame that decodes to something other than an object (an
    array, a string, a number, [true], [null]): [.get] raises, the inner
    [except Exception] takes it, and the turn is one error line.  Nothing
    is sent, not even the verbatim copy of the two-way AI loop, and the
    loop goes on.  In every loop of both servers. *)
Theorem non_object_frame_logged_and_skipped :
  forall json_loads (websocket ai tts : handle) message v,
    json_loads message = Some v ->
    is_dict v = false ->
    (forall who (st : state Hybrid.upstreams) rest, exists line,
        Hybrid.iteration json_loads websocket ai tts who (Message message) st
        = (Ret tt, did st [Log ERROR line])
        /\ Hybrid.pump json_loads websocket ai tts
             (Arrive who (Message message) :: rest) st
           = Hybrid.pump json_loads websocket ai tts rest
               (did st [Log ERROR line]))
    /\ (forall who (st : state handle) rest, exists line,
        TwoWay.iteration json_loads websocket ai who (Message message) st
        = (Ret tt, did st [Log ERROR line])
        /\ TwoWay.pump json_loads websocket ai
             (Arrive who (Message message) :: rest) st
           = TwoWay.pump json_loads websocket ai rest
               (did st [Log ERROR line])).
Proof.
  intros json_loads websocket ai tts message v Hloads Hdict.
  split; intros who st rest.
  - assert (Hturn : exists line,
               Hybrid.iteration json_loads websocket ai tts who
                 (Message message) st
               = (Ret tt, did st [Log ERROR line])).
    { destruct who, v; try discriminate Hdict; eexists; simpl; turn;
        rewrite Hloads; reflexivity. }
    destruct Hturn as [line Hturn]. exists line. split; [done|].
    exact (gather_next _ _ _ _ rest _ _ Hturn).
  - assert (Hturn : exists line,
               TwoWay.iteration json_loads websocket ai who
                 (Message message) st
               = (Ret tt, did st [Log ERROR line])).
    { destruct who, v; try discriminate Hdict; eexists; simpl; turn;
        rewrite Hloads; reflexivity. }
    destruct Hturn as [line Hturn]. exists line. split; [done|].
    exact (gather_next _ _ _ _ rest _ _ Hturn).
Qed.

Lemma non_object_frame_witness :
  let frame := Json.text "['type', 'audio']" in
  exists line,
    TwoWay.iteration Json.loads the_browser the_ai TwoWay.ElevenLabs
      (Message frame) idle
    = (Ret tt, did idle [Log ERROR line]).
Proof.
  intros frame.
  destruct (non_object_frame_logged_and_skipped Json.loads
              the_browser the_ai the_tts frame
              (JArr [JStr "type"; JStr "audio"])) as [_ Htwo].
  - vm_compute; reflexivity.
  - reflexivity.
  - destruct (Htwo TwoWay.ElevenLabs idle []) as (line & Hturn & _).
    by exists line.
Defined.

(** X4.  In the three-way server, an [interruption] event and an
    [agent_response_correction] event give the client the same single event
    [{"type": "conversation.interrupted"}]; nothing goes to the TTS socket. *)
Theorem interruption_and_correction_relayed :
  forall json_loads (websocket ai tts : handle) message items
         (st : state Hybrid.upstreams),
    json_loads message = Some (JObj items) ->
    (assoc "type" items = Some (JStr "interruption")
     \/ assoc "type" items = Some (JStr "agent_response_correction")) ->
    websocket ∉ closed st ->
    exists line line',
      Hybrid.handle_elevenlabs_ai_messages json_loads websocket ai tts
        (Message message) st
      = (Ret tt,
         did st [Log INFO line;
                 Send websocket
                   (Dumps (JObj [("type", JStr "conversation.interrupted")]));
                 Log INFO line']).
Proof.
  intros json_loads websocket ai tts message items st Hloads [Htype|Htype] Hopen;
    eexists _, _; turn; rewrite Hloads; simpl; rewrite Htype; simpl;
    rewrite send_open by done; settle.
Qed.

Lemma interruption_witness :
  let frame := Json.text "{'type':'agent_response_correction'}" in
  exists line line',
    Hybrid.handle_elevenlabs_ai_messages Json.loads the_browser the_ai the_tts
      (Message frame) idle
    = (Ret tt,
       did idle [Log INFO line;
                 Send the_browser
                   (Dumps (JObj [("type", JStr "conversation.interrupted")]));
                 Log INFO line']).
Proof.
  intros frame.
  apply (interruption_and_correction_relayed Json.loads
           the_browser the_ai the_tts frame
           [("type", JStr "agent_response_correction")] idle).
  - vm_compute; reflexivity.
  - by right.
  - vm_compute. set_solver.
Defined.

(** X5.  In the three-way server, a [user_transcript] event and a [ping]
    event are only logged: the transcript is not passed to the client and
    the ping is not answered.  Whatever the state of the sockets. *)
Theorem transcript_and_ping_not_relayed :
  forall json_loads (websocket ai tts : handle) message items
         (st : state Hybrid.upstreams),
    json_loads message = Some (JObj items) ->
    (assoc "type" items = Some (JStr "user_transcript")
     \/ assoc "type" items = Some (JStr "ping")) ->
    exists acts,
      Hybrid.handle_elevenlabs_ai_messages json_loads websocket ai tts
        (Message message) st
      = (Ret tt, did st acts)
      /\ logs_only acts = true.
Proof.
  intros json_loads websocket ai tts message items st Hloads [Htype|Htype].
  - exists [Log INFO [Lit "Received AI event: "; Val (JStr "user_transcript")];
            Log INFO [Lit "User transcript received"]].
    split; [|done]. turn. rewrite Hloads; simpl. rewrite Htype; simpl. settle.
  - exists [Log INFO [Lit "Received AI event: "; Val (JStr "ping")]].
    split; [|done]. turn. rewrite Hloads; simpl. rewrite Htype; simpl. settle.
Qed.

Lemma transcript_and_ping_witness :
  let frame := Json.text "{'type':'ping','ping_event':{'event_id':7}}" in
  exists acts,
    Hybrid.handle_elevenlabs_ai_messages Json.loads the_browser the_ai the_tts
      (Message frame) idle
    = (Ret tt, did idle acts)
    /\ logs_only acts = true.
Proof.
  intros frame.
  apply (transcript_and_ping_not_relayed Json.loads
           the_browser the_ai the_tts frame
           [("type", JStr "ping"); ("ping_event", JObj [("event_id", JInt 7)])]
           idle).
  - vm_compute; reflexivity.
  - by right.
Defined.

(** X6.  In the three-way server, an [agent_response] event without an
    [agent_response_event] member, or whose [agent_response_event] has no
    [agent_response] member, is treated as an empty text: nothing is sent.
    When [agent_response_event] is present and not an object, the turn ends
    in one error line; nothing is sent either. *)
Theorem agent_response_without_text_skipped :
  forall json_loads (websocket ai tts : handle) message items
         (st : state Hybrid.upstreams),
    json_loads message = Some (JObj items) ->
    assoc "type" items = Some (JStr "agent_response") ->
    (assoc "agent_response_event" items = None ->
     exists line,
       Hybrid.handle_elevenlabs_ai_messages json_loads websocket ai tts
         (Message message) st
       = (Ret tt, did st [Log INFO line]))
    /\ (forall inner,
        assoc "agent_response_event" items = Some (JObj inner) ->
        assoc "agent_response" inner = None ->
        exists line,
          Hybrid.handle_elevenlabs_ai_messages json_loads websocket ai tts
            (Message message) st
          = (Ret tt, did st [Log INFO line]))
    /\ (forall v,
        assoc "agent_response_event" items = Some v ->
        is_dict v = false ->
        exists line,
          Hybrid.handle_elevenlabs_ai_messages json_loads websocket ai tts
            (Message message) st
          = (Ret tt, did st [Log INFO line;
                             Log ERROR [Lit "Error processing ElevenLabs AI message: ";
                                        Exc AttributeError]])).
Proof.
  intros json_loads websocket ai tts message items st Hloads Htype.
  split; [|split].
  - intros Hevent. eexists. turn.
    rewrite Hloads; simpl. rewrite Htype; simpl. rewrite Hevent. settle.
  - intros inner Hevent Htext. eexists. turn.
    rewrite Hloads; simpl. rewrite Htype; simpl. rewrite Hevent; simpl.
    rewrite Htext. settle.
  - intros v Hevent Hdict. eexists. turn.
    rewrite Hloads; simpl. rewrite Htype; simpl. rewrite Hevent.
    destruct v; try discriminate Hdict; settle.
Qed.

Lemma agent_response_without_text_witness :
  let frame := Json.text "{'type':'agent_response','agent_response_event':null}" in
  exists line,
    Hybrid.handle_elevenlabs_ai_messages Json.loads the_browser the_ai the_tts
      (Message frame) idle
    = (Ret tt, did idle [Log INFO line;
                         Log ERROR [Lit "Error processing ElevenLabs AI message: ";
                                    Exc AttributeError]]).
Proof.
  intros frame.
  destruct (agent_response_without_text_skipped Json.loads
              the_browser the_ai the_tts frame
              [("type", JStr "agent_response"); ("agent_response_event", JNull)]
              idle) as (_ & _ & Hbad).
  - vm_compute; reflexivity.
  - reflexivity.
  - by apply (Hbad JNull).
Defined.

(** X7.  In the three-way server the text goes to the TTS socket first.
    When that socket is closed the send raises, the inner [except Exception]
    takes it, and the client does not get the [response.text.delta] either:
    the turn sends nothing, logs the error and the loop goes on. *)
Theorem agent_response_lost_when_tts_closed :
  forall json_loads (websocket ai tts : handle) message items inner T
         (st : state Hybrid.upstreams),
    json_loads message = Some (JObj items) ->
    assoc "type" items = Some (JStr "agent_response") ->
    assoc "agent_response_event" items = Some (JObj inner) ->
    assoc "agent_response" inner = Some T ->
    truthy T = true ->
    tts ∈ closed st ->
    exists acts,
      Hybrid.handle_elevenlabs_ai_messages json_loads websocket ai tts
        (Message message) st
      = (Ret tt, did st acts)
      /\ logs_only acts = true.
Proof.
  intros json_loads websocket ai tts message items inner T st
    Hloads Htype Hevent Htext Htrue Hshut.
  exists [Log INFO [Lit "Received AI event: "; Val (JStr "agent_response")];
          Log INFO [Lit "Converting to speech: "; Val T];
          Log ERROR [Lit "Error processing ElevenLabs AI message: ";
                     Exc (ConnectionClosed 1006 "")]].
  split; [|done]. turn.
  rewrite Hloads; simpl. rewrite Htype; simpl. rewrite Hevent; cbn -[truthy].
  rewrite Htext, Htrue. simpl. rewrite send_closed by done. settle.
Qed.

Lemma agent_response_lost_witness :
  let frame :=
    Json.text "{'type':'agent_response','agent_response_event':{'agent_response':'hello'}}" in
  exists acts,
    Hybrid.handle_elevenlabs_ai_messages Json.loads the_browser the_ai the_tts
      (Message frame) (gone idle the_tts)
    = (Ret tt, did (gone idle the_tts) acts)
    /\ logs_only acts = true.
Proof.
  intros frame.
  apply (agent_response_lost_when_tts_closed Json.loads
           the_browser the_ai the_tts frame
           [("type", JStr "agent_response");
            ("agent_response_event", JObj [("agent_response", JStr "hello")])]
           [("agent_response", JStr "hello")] (JStr "hello")
           (gone idle the_tts));
    reflexivity.
Defined.

(** X8.  In the three-way server, a TTS message with neither an [audio]
    that counts as true nor an [isFinal] that counts as true (an alignment
    message, an error report, [{"isFinal": false}]) is dropped without a
    trace: nothing is sent and nothing is logged. *)
Theorem tts_message_without_audio_or_final_ignored :
  forall json_loads (websocket tts : handle) message items
         (st : state Hybrid.upstreams),
    json_loads message = Some (JObj items) ->
    truthy (member "audio" items) = false ->
    truthy (member "isFinal" items) = false ->
    Hybrid.handle_elevenlabs_tts_messages json_loads websocket tts
      (Message message) st
    = (Ret tt, st).
Proof.
  intros json_loads websocket tts message items st Hloads Haudio Hfinal.
  by apply hybrid_tts_silent with (items := items).
Qed.

Lemma tts_message_ignored_witness :
  let frame := Json.text "{'error':'quota_exceeded','isFinal':false}" in
  Hybrid.handle_elevenlabs_tts_messages Json.loads the_browser the_tts
    (Message frame) idle
  = (Ret tt, idle).
Proof.
  intros frame.
  apply (tts_message_without_audio_or_final_ignored Json.loads
           the_browser the_tts frame
           [("error", JStr "quota_exceeded"); ("isFinal", JBool false)] idle);
    vm_compute; reflexivity.
Defined.

(** ** The AI loop of the two-way relay *)

(** X9.  In the two-way server an [audio] event reaches the client
    twice: first as a [response.audio.delta] event whose [delta] is the
    [audio_base_64] member of the nested [audio_event] (the empty string
    when it is missing), then as the received frame itself. *)
Theorem two_way_audio_translated_then_forwarded :
  forall json_loads (websocket up : handle) message items inner
         (st : state handle),
    json_loads message = Some (JObj items) ->
    assoc "type" items = Some (JStr "audio") ->
    assoc "audio_event" items = Some (JObj inner) ->
    websocket ∉ closed st ->
    exists line,
      TwoWay.handle_elevenlabs_messages json_loads websocket up
        (Message message) st
      = (Ret tt,
         did st [Send websocket
                   (Dumps (JObj [("type", JStr "response.audio.delta");
                                 ("response_id", JStr "elevenlabs_response");
                                 ("item_id", JStr "elevenlabs_audio");
                                 ("output_index", JInt 0);
                                 ("content_index", JInt 0);
                                 ("delta",
                                  default (JStr "") (assoc "audio_base_64" inner))]));
                 Log INFO line;
                 Send websocket (Raw message)]).
Proof.
  intros json_loads websocket up message items inner st
    Hloads Htype Hevent Hopen.
  eexists. turn. rewrite Hloads; simpl. rewrite Htype; simpl.
  rewrite Hevent; simpl. rewrite send_open by done. simpl.
  rewrite send_open by done.
  destruct (assoc "audio_base_64" inner); settle.
Qed.

Lemma two_way_audio_witness :
  let frame := Json.text "{'type':'audio','audio_event':{'audio_base_64':'Zm9v'}}" in
  exists line delta_event,
    TwoWay.handle_elevenlabs_messages Json.loads the_browser the_ai
      (Message frame) idle
    = (Ret tt,
       did idle [Send the_browser (Dumps (JObj delta_event));
                 Log INFO line;
                 Send the_browser (Raw frame)])
    /\ assoc "delta" delta_event = Some (JStr "Zm9v").
Proof.
  intros frame.
  destruct (two_way_audio_translated_then_forwarded Json.loads
              the_browser the_ai frame
              [("type", JStr "audio");
               ("audio_event", JObj [("audio_base_64", JStr "Zm9v")])]
              [("audio_base_64", JStr "Zm9v")] idle) as [line Hturn].
  - vm_compute; reflexivity.
  - reflexivity.
  - reflexivity.
  - vm_compute. set_solver.
  - eexists line, _. split; [exact Hturn|reflexivity].
Defined.

(** X10.  In the two-way server a [message] event is translated only
    when the [role] of its [message] member is ["assistant"]: the client
    then gets a [response.text.delta] event whose [delta] is the [content],
    followed by the received frame.  For any other role, or none, the client
    gets the received frame alone. *)
Theorem two_way_message_translated_for_assistant_only :
  forall json_loads (websocket up : handle) message items inner
         (st : state handle),
    json_loads message = Some (JObj items) ->
    assoc "type" items = Some (JStr "message") ->
    assoc "message" items = Some (JObj inner) ->
    websocket ∉ closed st ->
    (eq_str (member "role" inner) "assistant" = true ->
     exists line,
       TwoWay.handle_elevenlabs_messages json_loads websocket up
         (Message message) st
       = (Ret tt,
          did st [Send websocket
                    (Dumps (JObj [("type", JStr "response.text.delta");
                                  ("response_id", JStr "elevenlabs_response");
                                  ("item_id", JStr "elevenlabs_text");
                                  ("output_index", JInt 0);
                                  ("content_index", JInt 0);
                                  ("delta",
                                   default (JStr "") (assoc "content" inner))]));
                  Log INFO line;
                  Send websocket (Raw message)]))
    /\ (eq_str (member "role" inner) "assistant" = false ->
        TwoWay.handle_elevenlabs_messages json_loads websocket up
          (Message message) st
        = (Ret tt, did st [Send websocket (Raw message)])).
Proof.
  intros json_loads websocket up message items inner st
    Hloads Htype Hevent Hopen.
  split; intros Hrole; [eexists|]; turn; rewrite Hloads; simpl;
    rewrite Htype; simpl; rewrite Hevent; simpl;
    fold (member "role" inner); rewrite Hrole; simpl.
  - rewrite send_open by done. simpl. rewrite send_open by done.
    destruct (assoc "content" inner); settle.
  - rewrite send_open by done. reflexivity.
Qed.

Lemma two_way_message_witness :
  let frame := Json.text "{'type':'message','message':{'role':'user','content':'hi'}}" in
  TwoWay.handle_elevenlabs_messages Json.loads the_browser the_ai
    (Message frame) idle
  = (Ret tt, did idle [Send the_browser (Raw frame)]).
Proof.
  intros frame.
  destruct (two_way_message_translated_for_assistant_only Json.loads
              the_browser the_ai frame
              [("type", JStr "message");
               ("message", JObj [("role", JStr "user"); ("content", JStr "hi")])]
              [("role", JStr "user"); ("content", JStr "hi")] idle)
    as [_ Hother].
  - vm_compute; reflexivity.
  - reflexivity.
  - reflexivity.
  - vm_compute. set_solver.
  - by apply Hother.
Defined.

(** X11.  In the two-way server an [interruption] event gives the client
    [{"type": "conversation.interrupted"}] followed by the received frame;
    an [agent_response_correction] event, which the three-way server treats
    as an interruption, is not translated here: the client gets the received
    frame alone. *)
Theorem two_way_interruption_translated_then_forwarded :
  forall json_loads (websocket up : handle) message items (st : state handle),
    json_loads message = Some (JObj items) ->
    websocket ∉ closed st ->
    (assoc "type" items = Some (JStr "interruption") ->
     exists line,
       TwoWay.handle_elevenlabs_messages json_loads websocket up
         (Message message) st
       = (Ret tt,
          did st [Send websocket
                    (Dumps (JObj [("type", JStr "conversation.interrupted")]));
                  Log INFO line;
                  Send websocket (Raw message)]))
    /\ (assoc "type" items = Some (JStr "agent_response_correction") ->
        exists line,
          TwoWay.handle_elevenlabs_messages json_loads websocket up
            (Message message) st
          = (Ret tt, did st [Log INFO line; Send websocket (Raw message)])).
Proof.
  intros json_loads websocket up message items st Hloads Hopen.
  split; intros Htype; eexists; turn; rewrite Hloads; simpl;
    rewrite Htype; simpl.
  - rewrite send_open by done. simpl. rewrite send_open by done. settle.
  - rewrite send_open by done. settle.
Qed.

Lemma two_way_interruption_witness :
  let frame := Json.text "{'type':'interruption'}" in
  exists line,
    TwoWay.handle_elevenlabs_messages Json.loads the_browser the_ai
      (Message frame) idle
    = (Ret tt,
       did idle [Send the_browser
                   (Dumps (JObj [("type", JStr "conversation.interrupted")]));
                 Log INFO line;
                 Send the_browser (Raw frame)]).
Proof.
  intros frame.
  destruct (two_way_interruption_translated_then_forwarded Json.loads
              the_browser the_ai frame [("type", JStr "interruption")] idle)
    as [Hint _].
  - vm_compute; reflexivity.
  - vm_compute. set_solver.
  - by apply Hint.
Defined.

(** ** Where the loops write *)

Section Keeping.
Context {entry : Type}.
Local Abbreviation M := (M entry).
Variable ok : action -> bool.

Lemma keeps_ret {A} (a : A) : keeps ok (ret a : M A).
Proof. intros st. exists (Ret a), []. by rewrite did_nil. Qed.

Lemma keeps_raise {A} (e : exn) : keeps ok (raise e : M A).
Proof. intros st. exists (Raise e), []. by rewrite did_nil. Qed.

Lemma keeps_log lvl line :
  ok (Log lvl line) = true -> keeps ok (log lvl line : M unit).
Proof. intros Hok st. exists (Ret tt), [Log lvl line]. simpl. by rewrite Hok. Qed.

Lemma keeps_send h p :
  ok (Send h p) = true -> keeps ok (send h p : M unit).
Proof.
  intros Hok st. destruct (decide (h ∈ closed st)) as [Hshut|Hopen].
  - exists (Raise (ConnectionClosed 1006 "")), [].
    by rewrite send_closed, did_nil.
  - exists (Ret tt), [Send h p]. rewrite send_open by done. simpl.
    by rewrite Hok.
Qed.

Lemma keeps_py_get d k default : keeps ok (py_get d k default : M json).
Proof. destruct d; simpl; auto using @keeps_ret, @keeps_raise. Qed.

Lemma keeps_py_item d k : keeps ok (py_item d k : M json).
Proof.
  destruct d; simpl; auto using @keeps_raise.
  destruct (assoc k items); auto using @keeps_ret, @keeps_raise.
Qed.

Lemma keeps_bind {A B} (m : M A) (k : A -> M B) :
  keeps ok m -> (forall a, keeps ok (k a)) -> keeps ok (bind m k).
Proof.
  intros Hm Hk st. destruct (Hm st) as (r & acts & Hrun & Hends & Hacts).
  unfold bind. rewrite Hrun. destruct r as [a|e|]; [|by eauto|done].
  destruct (Hk a (did st acts)) as (r' & acts' & Hrun' & Hends' & Hacts').
  exists r', (acts ++ acts'). rewrite Hrun', did_did, forallb_app, Hacts, Hacts'.
  done.
Qed.

Lemma keeps_try_except {A} (body : M A) (handler : exn -> option (M A)) :
  keeps ok body ->
  (forall e h, handler e = Some h -> keeps ok h) ->
  keeps ok (try_except body handler).
Proof.
  intros Hbody Hhandler st.
  destruct (Hbody st) as (r & acts & Hrun & Hends & Hacts).
  unfold try_except. rewrite Hrun. destruct r as [a|e|]; [by eauto| |done].
  destruct (handler e) as [h|] eqn:Hh; [|by eauto].
  destruct (Hhandler e h Hh (did st acts)) as (r' & acts' & Hrun' & Hends' & Hacts').
  exists r', (acts ++ acts'). rewrite Hrun', did_did, forallb_app, Hacts, Hacts'.
  done.
Qed.

(** What a computation that returns did is what [keeps] says it did. *)
Lemma keeps_returns {A} (m : M A) st :
  keeps ok m -> returns m ->
  exists a acts, m st = (Ret a, did st acts) /\ forallb ok acts = true.
Proof.
  intros Hkeeps Hreturns.
  destruct (Hkeeps st) as (r & acts & Hrun & _ & Hacts).
  destruct (Hreturns st) as (a & acts' & Hrun' & _).
  rewrite Hrun in Hrun'. injection Hrun' as -> Htrace.
  apply app_inv_head in Htrace as ->. by exists a, acts'.
Qed.

End Keeping.

(** Decomposes a goal [keeps ok m] along the statements of [m]. *)
Ltac keeping :=
  repeat first
    [ progress intros
    | match goal with
      | |- keeps _ (bind _ _) => apply keeps_bind
      | |- keeps _ (try_except _ _) => apply keeps_try_except
      | |- keeps _ (ret _) => apply keeps_ret
      | |- keeps _ (raise _) => apply keeps_raise
      | |- keeps _ (py_get _ _ _) => apply keeps_py_get
      | |- keeps _ (py_item _ _) => apply keeps_py_item
      | |- keeps _ (recv _ (Message _)) => apply keeps_ret
      | |- keeps _ (log _ _) => apply keeps_log; reflexivity
      | |- keeps _ (send _ _) =>
          apply keeps_send; simpl; rewrite ?Nat.eqb_refl, ?orb_true_r; reflexivity
      | H : Some _ = Some _ |- _ => injection H as <-
      | H : Hybrid.on_connection_closed _ ?e = Some _ |- _ =>
          destruct e; simpl in H; try discriminate H
      | H : TwoWay.on_connection_closed _ ?e = Some _ |- _ =>
          destruct e; simpl in H; try discriminate H
      | |- keeps _ (if ?b then _ else _) => destruct b
      | |- keeps _ (match ?o with Some _ => _ | None => _ end) => destruct o
      | |- keeps _ (match ?e with ConnectionClosed _ _ => _ | _ => _ end) => destruct e
      end ].

Lemma hybrid_iteration_keeps json_loads websocket ai tts who message :
  keeps (writes_within (hybrid_targets websocket ai tts who))
    (Hybrid.iteration json_loads websocket ai tts who (Message message)).
Proof.
  destruct who; simpl;
    [unfold Hybrid.handle_browser_messages
    |unfold Hybrid.handle_elevenlabs_ai_messages
    |unfold Hybrid.handle_elevenlabs_tts_messages];
    unfold Hybrid.loads; keeping.
Qed.

Lemma two_way_iteration_keeps json_loads websocket up who message :
  keeps (writes_within (two_way_targets websocket up who))
    (TwoWay.iteration json_loads websocket up who (Message message)).
Proof.
  destruct who; simpl;
    [unfold TwoWay.handle_browser_messages
    |unfold TwoWay.handle_elevenlabs_messages];
    unfold TwoWay.loads; keeping.
Qed.

(** X12.  Whatever the frame and whatever the state of the sockets, a
    turn of a loop returns, and besides logging it only sends, and only to
    its own targets: the downstream loop to the client and the AI socket,
    the AI loop of the three-way server to the TTS socket and the client,
    its TTS loop and the AI loop of the two-way server to the client alone.
    No loop closes a socket, touches the registry or opens a connection,
    and no loop writes back to the socket it reads from, the downstream
    loop's acknowledgement apart. *)
Theorem loops_write_to_their_targets_only :
  forall json_loads (websocket ai tts : handle) message,
    (forall who (st : state Hybrid.upstreams),
        exists acts,
          Hybrid.iteration json_loads websocket ai tts who (Message message) st
          = (Ret tt, did st acts)
          /\ forallb (writes_within (hybrid_targets websocket ai tts who)) acts
             = true)
    /\ (forall who (st : state handle),
        exists acts,
          TwoWay.iteration json_loads websocket ai who (Message message) st
          = (Ret tt, did st acts)
          /\ forallb (writes_within (two_way_targets websocket ai who)) acts
             = true).
Proof.
  intros json_loads websocket ai tts message. split; intros who st.
  - destruct (keeps_returns _ _ st
                (hybrid_iteration_keeps json_loads websocket ai tts who message)
                (hybrid_message_returns json_loads websocket ai tts who message))
      as ([] & acts & Hrun & Hacts).
    by exists acts.
  - destruct (keeps_returns _ _ st
                (two_way_iteration_keeps json_loads websocket ai who message)
                (two_way_message_returns json_loads websocket ai who message))
      as ([] & acts & Hrun & Hacts).
    by exists acts.
Qed.

(** ** How the loops end *)

Section Ending.
Context {entry loop : Type}.
Variable iteration : loop -> arrival -> M entry unit.
Variable sock : loop -> handle.
Hypothesis message_returns : forall who m, returns (iteration who (Message m)).
Hypothesis gone_raises : forall who code reason st, exists line,
  iteration who (Gone code reason) st
  = (Raise (ConnectionClosed code reason), did (gone st (sock who)) [Log INFO line]).

(** [gather] never returns.  It raises when the first [recv] raises, with
    that [ConnectionClosed]; otherwise the loops stay in their [recv].
    Meanwhile they talk, sockets may go away, and the registry is left
    alone. *)
Lemma gather_ends sched st :
  exists st',
    gather iteration sock sched st
    = (match first_failure sched with
       | Some (code, reason) => Raise (ConnectionClosed code reason)
       | None => Suspended
       end, st')
    /\ connections st' = connections st
    /\ closed st ⊆ closed st'
    /\ exists acts, trace st' = trace st ++ acts /\ forallb talk acts = true.
Proof.
  revert st. induction sched as [|[who [m|code reason]|who] rest IH]; intros st.
  - exists st. repeat split; [done|]. exists []. by rewrite app_nil_r.
  - destruct (message_returns who m st) as ([] & acts & Hrun & Hacts).
    destruct (IH (did st acts)) as (st' & Hg & Hconn & Hclosed & acts' & Htr & Hacts').
    exists st'. simpl. unfold bind. rewrite Hrun. repeat split; [done..|].
    exists (acts ++ acts').
    by rewrite Htr, trace_did, app_assoc, forallb_app, Hacts, Hacts'.
  - destruct (gone_raises who code reason st) as [line Hrun].
    exists (did (gone st (sock who)) [Log INFO line]). simpl. unfold bind.
    rewrite Hrun. repeat split; [simpl; set_solver|]. by exists [Log INFO line].
  - destruct (IH (gone st (sock who))) as (st' & Hg & Hconn & Hclosed & Hrest).
    exists st'. repeat split; [done..| |done].
    simpl in Hclosed. clear -Hclosed. set_solver.
Qed.

End Ending.

(** X13.  The loops of a session never return and no frame ends them:
    they raise exactly when the [recv] of one of them raises, with that
    first [ConnectionClosed] and its code and reason, and stay suspended as
    long as none does.  Until then they only send and log, and the registry
    is as it was.  In both servers. *)
Theorem pump_ends_with_the_first_closed_connection :
  forall json_loads (websocket ai tts : handle),
    (forall sched (st : state Hybrid.upstreams),
        exists st' acts,
          Hybrid.pump json_loads websocket ai tts sched st
          = (match first_failure sched with
             | Some (code, reason) => Raise (ConnectionClosed code reason)
             | None => Suspended
             end, st')
          /\ connections st' = connections st
          /\ trace st' = trace st ++ acts
          /\ forallb talk acts = true)
    /\ (forall sched (st : state handle),
        exists st' acts,
          TwoWay.pump json_loads websocket ai sched st
          = (match first_failure sched with
             | Some (code, reason) => Raise (ConnectionClosed code reason)
             | None => Suspended
             end, st')
          /\ connections st' = connections st
          /\ trace st' = trace st ++ acts
          /\ forallb talk acts = true).
Proof.
  intros json_loads websocket ai tts. split; intros sched st.
  - destruct (gather_ends _ (Hybrid.sock websocket ai tts)
                (hybrid_message_returns json_loads websocket ai tts)
                (hybrid_gone_raises json_loads websocket ai tts) sched st)
      as (st' & Hrun & Hconn & _ & acts & Htrace & Hacts).
    by exists st', acts.
  - destruct (gather_ends _ (TwoWay.sock websocket ai)
                (two_way_message_returns json_loads websocket ai)
                (two_way_gone_raises json_loads websocket ai) sched st)
      as (st' & Hrun & Hconn & _ & acts & Htrace & Hacts).
    by exists st', acts.
Qed.

(** ** How a connection handler ends *)

Section Closing.
Context {entry : Type}.
Implicit Types (st : state entry) (h : handle).

Lemma close_after h code why st :
  oversized why = false ->
  close h code why st = (Ret tt, after_close h code why st).
Proof.
  intros Hfits.
  unfold close, after_close. destruct (decide (h ∈ closed st)) as [Hin|Hout].
  - rewrite !bool_decide_eq_true_2 by done. destruct st as [shut reg tr].
    simpl in *. rewrite app_nil_r. do 2 f_equal. set_solver.
  - by rewrite !bool_decide_eq_false_2, Hfits.
Qed.

Lemma close_if_open h code why st :
  oversized why = false ->
  bind (is_closed h) (fun c => if negb c then close h code why else ret tt) st
  = (Ret tt, after_close h code why st).
Proof.
  intros Hfits.
  unfold bind, is_closed. destruct (decide (h ∈ closed st)) as [Hin|Hout].
  - rewrite bool_decide_eq_true_2 by done. simpl. unfold ret, after_close.
    rewrite bool_decide_eq_true_2 by done. destruct st as [shut reg tr].
    simpl in *. rewrite app_nil_r. do 2 f_equal. set_solver.
  - rewrite bool_decide_eq_false_2 by done. simpl. by apply close_after.
Qed.

(** A guarded close whose reason does not fit: it raises on an open
    socket, and changes nothing. *)
Lemma close_if_open_oversized h code why st :
  h ∉ closed st ->
  oversized why = true ->
  bind (is_closed h) (fun c => if negb c then close h code why else ret tt) st
  = (Raise ProtocolError, st).
Proof.
  intros Hout Hlong. unfold bind, is_closed, close.
  rewrite bool_decide_eq_false_2 by done. simpl.
  by rewrite bool_decide_eq_false_2, Hlong.
Qed.

Lemma close_if_open_then {B} h code why (k : M entry B) st :
  oversized why = false ->
  bind (is_closed h)
       (fun c => bind (if negb c then close h code why else ret tt)
                      (fun _ => k)) st
  = k (after_close h code why st).
Proof.
  intros Hfits.
  pose proof (close_if_open h code why st Hfits) as Hclose.
  unfold bind, is_closed in *.
  destruct (bool_decide (h ∈ closed st)); simpl in *.
  - unfold ret in *. by injection Hclose as <-.
  - by rewrite Hclose.
Qed.

Lemma after_close_closed h code why st : h ∈ closed (after_close h code why st).
Proof. simpl. set_solver. Qed.

End Closing.

(** Runs a guarded close that is followed by more statements. *)
Ltac close_then :=
  match goal with
  | |- context [bind (is_closed ?h) ?f ?st] =>
      lazymatch f with
      | (fun c => bind (if negb c then close _ ?code ?why else ret tt)
                       (fun _ => ?k)) =>
          rewrite (close_if_open_then h code why k st) by reflexivity
      end
  end.

Lemma hybrid_on_error_after websocket e (st : state Hybrid.upstreams) :
  oversized (StrOf e) = false ->
  Hybrid.on_error websocket e st
  = (Ret tt,
     after_close websocket 1011 (StrOf e)
       (did st [Log ERROR [Lit "Error handling connection: "; Exc e]])).
Proof.
  intros Hfits.
  unfold Hybrid.on_error. unfold bind at 1. rewrite log_did. cbv beta iota.
  by apply close_if_open.
Qed.

Lemma two_way_on_error_after websocket e (st : state handle) :
  oversized (StrOf e) = false ->
  TwoWay.on_error websocket e st
  = (Ret tt,
     after_close websocket 1011 (StrOf e)
       (did st [Log ERROR [Lit "Error handling connection: "; Exc e]])).
Proof.
  intros Hfits.
  unfold TwoWay.on_error. unfold bind at 1. rewrite log_did. cbv beta iota.
  by apply close_if_open.
Qed.

(** The [except Exception as e] clause on a socket that is closed
    already: one log line. *)
Lemma hybrid_on_error_closed websocket e (st : state Hybrid.upstreams) :
  websocket ∈ closed st ->
  Hybrid.on_error websocket e st
  = (Ret tt, did st [Log ERROR [Lit "Error handling connection: "; Exc e]]).
Proof.
  intros Hshut.
  unfold Hybrid.on_error. unfold bind at 1. rewrite log_did. cbv beta iota.
  unfold bind. by rewrite is_closed_in.
Qed.

Lemma two_way_on_error_closed websocket e (st : state handle) :
  websocket ∈ closed st ->
  TwoWay.on_error websocket e st
  = (Ret tt, did st [Log ERROR [Lit "Error handling connection: "; Exc e]]).
Proof.
  intros Hshut.
  unfold TwoWay.on_error. unfold bind at 1. rewrite log_did. cbv beta iota.
  unfold bind. by rewrite is_closed_in.
Qed.

(** The same clause on an open socket and a message that does not fit the
    close frame: the log line, then [ProtocolError]. *)
Lemma hybrid_on_error_oversized websocket e (st : state Hybrid.upstreams) :
  websocket ∉ closed st ->
  oversized (StrOf e) = true ->
  Hybrid.on_error websocket e st
  = (Raise ProtocolError,
     did st [Log ERROR [Lit "Error handling connection: "; Exc e]]).
Proof.
  intros Hopen Hlong.
  unfold Hybrid.on_error. unfold bind at 1. rewrite log_did. cbv beta iota.
  by apply close_if_open_oversized.
Qed.

Lemma two_way_on_error_oversized websocket e (st : state handle) :
  websocket ∉ closed st ->
  oversized (StrOf e) = true ->
  TwoWay.on_error websocket e st
  = (Raise ProtocolError,
     did st [Log ERROR [Lit "Error handling connection: "; Exc e]]).
Proof.
  intros Hopen Hlong.
  unfold TwoWay.on_error. unfold bind at 1. rewrite log_did. cbv beta iota.
  by apply close_if_open_oversized.
Qed.

(** The [finally] block when the session was never registered: only the
    browser socket is seen to. *)
Lemma hybrid_cleanup_unregistered websocket (st : state Hybrid.upstreams) :
  connections st !! websocket = None ->
  Hybrid.cleanup websocket st
  = (Ret tt, after_close websocket 1000 (Reason "Normal closure") st).
Proof.
  intros Hnew. unfold Hybrid.cleanup. unfold bind at 1.
  rewrite registered_out by done. cbv beta iota.
  unfold bind at 1. unfold ret at 1. cbv beta iota. by apply close_if_open.
Qed.

Lemma two_way_cleanup_unregistered websocket up (st : state handle) :
  connections st !! websocket = None ->
  TwoWay.cleanup websocket up st
  = (Ret tt, after_close websocket 1000 (Reason "Normal closure") st).
Proof.
  intros Hnew. unfold TwoWay.cleanup. unfold bind at 1.
  rewrite registered_out by done. cbv beta iota.
  unfold bind at 1. unfold ret at 1. cbv beta iota. by apply close_if_open.
Qed.

(** The [finally] block on a registered session, whatever is still open. *)
Lemma hybrid_cleanup_registered websocket ai tts (st : state Hybrid.upstreams) :
  connections st !! websocket = Some (Hybrid.mkUpstreams ai tts) ->
  exists st' acts,
    Hybrid.cleanup websocket st = (Ret tt, st')
    /\ closed st' = {[websocket]} ∪ ({[tts]} ∪ ({[ai]} ∪ closed st))
    /\ connections st' = delete websocket (connections st)
    /\ trace st' = trace st ++ acts.
Proof.
  intros Hentry. unfold Hybrid.cleanup. unfold bind at 1.
  erewrite registered_in by done. cbv beta iota.
  unfold bind at 1 2. erewrite registry_get_in by done. cbv beta iota.
  cbn [Hybrid.ai Hybrid.tts].
  do 2 close_then.
  erewrite unregister_in by (simpl; eassumption).
  rewrite close_if_open by reflexivity.
  eexists _, _. split; [reflexivity|]. simpl. repeat split.
  rewrite <- !app_assoc. reflexivity.
Qed.

Lemma two_way_cleanup_registered websocket up (st : state handle) :
  connections st !! websocket = Some up ->
  exists st' acts,
    TwoWay.cleanup websocket (Some up) st = (Ret tt, st')
    /\ closed st' = {[websocket]} ∪ ({[up]} ∪ closed st)
    /\ connections st' = delete websocket (connections st)
    /\ trace st' = trace st ++ acts.
Proof.
  intros Hentry. unfold TwoWay.cleanup. unfold bind at 1.
  erewrite registered_in by done. cbv beta iota.
  unfold bind at 1 2. rewrite close_if_open by reflexivity. cbv beta iota.
  erewrite unregister_in by (simpl; eassumption).
  rewrite close_if_open by reflexivity.
  eexists _, _. split; [reflexivity|]. simpl. repeat split.
  rewrite <- !app_assoc. reflexivity.
Qed.

(** The outer [try] of the three-way handler ends in one of two ways.
    Either a connection attempt was refused: it raises what the attempt
    raised, and the session is not registered.  Or both were accepted and
    the session is registered: then it raises (the client was gone before
    the handshake event), returns (the [recv] of a loop raised), or stays in
    its loops (none did). *)
Lemma hybrid_session_ends
    json_loads key agent voice websocket ai_conn tts_conn sched
    (st : state Hybrid.upstreams) :
  exists r st1 acts,
    Hybrid.session json_loads key agent voice websocket ai_conn tts_conn sched st
    = (r, st1)
    /\ trace st1 = trace st ++ acts
    /\ ((exists e,
           r = Raise e
           /\ connections st1 = connections st
           /\ (ai_conn = Refused e
               \/ exists ai, ai_conn = Connected ai /\ tts_conn = Refused e))
        \/ (exists ai tts,
              ai_conn = Connected ai /\ tts_conn = Connected tts
              /\ connections st1
                 = <[websocket := Hybrid.mkUpstreams ai tts]> (connections st)
              /\ ((exists e, r = Raise e /\ websocket ∈ closed st1)
                  \/ r = Ret tt
                  \/ (r = Suspended /\ first_failure sched = None)))).
Proof.
  unfold Hybrid.session. destruct ai_conn as [ai|e].
  2:{ unfold bind at 1. rewrite hybrid_ai_refused.
      eexists _, _, _. split; [reflexivity|]. split; [reflexivity|].
      left. exists e. eauto 6. }
  unfold bind at 1. rewrite hybrid_ai_connected. cbv beta iota.
  destruct tts_conn as [tts|e].
  2:{ unfold bind at 1. rewrite hybrid_tts_refused.
      eexists _, _, _. split; [reflexivity|]. split.
      - unfold did. cbn [trace]. rewrite <- app_assoc. reflexivity.
      - left. exists e. eauto 8. }
  unfold bind at 1. rewrite hybrid_tts_connected. cbv beta iota.
  unfold bind at 1, register at 1. cbn [closed connections trace].
  unfold bind at 1. rewrite log_did. cbv beta iota.
  match goal with |- context [bind (send websocket _) _ ?s] =>
    destruct (decide (websocket ∈ closed s)) as [Hshut|Hopen] end.
  - unfold bind at 1. rewrite send_closed by done.
    eexists _, _, _. split; [reflexivity|]. split.
    + unfold did. cbn [trace]. rewrite <- !app_assoc. reflexivity.
    + right. exists ai, tts. eauto 8.
  - unfold bind at 1. rewrite send_open by done. cbv beta iota.
    unfold bind at 1. rewrite log_did. cbv beta iota.
    rewrite !did_did.
    match goal with |- context [try_except _ _ ?s] =>
      destruct (gather_ends _ (Hybrid.sock websocket ai tts)
                  (hybrid_message_returns json_loads websocket ai tts)
                  (hybrid_gone_raises json_loads websocket ai tts) sched s)
        as (st' & Hrun & Hconn & _ & acts & Htrace & _)
    end.
    unfold try_except, Hybrid.pump. rewrite Hrun.
    destruct (first_failure sched) as [[code reason]|].
    + rewrite log_did.
      eexists _, _, _. split; [reflexivity|]. split.
      * rewrite trace_did, Htrace. unfold did. cbn [trace].
        rewrite <- !app_assoc. reflexivity.
      * right. exists ai, tts. rewrite connections_did, Hconn. eauto 8.
    + eexists _, _, _. split; [reflexivity|]. split.
      * rewrite Htrace. unfold did. cbn [trace].
        rewrite <- !app_assoc. reflexivity.
      * right. exists ai, tts. rewrite Hconn. eauto 8.
Qed.

(** The three-way handler, whatever the path, the answers of the two
    endpoints and what arrives afterwards, for a browser socket that is not
    registered yet.  Either it stays in its loops, or it returns with the
    browser socket closed and the registry as it was; if both endpoints had
    accepted, their sockets are closed as well.  Or a connection attempt was
    refused with a message that does not fit a close frame: then the handler
    raises [ProtocolError], the registry being as it was. *)
Lemma hybrid_handler_ends
    json_loads key agent voice websocket path ai_conn tts_conn sched
    (st : state Hybrid.upstreams) :
  connections st !! websocket = None ->
  exists r st' acts,
    Hybrid.handle_browser_connection json_loads key agent voice websocket path
      ai_conn tts_conn sched st = (r, st')
    /\ trace st' = trace st ++ acts
    /\ ((r = Ret tt
         /\ websocket ∈ closed st'
         /\ connections st' = connections st
         /\ (split_head path = "/" ->
             forall ai tts,
               ai_conn = Connected ai -> tts_conn = Connected tts ->
               ai ∈ closed st' /\ tts ∈ closed st'))
        \/ (r = Suspended
            /\ first_failure sched = None
            /\ split_head path = "/"
            /\ exists ai tts,
                ai_conn = Connected ai /\ tts_conn = Connected tts)
        \/ (r = Raise ProtocolError
            /\ connections st' = connections st
            /\ exists e,
                oversized (StrOf e) = true
                /\ (ai_conn = Refused e
                    \/ exists ai, ai_conn = Connected ai /\ tts_conn = Refused e))).
Proof.
  intros Hnew. unfold Hybrid.handle_browser_connection.
  destruct (String.eqb_spec (split_head path) "/") as [Hpath|Hpath]; cbn [negb].
  - unfold bind at 1. rewrite log_did. cbv beta iota.
    destruct (hybrid_session_ends json_loads key agent voice websocket
                ai_conn tts_conn sched
                (did st [Log INFO [Lit "Browser connected from "; Peer websocket]]))
      as (r & st1 & acts & Hrun & Htrace & Hcases).
    unfold try_finally, try_except. rewrite Hrun.
    destruct Hcases
      as [(e & -> & Hconn & Href)
         |(ai & tts & -> & -> & Hconn & [(e & -> & Hshut)|[->|[-> Hnone]]])].
    + destruct (decide (websocket ∈ closed st1)) as [Hshut|Hopen];
        [|destruct (oversized (StrOf e)) eqn:Hsize].
      * rewrite hybrid_on_error_closed by done.
        rewrite hybrid_cleanup_unregistered
          by (cbn [did connections]; rewrite Hconn; exact Hnew).
        eexists _, _, _. split; [reflexivity|]. split.
        { cbn [after_close did trace]. rewrite Htrace. cbn [did trace].
          rewrite <- !app_assoc. reflexivity. }
        left. split; [done|]. split; [apply after_close_closed|]. split.
        { cbn [after_close did connections]. by rewrite Hconn. }
        intros _ ai tts -> ->. by destruct Href as [|(? & ? & ?)].
      * rewrite hybrid_on_error_oversized by done.
        rewrite hybrid_cleanup_unregistered
          by (cbn [did connections]; rewrite Hconn; exact Hnew).
        eexists _, _, _. split; [reflexivity|]. split.
        { cbn [after_close did trace]. rewrite Htrace. cbn [did trace].
          rewrite <- !app_assoc. reflexivity. }
        right. right. split; [done|]. split.
        { cbn [after_close did connections]. by rewrite Hconn. }
        by exists e.
      * rewrite hybrid_on_error_after by done.
        rewrite hybrid_cleanup_unregistered
          by (cbn [after_close did connections]; rewrite Hconn; exact Hnew).
        eexists _, _, _. split; [reflexivity|]. split.
        { cbn [after_close did trace]. rewrite Htrace. cbn [did trace].
          rewrite <- !app_assoc. reflexivity. }
        left. split; [done|]. split; [apply after_close_closed|]. split.
        { cbn [after_close did connections]. by rewrite Hconn. }
        intros _ ai tts -> ->. by destruct Href as [|(? & ? & ?)].
    + rewrite hybrid_on_error_closed by done.
      match goal with |- context [Hybrid.cleanup websocket ?s] =>
        destruct (hybrid_cleanup_registered websocket ai tts s)
          as (st' & acts' & Hclean & Hclosed & Hreg & Htr)
      end.
      { cbn [did connections]. rewrite Hconn. apply lookup_insert_eq. }
      rewrite Hclean. eexists _, _, _. split; [reflexivity|]. split.
      { rewrite Htr. cbn [did trace]. rewrite Htrace.
        cbn [did trace]. rewrite <- !app_assoc. reflexivity. }
      left. split; [done|]. rewrite Hclosed, Hreg.
      cbn [did connections]. rewrite Hconn.
      split; [set_solver|]. split; [by apply delete_insert_id|].
      intros _ ai' tts' [= <-] [= <-]. split; set_solver.
    + match goal with |- context [Hybrid.cleanup websocket ?s] =>
        destruct (hybrid_cleanup_registered websocket ai tts s)
          as (st' & acts' & Hclean & Hclosed & Hreg & Htr)
      end.
      { rewrite Hconn. apply lookup_insert_eq. }
      rewrite Hclean. eexists _, _, _. split; [reflexivity|]. split.
      { rewrite Htr, Htrace. cbn [did trace].
        rewrite <- !app_assoc. reflexivity. }
      left. split; [done|]. rewrite Hclosed, Hreg, Hconn.
      split; [set_solver|]. split; [by apply delete_insert_id|].
      intros _ ai' tts' [= <-] [= <-]. split; set_solver.
    + eexists _, _, _. split; [reflexivity|]. split.
      { rewrite Htrace. cbn [did trace]. rewrite <- !app_assoc. reflexivity. }
      right. left. eauto 8.
  - unfold bind. rewrite log_did, close_after by reflexivity.
    eexists _, _, _. split; [reflexivity|]. split.
    { cbn [after_close did trace]. rewrite <- !app_assoc. reflexivity. }
    left. split; [done|]. split; [apply after_close_closed|]. split; [done|].
    intros Hvalid. by destruct Hpath.
Qed.

(** The same for the two-way server, from the registration on. *)
Lemma two_way_session_ends json_loads websocket up sched (st : state handle) :
  exists r st1 acts,
    TwoWay.session json_loads websocket up sched st = (r, st1)
    /\ trace st1 = trace st ++ acts
    /\ connections st1 = <[websocket := up]> (connections st)
    /\ ((exists e, r = Raise e /\ websocket ∈ closed st1) \/ r = Ret tt
        \/ (r = Suspended /\ first_failure sched = None)).
Proof.
  unfold TwoWay.session.
  unfold bind at 1, register at 1. cbn [closed connections trace].
  unfold bind at 1. rewrite log_did. cbv beta iota.
  match goal with |- context [bind (send websocket _) _ ?s] =>
    destruct (decide (websocket ∈ closed s)) as [Hshut|Hopen] end.
  - unfold bind at 1. rewrite send_closed by done.
    eexists _, _, _. split; [reflexivity|]. split.
    + unfold did. cbn [trace]. rewrite <- !app_assoc. reflexivity.
    + eauto 8.
  - unfold bind at 1. rewrite send_open by done. cbv beta iota.
    unfold bind at 1. rewrite log_did. cbv beta iota.
    rewrite !did_did.
    match goal with |- context [try_except _ _ ?s] =>
      destruct (gather_ends _ (TwoWay.sock websocket up)
                  (two_way_message_returns json_loads websocket up)
                  (two_way_gone_raises json_loads websocket up) sched s)
        as (st' & Hrun & Hconn & _ & acts & Htrace & _)
    end.
    unfold try_except, TwoWay.pump. rewrite Hrun.
    destruct (first_failure sched) as [[code reason]|].
    + rewrite log_did.
      eexists _, _, _. split; [reflexivity|]. split.
      * rewrite trace_did, Htrace. unfold did. cbn [trace].
        rewrite <- !app_assoc. reflexivity.
      * rewrite connections_did, Hconn. eauto 8.
    + eexists _, _, _. split; [reflexivity|]. split.
      * rewrite Htrace. unfold did. cbn [trace].
        rewrite <- !app_assoc. reflexivity.
      * rewrite Hconn. eauto 8.
Qed.

Lemma two_way_handler_ends
    json_loads key agent websocket path conn sched (st : state handle) :
  connections st !! websocket = None ->
  exists r st' acts,
    TwoWay.handle_browser_connection json_loads key agent websocket path
      conn sched st = (r, st')
    /\ trace st' = trace st ++ acts
    /\ ((r = Ret tt
         /\ websocket ∈ closed st'
         /\ connections st' = connections st
         /\ (split_head path = "/" ->
             forall up, conn = Connected up -> up ∈ closed st'))
        \/ (r = Suspended
            /\ first_failure sched = None
            /\ split_head path = "/"
            /\ exists up, conn = Connected up)
        \/ (r = Raise ProtocolError
            /\ connections st' = connections st
            /\ exists e, oversized (StrOf e) = true /\ conn = Refused e)).
Proof.
  intros Hnew. unfold TwoWay.handle_browser_connection.
  destruct (String.eqb_spec (split_head path) "/") as [Hpath|Hpath]; cbn [negb].
  - unfold bind at 1. rewrite log_did. cbv beta iota.
    destruct conn as [up|e].
    + rewrite two_way_connected.
      match goal with |- context [try_finally _ _ ?s] =>
        destruct (two_way_session_ends json_loads websocket up sched s)
          as (r & st1 & acts & Hrun & Htrace & Hconn & Hcases)
      end.
      unfold try_finally, try_except. rewrite Hrun.
      cbn [connections trace] in Hconn, Htrace.
      destruct Hcases as [(e & -> & Hshut)|[->|[-> Hnone]]].
      * rewrite two_way_on_error_closed by done.
        match goal with |- context [TwoWay.cleanup websocket _ ?s] =>
          destruct (two_way_cleanup_registered websocket up s)
            as (st' & acts' & Hclean & Hclosed & Hreg & Htr)
        end.
        { cbn [did connections]. rewrite Hconn. apply lookup_insert_eq. }
        rewrite Hclean. eexists _, _, _. split; [reflexivity|]. split.
        { rewrite Htr. cbn [did trace]. rewrite Htrace.
          cbn [did trace]. rewrite <- !app_assoc. reflexivity. }
        left. split; [done|]. rewrite Hclosed, Hreg.
        cbn [did connections]. rewrite Hconn.
        split; [set_solver|]. split; [by apply delete_insert_id|].
        intros _ up' [= <-]. set_solver.
      * match goal with |- context [TwoWay.cleanup websocket _ ?s] =>
          destruct (two_way_cleanup_registered websocket up s)
            as (st' & acts' & Hclean & Hclosed & Hreg & Htr)
        end.
        { rewrite Hconn. apply lookup_insert_eq. }
        rewrite Hclean. eexists _, _, _. split; [reflexivity|]. split.
        { rewrite Htr, Htrace. cbn [did trace].
          rewrite <- !app_assoc. reflexivity. }
        left. split; [done|]. rewrite Hclosed, Hreg, Hconn.
        split; [set_solver|]. split; [by apply delete_insert_id|].
        intros _ up' [= <-]. set_solver.
      * eexists _, _, _. split; [reflexivity|]. split.
        { rewrite Htrace. cbn [did trace]. rewrite <- !app_assoc. reflexivity. }
        right. left. eauto 8.
    + rewrite two_way_refused. unfold try_finally, try_except, raise.
      match goal with |- context [TwoWay.on_error websocket e ?s] =>
        destruct (decide (websocket ∈ closed s)) as [Hshut|Hopen];
          [|destruct (oversized (StrOf e)) eqn:Hsize]
      end.
      * rewrite two_way_on_error_closed by done.
        rewrite two_way_cleanup_unregistered
          by (cbn [did connections]; exact Hnew).
        eexists _, _, _. split; [reflexivity|]. split.
        { cbn [after_close did trace]. rewrite <- !app_assoc. reflexivity. }
        left. split; [done|]. split; [apply after_close_closed|].
        split; [done|]. intros _ up [=].
      * rewrite two_way_on_error_oversized by done.
        rewrite two_way_cleanup_unregistered
          by (cbn [did connections]; exact Hnew).
        eexists _, _, _. split; [reflexivity|]. split.
        { cbn [after_close did trace]. rewrite <- !app_assoc. reflexivity. }
        right. right. split; [done|]. split; [done|]. by exists e.
      * rewrite two_way_on_error_after by done.
        rewrite two_way_cleanup_unregistered
          by (cbn [after_close did connections]; exact Hnew).
        eexists _, _, _. split; [reflexivity|]. split.
        { cbn [after_close did trace]. rewrite <- !app_assoc. reflexivity. }
        left. split; [done|]. split; [apply after_close_closed|].
        split; [done|]. intros _ up [=].
  - unfold bind. rewrite log_did, close_after by reflexivity.
    eexists _, _, _. split; [reflexivity|]. split.
    { cbn [after_close did trace]. rewrite <- !app_assoc. reflexivity. }
    left. split; [done|]. split; [apply after_close_closed|]. split; [done|].
    intros Hvalid. by destruct Hpath.
Qed.

Lemma reportable_fits e :
  reportable (Refused e) = true -> oversized (StrOf e) = false.
Proof.
  destruct e; try discriminate. cbn [reportable oversized].
  intros Hfits%Nat.leb_le. by apply Nat.ltb_ge.
Qed.

(** X14.  As long as an endpoint that refuses the connection does so with
    a message of at most 123 bytes, which is what fits the close frame, a
    connection handler never raises, whatever the path, the answers of the
    upstream endpoints and the frames and closures that follow.  It stays in
    its loops only while no [recv] has raised.  Otherwise it returns, and
    then the browser socket is closed and the registry is exactly as it was
    before the connection: the handler leaves no entry behind and touches no
    other session's entry.  In both servers. *)
Theorem handler_never_raises_and_leaves_registry_clean :
  forall json_loads key agent voice (websocket : handle) path
         ai_conn tts_conn,
    reportable ai_conn = true ->
    reportable tts_conn = true ->
    (forall sched (st : state Hybrid.upstreams),
        connections st !! websocket = None ->
        exists r st',
          Hybrid.handle_browser_connection json_loads key agent voice
            websocket path ai_conn tts_conn sched st = (r, st')
          /\ (r = Ret tt \/ r = Suspended)
          /\ (r = Ret tt ->
              websocket ∈ closed st' /\ connections st' = connections st)
          /\ (r = Suspended -> first_failure sched = None))
    /\ (forall sched (st : state handle),
        connections st !! websocket = None ->
        exists r st',
          TwoWay.handle_browser_connection json_loads key agent
            websocket path ai_conn sched st = (r, st')
          /\ (r = Ret tt \/ r = Suspended)
          /\ (r = Ret tt ->
              websocket ∈ closed st' /\ connections st' = connections st)
          /\ (r = Suspended -> first_failure sched = None)).
Proof.
  intros json_loads key agent voice websocket path ai_conn tts_conn
    Hai Htts.
  split; intros sched st Hnew.
  - destruct (hybrid_handler_ends json_loads key agent voice websocket path
                ai_conn tts_conn sched st Hnew)
      as (r & st' & acts & Hrun & _
          & [(-> & Hws & Hreg & _)
            |[(-> & Hnone & _)|(_ & _ & e & Hlong & Href)]]).
    + eexists _, st'. split; [exact Hrun|]. split; [tauto|].
      split; intros [=]; done.
    + eexists _, st'. split; [exact Hrun|]. split; [tauto|].
      split; intros [=]; done.
    + destruct Href as [->|(ai & -> & ->)];
        [rewrite (reportable_fits e Hai) in Hlong
        |rewrite (reportable_fits e Htts) in Hlong]; discriminate.
  - destruct (two_way_handler_ends json_loads key agent websocket path
                ai_conn sched st Hnew)
      as (r & st' & acts & Hrun & _
          & [(-> & Hws & Hreg & _)
            |[(-> & Hnone & _)|(_ & _ & e & Hlong & ->)]]).
    + eexists _, st'. split; [exact Hrun|]. split; [tauto|].
      split; intros [=]; done.
    + eexists _, st'. split; [exact Hrun|]. split; [tauto|].
      split; intros [=]; done.
    + rewrite (reportable_fits e Hai) in Hlong. discriminate.
Qed.

Lemma handler_never_raises_witness :
  let refusal :=
    Refused (ConnectError "server rejected WebSocket connection: HTTP 401") in
  exists r st',
    Hybrid.handle_browser_connection Json.loads "key" "agent" "voice"
      the_browser "/" (Connected the_ai) refusal
      [Arrive Hybrid.AI (Message "not json");
       Arrive Hybrid.Browser (Gone 1001 "going away")] idle = (r, st')
    /\ (r = Ret tt \/ r = Suspended)
    /\ (r = Ret tt ->
        the_browser ∈ closed st'
        /\ connections st' = connections (idle : state Hybrid.upstreams))
    /\ (r = Suspended ->
        first_failure [Arrive Hybrid.AI (Message "not json");
                       Arrive Hybrid.Browser (Gone 1001 "going away")] = None).
Proof.
  intros refusal.
  destruct (handler_never_raises_and_leaves_registry_clean Json.loads
              "key" "agent" "voice" the_browser "/"
              (Connected the_ai) refusal) as [Hhybrid _];
    [reflexivity..|].
  apply Hhybrid. reflexivity.
Defined.

(** X15.  Whenever a handler returns after its endpoints had accepted,
    the upstream sockets are closed: both the AI and the TTS socket in the
    three-way server when both had accepted, the one upstream socket in the
    two-way server.  This holds however the session ended, the client
    having gone away before the handshake event included. *)
Theorem accepted_upstream_sockets_closed_on_return :
  forall json_loads key agent voice (websocket ai tts : handle) path,
    split_head path = "/" ->
    (forall sched (st st' : state Hybrid.upstreams),
        connections st !! websocket = None ->
        Hybrid.handle_browser_connection json_loads key agent voice
          websocket path (Connected ai) (Connected tts) sched st = (Ret tt, st') ->
        ai ∈ closed st' /\ tts ∈ closed st')
    /\ (forall sched (st st' : state handle),
        connections st !! websocket = None ->
        TwoWay.handle_browser_connection json_loads key agent
          websocket path (Connected ai) sched st = (Ret tt, st') ->
        ai ∈ closed st').
Proof.
  intros json_loads key agent voice websocket ai tts path Hpath.
  split; intros sched st st' Hnew Hret.
  - destruct (hybrid_handler_ends json_loads key agent voice websocket path
                (Connected ai) (Connected tts) sched st Hnew)
      as (r & st'' & acts & Hrun & _ & Hcases).
    rewrite Hret in Hrun. injection Hrun as <- <-.
    destruct Hcases as [(_ & _ & _ & Hup)|[([=] & _)|([=] & _)]].
    by apply Hup.
  - destruct (two_way_handler_ends json_loads key agent websocket path
                (Connected ai) sched st Hnew)
      as (r & st'' & acts & Hrun & _ & Hcases).
    rewrite Hret in Hrun. injection Hrun as <- <-.
    destruct Hcases as [(_ & _ & _ & Hup)|[([=] & _)|([=] & _)]].
    by apply Hup.
Qed.

Lemma accepted_upstream_sockets_closed_witness :
  the_ai ∈ closed (snd (TwoWay.handle_browser_connection Json.loads
                          "key" "agent" the_browser "/" (Connected the_ai)
                          [Arrive TwoWay.Browser (Gone 1001 "going away")]
                          idle)).
Proof.
  destruct (accepted_upstream_sockets_closed_on_return Json.loads
              "key" "agent" "voice" the_browser the_ai the_tts "/" eq_refl)
    as [_ Htwo].
  apply (Htwo [Arrive TwoWay.Browser (Gone 1001 "going away")] idle).
  - reflexivity.
  - vm_compute. reflexivity.
Defined.

(** X16.  On a valid path with the endpoints accepting and the client
    still there, whatever arrives afterwards, the record of the handler
    starts the same way.  In the three-way server: the AI endpoint is
    dialled, then the TTS endpoint; the initialization message is the first
    thing sent on the TTS socket; the session is registered;
    [session.created] is the first thing sent to the client.  In the two-way
    server: the AI endpoint is dialled, the session is registered,
    [session.created] is sent.  No frame is handled before that. *)
Theorem handshake_precedes_everything :
  forall json_loads key agent voice (websocket ai tts : handle) path,
    split_head path = "/" ->
    websocket <> ai -> websocket <> tts ->
    (forall sched (st : state Hybrid.upstreams),
        websocket ∉ closed st ->
        exists later,
          trace (snd (Hybrid.handle_browser_connection json_loads key agent
                        voice websocket path (Connected ai) (Connected tts)
                        sched st))
          = trace st ++ hybrid_opening key agent voice websocket ai tts ++ later)
    /\ (forall sched (st : state handle),
        websocket ∉ closed st ->
        exists later,
          trace (snd (TwoWay.handle_browser_connection json_loads key agent
                        websocket path (Connected ai) sched st))
          = trace st ++ two_way_opening key agent websocket ai ++ later).
Proof.
  intros json_loads key agent voice websocket ai tts path Hpath Hai Htts.
  split; intros sched st Hopen.
  - rewrite hybrid_runs by done.
    destruct (gather_ends _ (Hybrid.sock websocket ai tts)
                (hybrid_message_returns json_loads websocket ai tts)
                (hybrid_gone_raises json_loads websocket ai tts) sched
                (hybrid_started key agent voice websocket ai tts st))
      as (st' & Hrun & Hconn & _ & acts & Htrace & _).
    unfold try_finally, try_except, Hybrid.pump. rewrite Hrun.
    destruct (first_failure sched) as [[code reason]|].
    + rewrite log_did.
      match goal with |- context [Hybrid.cleanup websocket ?s] =>
        destruct (hybrid_cleanup_registered websocket ai tts s)
          as (st'' & acts' & Hclean & _ & _ & Htr)
      end.
      { rewrite connections_did, Hconn. apply lookup_insert_eq. }
      rewrite Hclean. cbn [snd]. rewrite Htr, trace_did, Htrace.
      cbn [hybrid_started trace]. rewrite <- !app_assoc. eauto.
    + cbn [snd]. rewrite Htrace. cbn [hybrid_started trace].
      rewrite <- !app_assoc. eauto.
  - rewrite two_way_runs by done.
    destruct (gather_ends _ (TwoWay.sock websocket ai)
                (two_way_message_returns json_loads websocket ai)
                (two_way_gone_raises json_loads websocket ai) sched
                (two_way_started key agent websocket ai st))
      as (st' & Hrun & Hconn & _ & acts & Htrace & _).
    unfold try_finally, try_except, TwoWay.pump. rewrite Hrun.
    destruct (first_failure sched) as [[code reason]|].
    + rewrite log_did.
      match goal with |- context [TwoWay.cleanup websocket _ ?s] =>
        destruct (two_way_cleanup_registered websocket ai s)
          as (st'' & acts' & Hclean & _ & _ & Htr)
      end.
      { rewrite connections_did, Hconn. apply lookup_insert_eq. }
      rewrite Hclean. cbn [snd]. rewrite Htr, trace_did, Htrace.
      cbn [two_way_started trace]. rewrite <- !app_assoc. eauto.
    + cbn [snd]. rewrite Htrace. cbn [two_way_started trace].
      rewrite <- !app_assoc. eauto.
Qed.

Lemma handshake_precedes_everything_witness :
  exists later,
    trace (snd (Hybrid.handle_browser_connection Json.loads "key" "agent"
                  "voice" the_browser "/?model=gpt" (Connected the_ai)
                  (Connected the_tts)
                  [Arrive Hybrid.TTS (Message (Json.text "{'audio':'Zm9v'}"))]
                  idle))
    = trace (idle : state Hybrid.upstreams)
        ++ hybrid_opening "key" "agent" "voice" the_browser the_ai the_tts
        ++ later.
Proof.
  destruct (handshake_precedes_everything Json.loads "key" "agent" "voice"
              the_browser the_ai the_tts "/?model=gpt")
    as [Hhybrid _]; [reflexivity | discriminate | discriminate |].
  apply Hhybrid. vm_compute. set_solver.
Defined.

(** ** Which paths are served *)

(** X17.  The path test lets through exactly the root path, with or
    without a query string: [path.split("?")[0]] is ["/"] if and only if the
    path is ["/"] or starts with ["/?"].  Everything else is closed with
    1008, the empty path and paths such as ["/realtime"] or ["//"]
    included. *)
Theorem root_path_with_or_without_query_accepted :
  forall path,
    split_head path = "/"
    <-> path = "/" \/ exists query, path = "/?" +:+ query.
Proof.
  intros path. split.
  - destruct path as [|c [|c' rest]]; simpl.
    + discriminate.
    + destruct (Ascii.eqb_spec c "?"); [discriminate|].
      intros [= ->]. by left.
    + destruct (Ascii.eqb_spec c "?"); [discriminate|].
      destruct (Ascii.eqb_spec c' "?") as [->|]; [|discriminate].
      intros [= ->]. right. by exists rest.
  - intros [->|[query ->]]; reflexivity.
Qed.

(** ** Refused connection attempts *)










(** ** Start-up *)

(** X19.  The module-level statements of either server bind their
    settings exactly when [int(os.getenv("PORT", 3001))] does not raise and
    [ELEVENLABS_API_KEY] and [ELEVENLABS_AGENT_ID] are both set and not
    empty; the settings are then the values of the environment, the voice
    of the three-way server being [ELEVENLABS_VOICE_ID] or the default voice
    when unset.  A key set to the empty string is refused like a missing
    one, and a missing key is reported before a missing agent. *)
Theorem startup_needs_key_and_agent :
  forall (environ : gmap string string) (int : string -> option Z) s,
    (Startup.hybrid environ int = inr s
     <-> Startup.port environ int = inr (Startup.PORT s)
         /\ environ !! "ELEVENLABS_API_KEY" = Some (Startup.ELEVENLABS_API_KEY s)
         /\ Startup.ELEVENLABS_API_KEY s <> ""
         /\ environ !! "ELEVENLABS_AGENT_ID" = Some (Startup.ELEVENLABS_AGENT_ID s)
         /\ Startup.ELEVENLABS_AGENT_ID s <> ""
         /\ Startup.ELEVENLABS_VOICE_ID s
            = Some (default "Xb7hH8MSUJpSbSDYk0k2"
                            (environ !! "ELEVENLABS_VOICE_ID")))
    /\ (Startup.two_way environ int = inr s
        <-> Startup.port environ int = inr (Startup.PORT s)
            /\ environ !! "ELEVENLABS_API_KEY" = Some (Startup.ELEVENLABS_API_KEY s)
            /\ Startup.ELEVENLABS_API_KEY s <> ""
            /\ environ !! "ELEVENLABS_AGENT_ID" = Some (Startup.ELEVENLABS_AGENT_ID s)
            /\ Startup.ELEVENLABS_AGENT_ID s <> ""
            /\ Startup.ELEVENLABS_VOICE_ID s = None)
    /\ (forall p,
          Startup.port environ int = inr p ->
          Startup.unset (environ !! "ELEVENLABS_API_KEY") = true ->
          Startup.hybrid environ int
          = inl (Startup.ValueError "ELEVENLABS_API_KEY must be set in .env file")
          /\ Startup.two_way environ int
             = inl (Startup.ValueError "ELEVENLABS_API_KEY must be set in .env file")).
Proof.
  intros environ int [p k a v].
  unfold Startup.hybrid, Startup.two_way, Startup.getenv. cbn [Startup.PORT
    Startup.ELEVENLABS_API_KEY Startup.ELEVENLABS_AGENT_ID
    Startup.ELEVENLABS_VOICE_ID].
  split; [|split].
  - destruct (Startup.port environ int) as [f|p']; [naive_solver|].
    destruct (environ !! "ELEVENLABS_API_KEY") as [k'|]; cbn [Startup.unset];
      [destruct (String.eqb_spec k' "") as [->|Hk]|]; [naive_solver| |naive_solver].
    destruct (environ !! "ELEVENLABS_AGENT_ID") as [a'|]; cbn [Startup.unset];
      [destruct (String.eqb_spec a' "") as [->|Ha]|]; [naive_solver| |naive_solver].
    cbn [default]. naive_solver.
  - destruct (Startup.port environ int) as [f|p']; [naive_solver|].
    destruct (environ !! "ELEVENLABS_API_KEY") as [k'|]; cbn [Startup.unset];
      [destruct (String.eqb_spec k' "") as [->|Hk]|]; [naive_solver| |naive_solver].
    destruct (environ !! "ELEVENLABS_AGENT_ID") as [a'|]; cbn [Startup.unset];
      [destruct (String.eqb_spec a' "") as [->|Ha]|]; [naive_solver| |naive_solver].
    cbn [default]. naive_solver.
  - intros p' -> ->. done.
Qed.

Lemma startup_witness :
  let environ : gmap string string :=
    {[ "ELEVENLABS_API_KEY" := "sk_test"; "ELEVENLABS_AGENT_ID" := "agent_7" ]} in
  Startup.hybrid environ (fun _ => None)
  = inr (Startup.mkSettings 3001 "sk_test" "agent_7"
                            (Some "Xb7hH8MSUJpSbSDYk0k2")).
Proof.
  intros environ.
  apply (startup_needs_key_and_agent environ (fun _ => None)
           (Startup.mkSettings 3001 "sk_test" "agent_7"
                               (Some "Xb7hH8MSUJpSbSDYk0k2"))).
  repeat split; try discriminate; vm_compute; reflexivity.
Defined.
